(** * Engram SubagentStop hook: a shallow embedding of [subagent_stop.py]

    The script reads a JSON envelope from standard input, reconstructs the text
    of a sub-agent transcript (a JSONL event log), locates the most recent
    "learnings" section in it, segments that section into list items, cleans
    and filters them and posts each one to a local capture service.

    Conventions of the embedding.
    - A Python string is a [str], a list of characters.  A character is an
      [ascii] read as the code point U+0000 .. U+00FF; on that range the
      character classes of [re] and of [str.split] are exactly the ones
      written out in [Py] below.
    - [json.loads], the file system, standard input, the clock and the HTTP
      client are inputs of the functions that use them, with every way they
      can end: [json.loads] returns, rejects the text or raises something
      else; [Path.exists] answers or raises; reading a file can fail at
      [open] or in the middle of the iteration.
    - Calls to the logger do not influence any result and are left out.
    - A regular expression is a value of [Re.regex] run by a backtracking
      matcher with the search order of [re]. *)

From Stdlib Require Import Ascii String ZArith Lia Bool Arith PeanoNat List.
Import ListNotations.
Open Scope string_scope.
Open Scope nat_scope.
Open Scope list_scope.

Set Implicit Arguments.
Set Warnings "-register-all".

(** Python [str]. *)
Definition str := list ascii.

(** A literal. *)
Definition txt (s : string) : str := list_ascii_of_string s.

(* ===================================================================== *)
(** ** Python string primitives *)
(* ===================================================================== *)

Module Py.

Definition code (c : ascii) : nat := nat_of_ascii c.

(** [str.isspace] on one character, also the class [\s] of [re]:
    TAB LF VT FF CR, FS GS RS US, SPACE, NEL (U+0085), NBSP (U+00A0). *)
Definition isspace (c : ascii) : bool :=
  let n := code c in
  ((9 <=? n) && (n <=? 13)) || ((28 <=? n) && (n <=? 32))
  || (n =? 133) || (n =? 160).

(** The class [\d] of [re]: the decimal digits. *)
Definition isdigit (c : ascii) : bool :=
  let n := code c in (48 <=? n) && (n <=? 57).

(** Lower-casing as [re.IGNORECASE] needs it for the letters of the
    script's patterns, which are all ASCII. *)
Definition lower (c : ascii) : ascii :=
  let n := code c in
  if (65 <=? n) && (n <=? 90) then ascii_of_nat (n + 32) else c.

Definition newline : ascii := "010"%char.
Definition backslash : ascii := "092"%char.

(** [s.startswith(p)] *)
Fixpoint startswith (p s : str) : bool :=
  match p, s with
  | [], _ => true
  | _ :: _, [] => false
  | a :: p', b :: s' => Ascii.eqb a b && startswith p' s'
  end.

(** [s.lstrip()], [s.rstrip()] and [s.strip()] *)
Fixpoint lstrip (s : str) : str :=
  match s with
  | [] => []
  | c :: s' => if isspace c then lstrip s' else s
  end.

Definition rstrip (s : str) : str := rev (lstrip (rev s)).

Definition strip (s : str) : str := rstrip (lstrip s).

(** [s.split()]: the maximal runs of non-whitespace characters. *)
Fixpoint split (s : str) : list str :=
  match s with
  | [] => []
  | c :: s' =>
      if isspace c then split s'
      else match s' with
           | [] => [[c]]
           | d :: _ =>
               if isspace d then [c] :: split s'
               else match split s' with
                    | w :: ws => (c :: w) :: ws
                    | [] => [[c]]
                    end
           end
  end.

(** [sep.join(parts)] *)
Fixpoint join (sep : str) (parts : list str) : str :=
  match parts with
  | [] => []
  | [p] => p
  | p :: ps => p ++ sep ++ join sep ps
  end.

(** [s.replace("\\n", "\n")]: every backslash followed by [n] becomes a
    line feed, scanning from the left. *)
Fixpoint unescape_newlines (s : str) : str :=
  match s with
  | [] => []
  | c :: s' =>
      match s' with
      | d :: s'' =>
          if Ascii.eqb c backslash && Ascii.eqb d "n"%char
          then newline :: unescape_newlines s''
          else c :: unescape_newlines s'
      | [] => [c]
      end
  end.

(** [needle in s] for two strings. *)
Fixpoint contains (needle s : str) : bool :=
  startswith needle s ||
  match s with
  | [] => false
  | _ :: s' => contains needle s'
  end.

Definition text_eqb (a b : str) : bool :=
  (length a =? length b) && startswith a b.

End Py.

(* ===================================================================== *)
(** ** The fragment of [re] the script uses *)
(* ===================================================================== *)

Module Re.

(** Every repetition of the script's patterns is over a single character
    class, which keeps the matcher structurally recursive. *)
Inductive regex : Type :=
| Chr (p : ascii -> bool)                       (* one character of a class *)
| Rep (p : ascii -> bool) (lo : nat) (hi : option nat) (greedy : bool)
                                                (* p{lo,hi}, p{lo,hi}? *)
| Cat (r1 r2 : regex)                           (* r1 r2 *)
| Alt (r1 r2 : regex)                           (* r1|r2, left first *)
| Eps                                           (* the empty pattern *)
| Bol                                           (* ^ under re.MULTILINE *)
| Eol                                           (* $ under re.MULTILINE *)
| EndZ                                          (* \Z *)
| Ahead (r : regex)                             (* (?=r) *)
| Grp (r : regex).                              (* (r), group 1 *)

(** Where the matcher stands: the character before it (what [^] looks at),
    the text ahead, the number of characters consumed since the start of
    the match and the text of group 1 if it has been closed. *)
Record cursor : Type := Cursor {
  prev : option ascii;
  rest : str;
  pos : nat;
  grp : option str
}.

Definition is_newline (c : ascii) : bool := Ascii.eqb c Py.newline.

(** [p{lo,hi}] from one position.  A greedy repetition first tries to take
    one more character and falls back to stopping; a lazy one tries to stop
    first.  [k] is the rest of the pattern. *)
Fixpoint rep (A : Type) (p : ascii -> bool) (greedy : bool) (lo : nat)
    (hi : option nat) (pv : option ascii) (s : str) (n : nat)
    (k : option ascii -> str -> nat -> option A) {struct s} : option A :=
  let stop (_ : unit) :=
    match lo with
    | O => k pv s n
    | S _ => None
    end in
  let more (_ : unit) :=
    match hi, s with
    | Some O, _ => None
    | _, [] => None
    | _, c :: s' =>
        if p c
        then rep p greedy (Nat.pred lo) (option_map Nat.pred hi) (Some c) s' (S n) k
        else None
    end in
  if greedy
  then match more tt with
       | Some x => Some x
       | None => stop tt
       end
  else match stop tt with
       | Some x => Some x
       | None => more tt
       end.

(** The backtracking matcher in continuation style: [run r c k] is the first
    way, in the order [re] tries them, of matching [r] at [c] such that the
    rest of the pattern [k] succeeds after it. *)
Fixpoint run (A : Type) (r : regex) (c : cursor) (k : cursor -> option A)
    {struct r} : option A :=
  match r with
  | Chr p =>
      match rest c with
      | x :: s' => if p x then k (Cursor (Some x) s' (S (pos c)) (grp c)) else None
      | [] => None
      end
  | Rep p lo hi greedy =>
      rep p greedy lo hi (prev c) (rest c) (pos c)
          (fun pv s n => k (Cursor pv s n (grp c)))
  | Cat r1 r2 => run r1 c (fun c' => run r2 c' k)
  | Alt r1 r2 =>
      match run r1 c k with
      | Some x => Some x
      | None => run r2 c k
      end
  | Eps => k c
  | Bol =>
      match prev c with
      | None => k c
      | Some x => if is_newline x then k c else None
      end
  | Eol =>
      match rest c with
      | [] => k c
      | x :: _ => if is_newline x then k c else None
      end
  | EndZ =>
      match rest c with
      | [] => k c
      | _ :: _ => None
      end
  | Ahead r1 =>
      match run r1 c (fun _ => Some tt) with
      | Some _ => k c
      | None => None
      end
  | Grp r1 =>
      run r1 c (fun c' =>
        k (Cursor (prev c') (rest c') (pos c')
                  (Some (firstn (pos c' - pos c) (rest c)))))
  end.

(** One match attempt at a position: the length of the match and group 1. *)
Definition match_at (r : regex) (pv : option ascii) (s : str)
    : option (nat * option str) :=
  run r (Cursor pv s 0 None) (fun c => Some (pos c, grp c)).

(** A match object: [m.start()], [m.end()] and [m.group(1)]. *)
Record rmatch : Type := RMatch {
  m_start : nat;
  m_end : nat;
  m_group : option str
}.

(** [pattern.finditer(s)]: the non-overlapping matches from left to right.
    [skip] counts the characters of the previous match still to pass, [off]
    is the offset of [s] in the whole text.  None of the script's patterns
    matches the empty string (see [match_at_min_len]); an empty match would
    be recorded and the scan moved on by one character. *)
Fixpoint finditer_from (r : regex) (skip off : nat) (pv : option ascii)
    (s : str) : list rmatch :=
  match s with
  | [] =>
      match skip with
      | S _ => []
      | O => match match_at r pv [] with
             | Some (n, g) => [RMatch off (off + n) g]
             | None => []
             end
      end
  | c :: s' =>
      match skip with
      | S j => finditer_from r j (S off) (Some c) s'
      | O =>
          match match_at r pv s with
          | Some (n, g) =>
              RMatch off (off + n) g :: finditer_from r (Nat.pred n) (S off) (Some c) s'
          | None => finditer_from r 0 (S off) (Some c) s'
          end
      end
  end.

Definition finditer (r : regex) (s : str) : list rmatch :=
  finditer_from r 0 0 None s.

(** [re.findall(pattern, s)] for a pattern with one group. *)
Definition findall (r : regex) (s : str) : list str :=
  map (fun m => match m_group m with Some g => g | None => [] end)
      (finditer r s).

(** [re.search(pattern, s)] *)
Definition search (r : regex) (s : str) : option rmatch :=
  match finditer r s with
  | [] => None
  | m :: _ => Some m
  end.

(** [re.sub(pattern, r"\1", s)]: every match is replaced by its group 1,
    the text between matches is kept. *)
Fixpoint sub_group_from (r : regex) (skip : nat) (pv : option ascii)
    (s : str) : str :=
  match s with
  | [] =>
      match skip with
      | S _ => []
      | O => match match_at r pv [] with
             | Some (_, Some g) => g
             | _ => []
             end
      end
  | c :: s' =>
      match skip with
      | S j => sub_group_from r j (Some c) s'
      | O =>
          match match_at r pv s with
          | Some (S n, g) =>
              match g with Some t => t | None => [] end
              ++ sub_group_from r n (Some c) s'
          | Some (O, g) =>
              match g with Some t => t | None => [] end
              ++ c :: sub_group_from r 0 (Some c) s'
          | None => c :: sub_group_from r 0 (Some c) s'
          end
      end
  end.

Definition sub_group (r : regex) (s : str) : str :=
  sub_group_from r 0 None s.

(** A lower bound on the length of every match. *)
Fixpoint min_len (r : regex) : nat :=
  match r with
  | Chr _ => 1
  | Rep _ lo _ _ => lo
  | Cat r1 r2 => min_len r1 + min_len r2
  | Alt r1 r2 => Nat.min (min_len r1) (min_len r2)
  | Grp r1 => min_len r1
  | Eps | Bol | Eol | EndZ | Ahead _ => 0
  end.

(** ** Pattern syntax *)

Definition only (c : ascii) : ascii -> bool := Ascii.eqb c.
Definition except (c : ascii) : ascii -> bool := fun x => negb (Ascii.eqb c x).
Definition only_ci (c : ascii) : ascii -> bool :=
  fun x => Ascii.eqb (Py.lower c) (Py.lower x).
Definition one_of (cs : str) : ascii -> bool :=
  fun x => existsb (Ascii.eqb x) cs.
Definition any : ascii -> bool := fun _ => true.

(** A literal string, and a literal string under [re.IGNORECASE]. *)
Definition lit (s : string) : regex :=
  fold_right (fun c r => Cat (Chr (only c)) r) Eps (txt s).
Definition lit_ci (s : string) : regex :=
  fold_right (fun c r => Cat (Chr (only_ci c)) r) Eps (txt s).

(** [r?] on a group. *)
Definition opt (r : regex) : regex := Alt r Eps.

Definition star (p : ascii -> bool) : regex := Rep p 0 None true.      (* p* *)
Definition plus (p : ascii -> bool) : regex := Rep p 1 None true.      (* p+ *)
Definition plus_lazy (p : ascii -> bool) : regex := Rep p 1 None false. (* p+? *)
Definition maybe (p : ascii -> bool) : regex := Rep p 0 (Some 1) true. (* p? *)

End Re.

Declare Scope re_scope.
Delimit Scope re_scope with re.
Infix ";;" := Re.Cat (at level 61, right associativity) : re_scope.

(* ===================================================================== *)
(** ** Learnings extraction from the reconstructed text *)
(* ===================================================================== *)

Definition MIN_LEARNING_LENGTH : nat := 20.

(** [r"^#{2,3}\s+(?:Aprendizajes(?:\s+Clave)?|Key\s+Learnings?|Learnings?):?\s*$"]
    with [re.IGNORECASE | re.MULTILINE] *)
Definition header_pattern : Re.regex :=
  (Re.Bol ;; Re.Rep (Re.only "#") 2 (Some 3) true ;; Re.plus Py.isspace ;;
   Re.Alt (Re.lit_ci "Aprendizajes" ;;
           Re.opt (Re.plus Py.isspace ;; Re.lit_ci "Clave"))
     (Re.Alt (Re.lit_ci "Key" ;; Re.plus Py.isspace ;;
              Re.lit_ci "Learning" ;; Re.maybe (Re.only_ci "s"))
             (Re.lit_ci "Learning" ;; Re.maybe (Re.only_ci "s"))) ;;
   Re.maybe (Re.only ":") ;; Re.star Py.isspace ;; Re.Eol)%re.

(** [r"\n#{1,3} "] *)
Definition next_section_pattern : Re.regex :=
  (Re.Chr (Re.only Py.newline) ;; Re.Rep (Re.only "#") 1 (Some 3) true ;;
   Re.Chr (Re.only " "))%re.

(** [r"^\s*\d+[.)]\s+(.+?)(?=\n\s*\d+[.)]|\n\n|\Z)"]
    with [re.MULTILINE | re.DOTALL] *)
Definition numbered_pattern : Re.regex :=
  (Re.Bol ;; Re.star Py.isspace ;; Re.plus Py.isdigit ;;
   Re.Chr (Re.one_of (txt ".)")) ;; Re.plus Py.isspace ;;
   Re.Grp (Re.plus_lazy Re.any) ;;
   Re.Ahead
     (Re.Alt (Re.Chr (Re.only Py.newline) ;; Re.star Py.isspace ;;
              Re.plus Py.isdigit ;; Re.Chr (Re.one_of (txt ".)")))
        (Re.Alt (Re.Chr (Re.only Py.newline) ;; Re.Chr (Re.only Py.newline))
                Re.EndZ)))%re.

(** [r"^\s*[-*]\s+(.+?)(?=\n\s*[-*]|\n\n|\Z)"]
    with [re.MULTILINE | re.DOTALL] *)
Definition bullets_pattern : Re.regex :=
  (Re.Bol ;; Re.star Py.isspace ;; Re.Chr (Re.one_of (txt "-*")) ;;
   Re.plus Py.isspace ;;
   Re.Grp (Re.plus_lazy Re.any) ;;
   Re.Ahead
     (Re.Alt (Re.Chr (Re.only Py.newline) ;; Re.star Py.isspace ;;
              Re.Chr (Re.one_of (txt "-*")))
        (Re.Alt (Re.Chr (Re.only Py.newline) ;; Re.Chr (Re.only Py.newline))
                Re.EndZ)))%re.

(** [r"\*\*([^*]+)\*\*"] *)
Definition bold_pattern : Re.regex :=
  (Re.lit "**" ;; Re.Grp (Re.plus (Re.except "*")) ;; Re.lit "**")%re.

(** [r"`([^`]+)`"] *)
Definition code_pattern : Re.regex :=
  (Re.lit "`" ;; Re.Grp (Re.plus (Re.except "`")) ;; Re.lit "`")%re.

(** [r"\*([^*]+)\*"] *)
Definition italic_pattern : Re.regex :=
  (Re.lit "*" ;; Re.Grp (Re.plus (Re.except "*")) ;; Re.lit "*")%re.

(** [_clean_markdown(text)] *)
Definition _clean_markdown (text : str) : str :=
  let text := Re.sub_group bold_pattern text in
  let text := Re.sub_group code_pattern text in
  let text := Re.sub_group italic_pattern text in
  Py.join (txt " ") (Py.split text).

(** The test guarding [learnings.append(cleaned)]. *)
Definition valid_learning (cleaned : str) : bool :=
  (MIN_LEARNING_LENGTH <=? length cleaned)
  && negb (Py.startswith (txt "[") cleaned).

(** [for item in items: cleaned = _clean_markdown(item); if ...: learnings.append(cleaned)] *)
Fixpoint collect_valid (items : list str) (learnings : list str) : list str :=
  match items with
  | [] => learnings
  | item :: items' =>
      let cleaned := _clean_markdown item in
      if valid_learning cleaned
      then collect_valid items' (learnings ++ [cleaned])
      else collect_valid items' learnings
  end.

(** The section of one header match: the text after the match, cut at the
    next [next_section_pattern] if there is one. *)
Definition section_of (text : str) (m : Re.rmatch) : str :=
  let section_text := skipn (Re.m_end m) text in
  match Re.search next_section_pattern section_text with
  | Some next_section => firstn (Re.m_start next_section) section_text
  | None => section_text
  end.

(** The body of the loop over the header matches, from [learnings = []] to
    the test [if learnings:]. *)
Definition section_learnings (section_text : str) : list str :=
  let learnings : list str := [] in
  let numbered := Re.findall numbered_pattern section_text in
  let learnings :=
    match numbered with
    | [] => learnings
    | _ :: _ => collect_valid numbered learnings
    end in
  match learnings with
  | [] =>
      let bullets := Re.findall bullets_pattern section_text in
      collect_valid bullets learnings
  | _ :: _ => learnings
  end.

(** [for match in reversed(matches): ... if learnings: return learnings]
    and the final [return []]. *)
Fixpoint scan_sections (text : str) (candidates : list Re.rmatch) : list str :=
  match candidates with
  | [] => []
  | m :: older =>
      match section_learnings (section_of text m) with
      | [] => scan_sections text older
      | learnings => learnings
      end
  end.

(** [extract_learnings] from the line [if not text.strip()] on. *)
Definition learnings_of_text (text : str) : list str :=
  match Py.strip text with
  | [] => []
  | _ :: _ =>
      let matches := Re.finditer header_pattern text in
      match matches with
      | [] => []
      | _ :: _ => scan_sections text (rev matches)
      end
  end.

(* ===================================================================== *)
(** ** JSON values and the Python operations the script applies to them *)
(* ===================================================================== *)

(** What [json.loads] returns.  A [dict] is the list of its items (the keys
    of a parsed object are distinct); a [float] is kept as the mantissa and
    the exponent of its value, of which only "is it zero" is ever looked
    at. *)
Inductive json : Type :=
| JNull
| JBool (b : bool)
| JInt (n : Z)
| JFloat (mantissa exponent : Z)
| JStr (s : str)
| JList (items : list json)
| JObj (fields : list (str * json)).

(** The exceptions the model tells apart, all deriving from [Exception]. *)
Inductive error : Type :=
| TypeError
| AttributeError
| KeyError
| OSError
| ValueError
| RecursionError
| RequestException.

(** What a [raise] carries.  [SystemExit] is what [sys.exit] raises; it
    derives from [BaseException], so [except Exception] lets it through. *)
Inductive exc : Type :=
| SystemExit (code : Z)
| Exception (e : error).

Coercion Exception : error >-> exc.

Definition is_Exception (e : exc) : bool :=
  match e with
  | SystemExit _ => false
  | Exception _ => true
  end.

Inductive result (A : Type) : Type :=
| Ok (a : A)
| Raise (e : exc).
Arguments Ok {A} a.
Arguments Raise {A} e.

(** What a call into the outside world gives: a value, or one of the
    exceptions above. *)
Definition answer (A : Type) : Type := (error + A)%type.

Definition of_answer {A : Type} (r : answer A) : result A :=
  match r with
  | inl e => Raise e
  | inr a => Ok a
  end.

(** How [json.loads] ends on a text: it returns the parsed value, it raises
    [json.JSONDecodeError] because the text is not JSON, or it raises
    another exception ([ValueError] for an integer of more than 4300
    digits, [RecursionError] for a nesting too deep). *)
Inductive loaded : Type :=
| Parsed (v : json)
| NotJson
| LoadsRaises (e : error).

Module PyJson.

(** [bool(v)] *)
Definition truthy (v : json) : bool :=
  match v with
  | JNull => false
  | JBool b => b
  | JInt n => negb (n =? 0)%Z
  | JFloat m _ => negb (m =? 0)%Z
  | JStr s => match s with [] => false | _ :: _ => true end
  | JList l => match l with [] => false | _ :: _ => true end
  | JObj f => match f with [] => false | _ :: _ => true end
  end.

(** [v == "s"] for a string literal [s] *)
Definition eq_str (v : json) (s : str) : bool :=
  match v with
  | JStr t => Py.text_eqb t s
  | _ => false
  end.

Definition is_list (v : json) : bool :=
  match v with JList _ => true | _ => false end.

Definition is_dict (v : json) : bool :=
  match v with JObj _ => true | _ => false end.

(** Lookup in the items of a [dict]. *)
Fixpoint lookup (key : str) (fields : list (str * json)) : option json :=
  match fields with
  | [] => None
  | (k, v) :: fields' => if Py.text_eqb k key then Some v else lookup key fields'
  end.

(** [key in v]: a key of a dict, an element of a list, a substring of a
    string; anything else is not iterable. *)
Definition contains (key : str) (v : json) : result bool :=
  match v with
  | JObj fields => Ok (match lookup key fields with Some _ => true | None => false end)
  | JList items => Ok (existsb (fun x => eq_str x key) items)
  | JStr s => Ok (Py.contains key s)
  | _ => Raise TypeError
  end.

(** [v[key]] for a string key. *)
Definition item (v : json) (key : str) : result json :=
  match v with
  | JObj fields =>
      match lookup key fields with
      | Some x => Ok x
      | None => Raise KeyError
      end
  | _ => Raise TypeError
  end.

(** [v.get(key, default)]: only a dict has the method. *)
Definition get (v : json) (key : str) (default : json) : result json :=
  match v with
  | JObj fields =>
      match lookup key fields with
      | Some x => Ok x
      | None => Ok default
      end
  | _ => Raise AttributeError
  end.

(** [item.get(key)] where [item] is known to be a dict; [None] if absent. *)
Definition field (fields : list (str * json)) (key : str) : json :=
  match lookup key fields with
  | Some x => x
  | None => JNull
  end.

End PyJson.

(* ===================================================================== *)
(** ** Statements: state that survives an exception *)
(* ===================================================================== *)

(** A block of statements working on mutable state [S]: it returns the new
    state together with a value or the exception that ended it.  What was
    appended to a list before an exception stays appended. *)
Definition M (S A : Type) : Type := S -> S * result A.

Definition ret {S A : Type} (a : A) : M S A := fun s => (s, Ok a).

Definition bind {S A B : Type} (m : M S A) (f : A -> M S B) : M S B :=
  fun s =>
    match m s with
    | (s', Ok a) => f a s'
    | (s', Raise e) => (s', Raise e)
    end.

Definition raise {S A : Type} (e : exc) : M S A := fun s => (s, Raise e).

Definition lift {S A : Type} (r : result A) : M S A := fun s => (s, r).

Definition modify {S : Type} (f : S -> S) : M S unit := fun s => (f s, Ok tt).

(** [try: m  except Exception: handler] *)
Definition try_except {S A : Type} (m : M S A) (handler : exc -> M S A) : M S A :=
  fun s =>
    match m s with
    | (s', Ok a) => (s', Ok a)
    | (s', Raise e) => if is_Exception e then handler e s' else (s', Raise e)
    end.

(** [for x in xs: body] *)
Fixpoint for_each {S A : Type} (xs : list A) (body : A -> M S unit) : M S unit :=
  match xs with
  | [] => ret tt
  | x :: xs' => bind (body x) (fun _ => for_each xs' body)
  end.

(** A property of the state that a block keeps, however it ends. *)
Definition keeps {S A : Type} (P : S -> Prop) (m : M S A) : Prop :=
  forall s, P s -> P (fst (m s)).


Declare Scope stmt_scope.
Delimit Scope stmt_scope with stmt.
Notation "x <- m ;; k" := (bind m (fun x => k))
  (at level 61, m at next level, right associativity) : stmt_scope.
Notation "m ;;; k" := (bind m (fun _ => k))
  (at level 61, right associativity) : stmt_scope.

(** [lst.append(x)] *)
Definition append {A : Type} (x : A) : M (list A) unit :=
  modify (fun lst => lst ++ [x]).

(* ===================================================================== *)
(** ** The outside world *)
(* ===================================================================== *)

(** What a path names: nothing; something [stat] fails on with an error
    [Path.exists] does not swallow (a component longer than the file system
    allows, a directory that cannot be searched); something that exists but
    cannot be opened; a text file given by the lines its iteration yields;
    or a text file whose iteration yields some lines and then raises (a
    read error, or the [UnicodeDecodeError], a [ValueError], of a byte that
    is not UTF-8). *)
Inductive file : Type :=
| Missing
| Inaccessible
| Unreadable
| Readable (lines : list str)
| Interrupted (lines : list str) (e : error).

(** [path.exists()]: [False] when [stat] reports that nothing is there, the
    [OSError] of [stat] re-raised for any other failure. *)
Definition file_exists (f : file) : result bool :=
  match f with
  | Missing => Ok false
  | Inaccessible => Raise OSError
  | Unreadable | Readable _ | Interrupted _ _ => Ok true
  end.

(** The lines the iteration over a file yields. *)
Definition lines_of (f : file) : list str :=
  match f with
  | Readable lines | Interrupted lines _ => lines
  | Missing | Inaccessible | Unreadable => []
  end.

(** A [requests.Response]: what the script reads of it. *)
Record response : Type := Response {
  status_code : Z;
  body : str
}.

(** [Response.ok] of the [requests] library: [raise_for_status()] raises
    for a status from 400 to 599 and for no other. *)
Definition ok (resp : response) : bool :=
  negb ((400 <=? status_code resp)%Z && (status_code resp <? 600)%Z).

(** The payload of one POST. *)
Record observation : Type := Observation {
  o_title : str;
  o_content : str;
  o_type : str;
  o_project : str;
  o_session_id : json;
  o_agent_name : json;
  o_source : str;
  o_captured_at : str
}.

Record world : Type := World {
  (** [setup_logging()]: [LOG_DIR.mkdir(...)] and [logging.FileHandler(...)] *)
  w_setup_logging : answer unit;
  (** [sys.stdin.read()] *)
  w_stdin : answer str;
  (** [json.loads] *)
  w_json_loads : str -> loaded;
  (** the file system *)
  w_files : str -> file;
  (** [requests.get(f"{engram_url}/health", timeout=...)] *)
  w_get_health : answer response;
  (** the [n]-th [requests.post(f"{engram_url}/observations", json=...)] *)
  w_post : nat -> observation -> answer response;
  (** the [n]-th [datetime.now(timezone.utc).isoformat()] *)
  w_now : nat -> str;
  (** [str(v)] inside an f-string, for a value that is not a string *)
  w_str : json -> str
}.

(* ===================================================================== *)
(** ** Engram connectivity *)
(* ===================================================================== *)

(** [check_engram_health]: [resp.ok] of the answer, [False] when the request
    raised. *)
Definition check_engram_health (w : world) : bool :=
  match of_answer (w_get_health w) with
  | Ok resp => ok resp
  | Raise _ => false
  end.

(** [resp.json()]: the [JSONDecodeError] of [requests] is a [ValueError]. *)
Definition response_json (w : world) (resp : response) : result json :=
  match w_json_loads w (body resp) with
  | Parsed data => Ok data
  | NotJson => Raise ValueError
  | LoadsRaises e => Raise e
  end.

(** [save_to_engram]: the [n]-th POST.  The value returned is [data.get("id")]
    ([JNull] is Python's [None]); every exception gives [None]. *)
Definition save_to_engram (w : world) (n : nat) (obs : observation) : json :=
  let attempt : M unit json :=
    (resp <- lift (of_answer (w_post w n obs)) ;;
     if ok resp
     then (data <- lift (response_json w resp) ;;
           lift (PyJson.get data (txt "id") JNull))
     else ret JNull)%stmt in
  match try_except attempt (fun _ => ret JNull) tt with
  | (_, Ok v) => v
  | (_, Raise _) => JNull
  end.

(* ===================================================================== *)
(** ** Agent detection from the parent transcript *)
(* ===================================================================== *)

(** The body of [for item in content] in [detect_agent_name]. *)
Definition detect_item (item : json) : M (list json) unit :=
  match item with
  | JObj fields =>
      if PyJson.eq_str (PyJson.field fields (txt "type")) (txt "tool_use")
         && PyJson.eq_str (PyJson.field fields (txt "name")) (txt "Task")
      then (input <- lift (PyJson.get item (txt "input") (JObj [])) ;;
            subagent_type <- lift (PyJson.get input (txt "subagent_type") JNull) ;;
            if PyJson.truthy subagent_type then append subagent_type else ret tt)%stmt
      else ret tt
  | _ => ret tt
  end.

(** Format 1: [content], from [entry["message"]] or from [entry] itself. *)
Definition entry_content (entry : json) : M (list json) json :=
  (has_message <- lift (PyJson.contains (txt "message") entry) ;;
   if has_message : bool
   then (message <- lift (PyJson.item entry (txt "message")) ;;
         lift (PyJson.get message (txt "content") (JList [])))
   else (has_content <- lift (PyJson.contains (txt "content") entry) ;;
         if has_content : bool
         then lift (PyJson.get entry (txt "content") (JList []))
         else ret JNull))%stmt.

(** Format 2: [entry["tool_input"]]. *)
Definition detect_tool_input (entry : json) : M (list json) unit :=
  (has_tool_input <- lift (PyJson.contains (txt "tool_input") entry) ;;
   if has_tool_input : bool
   then (tool_input <- lift (PyJson.item entry (txt "tool_input")) ;;
         subagent_type <- lift (PyJson.get tool_input (txt "subagent_type") JNull) ;;
         if PyJson.truthy subagent_type then append subagent_type else ret tt)
   else ret tt)%stmt.

(** What [detect_agent_name] does with one parsed line. *)
Definition detect_entry (entry : json) : M (list json) unit :=
  (content <- entry_content entry ;;
   match content with
   | JList items => for_each items detect_item
   | _ => ret tt
   end ;;;
   detect_tool_input entry)%stmt.

(** [for raw_line in fh], shared by the two readers: blank lines and lines
    that [json.loads] rejects with [JSONDecodeError] are passed over; any
    other exception of [json.loads] leaves the loop. *)
Definition for_each_entry {S : Type} (w : world) (lines : list str)
    (body : json -> M S unit) : M S unit :=
  for_each lines (fun raw_line =>
    let line := Py.strip raw_line in
    match line with
    | [] => ret tt
    | _ :: _ =>
        match w_json_loads w line with
        | NotJson => ret tt
        | Parsed entry => body entry
        | LoadsRaises e => raise e
        end
    end).

(** [with path.open(...) as fh: for raw_line in fh: ...]: [open] raises, or
    the loop runs over the lines the file yields and the iteration may
    raise after the last of them. *)
Definition with_open {S : Type} (w : world) (path : str)
    (body : list str -> M S unit) : M S unit :=
  match w_files w path with
  | Readable lines => body lines
  | Interrupted lines e => (body lines ;;; raise e)%stmt
  | Missing | Inaccessible | Unreadable => raise OSError
  end.

Definition unknown : json := JStr (txt "unknown").

(** The list [found] when [detect_agent_name] reaches [if found:]. *)
Definition found_in (w : world) (path : str) : list json :=
  fst (try_except
         (with_open w path (fun fh => for_each_entry w fh detect_entry))
         (fun _ => ret tt) []).

(** [detect_agent_name(parent_transcript_path, logger)].  The test
    [path.exists()] stands before the [try]: what it raises leaves the
    function. *)
Definition detect_agent_name (w : world) (parent_transcript_path : str)
    : result json :=
  match parent_transcript_path with
  | [] => Ok unknown
  | _ :: _ =>
      match file_exists (w_files w parent_transcript_path) with
      | Raise e => Raise e
      | Ok false => Ok unknown
      | Ok true =>
          let found := found_in w parent_transcript_path in
          match found with
          | [] => Ok unknown
          | _ :: _ => Ok (last found unknown)
          end
      end
  end.

(* ===================================================================== *)
(** ** Text reconstruction and learnings extraction *)
(* ===================================================================== *)

(** [text.replace("\\n", "\n")] on a value that is truthy: only a string has
    the method. *)
Definition replace_newlines (text : json) : result json :=
  match text with
  | JStr s => Ok (JStr (Py.unescape_newlines s))
  | _ => Raise AttributeError
  end.

(** The body of [for item in content] for an assistant record. *)
Definition assistant_item (item : json) : M (list json) unit :=
  match item with
  | JObj fields =>
      if PyJson.eq_str (PyJson.field fields (txt "type")) (txt "text")
      then (text <- lift (PyJson.get item (txt "text") (JStr [])) ;;
            if PyJson.truthy text then append text else ret tt)%stmt
      else ret tt
  | _ => ret tt
  end.

(** The body of [for block in result_content]. *)
Definition result_block (block : json) : M (list json) unit :=
  match block with
  | JObj fields =>
      if PyJson.eq_str (PyJson.field fields (txt "type")) (txt "text")
      then (text <- lift (PyJson.get block (txt "text") (JStr [])) ;;
            if PyJson.truthy text
            then (replaced <- lift (replace_newlines text) ;; append replaced)
            else ret tt)%stmt
      else ret tt
  | _ => ret tt
  end.

(** The body of [for item in content] for a user record. *)
Definition user_item (item : json) : M (list json) unit :=
  match item with
  | JObj fields =>
      if PyJson.eq_str (PyJson.field fields (txt "type")) (txt "tool_result")
      then (result_content <- lift (PyJson.get item (txt "content") (JStr [])) ;;
            match result_content with
            | JList blocks => for_each blocks result_block
            | _ => ret tt
            end)%stmt
      else ret tt
  | _ => ret tt
  end.

(** [entry.get("message", {}).get("content", [])] followed by the loop over
    it when it is a list. *)
Definition for_message_content (entry : json)
    (body : json -> M (list json) unit) : M (list json) unit :=
  (message <- lift (PyJson.get entry (txt "message") (JObj [])) ;;
   content <- lift (PyJson.get message (txt "content") (JList [])) ;;
   match content with
   | JList items => for_each items body
   | _ => ret tt
   end)%stmt.

(** What [_extract_text_from_jsonl] does with one parsed line. *)
Definition extract_entry (entry : json) : M (list json) unit :=
  (type <- lift (PyJson.get entry (txt "type") JNull) ;;
   (if PyJson.eq_str type (txt "assistant")
    then for_message_content entry assistant_item
    else ret tt) ;;;
   type <- lift (PyJson.get entry (txt "type") JNull) ;;
   (if PyJson.eq_str type (txt "user")
    then for_message_content entry user_item
    else ret tt) ;;;
   type <- lift (PyJson.get entry (txt "type") JNull) ;;
   if PyJson.eq_str type (txt "tool_result")
   then (content <- lift (PyJson.get entry (txt "content") (JStr [])) ;;
         match content with
         | JStr (_ :: _) => (replaced <- lift (replace_newlines content) ;; append replaced)
         | _ => ret tt
         end)
   else ret tt)%stmt.

(** [sep.join(parts)]: a part that is not a string is a [TypeError]. *)
Fixpoint strings_of (parts : list json) : result (list str) :=
  match parts with
  | [] => Ok []
  | JStr s :: parts' =>
      match strings_of parts' with
      | Ok ss => Ok (s :: ss)
      | Raise e => Raise e
      end
  | _ :: _ => Raise TypeError
  end.

Definition join_parts (sep : str) (parts : list json) : result str :=
  match strings_of parts with
  | Ok ss => Ok (Py.join sep ss)
  | Raise e => Raise e
  end.

(** The list [parts] when [_extract_text_from_jsonl] reaches its [return]. *)
Definition transcript_parts (w : world) (transcript_path : str) : list json :=
  fst (try_except
         (with_open w transcript_path
            (fun fh => for_each_entry w fh extract_entry))
         (fun _ => ret tt) []).

(** [_extract_text_from_jsonl(transcript_path, logger)] *)
Definition _extract_text_from_jsonl (w : world) (transcript_path : str) : result str :=
  join_parts [Py.newline] (transcript_parts w transcript_path).

(** [extract_learnings(agent_transcript_path, logger)].  The test
    [path.exists()] is inside no [try]. *)
Definition extract_learnings (w : world) (agent_transcript_path : str)
    : result (list str) :=
  match agent_transcript_path with
  | [] => Ok []
  | _ :: _ =>
      match file_exists (w_files w agent_transcript_path) with
      | Raise e => Raise e
      | Ok false => Ok []
      | Ok true =>
          match _extract_text_from_jsonl w agent_transcript_path with
          | Ok text => Ok (learnings_of_text text)
          | Raise e => Raise e
          end
      end
  end.

(* ===================================================================== *)
(** ** Main orchestration *)
(* ===================================================================== *)

(** [s.split(sep)] for a one-character separator. *)
Fixpoint split_on (sep : ascii) (s : str) : list str :=
  match s with
  | [] => [[]]
  | c :: s' =>
      if Ascii.eqb c sep then [] :: split_on sep s'
      else match split_on sep s' with
           | part :: parts => (c :: part) :: parts
           | [] => [[c]]
           end
  end.

(** [Path(p).name] on a POSIX system: the last component of the path, where
    empty components and [.] do not count. *)
Definition path_name (p : str) : str :=
  last (filter (fun part =>
                  match part with
                  | [] => false
                  | _ :: _ => negb (Py.text_eqb part (txt "."))
                  end)
               (split_on "/" p))
       [].

(** [Path(v)]: a [TypeError] unless [v] is a string. *)
Definition as_path (v : json) : result str :=
  match v with
  | JStr p => Ok p
  | _ => Raise TypeError
  end.

(** [f"{v}"] *)
Definition format_value (w : world) (v : json) : str :=
  match v with
  | JStr s => s
  | _ => w_str w v
  end.

(** [sys.exit(code)] *)
Definition sys_exit {S A : Type} (code : Z) : M S A := raise (SystemExit code).

(** What a run leaves behind: the observations posted, in order, and the
    counter [saved_count]. *)
Record run_state : Type := RunState {
  posted : list observation;
  saved_count : nat
}.

(** The body of [for learning in learnings] in [main]. *)
Definition save_learning (w : world) (session_id agent_name : json)
    (project learning : str) : M run_state unit :=
  fun st =>
    let n := length (posted st) in
    let title :=
      txt "[" ++ format_value w agent_name ++ txt "] "
      ++ firstn 60 learning ++ txt "..." in
    let now_iso := w_now w n in
    let payload :=
      Observation title learning (txt "learning") project session_id agent_name
                  (txt "subagent-stop-hook") now_iso in
    let obs_id := save_to_engram w n payload in
    (RunState (posted st ++ [payload])
              (if PyJson.truthy obs_id then S (saved_count st) else saved_count st),
     Ok tt).

(** [json.loads(raw_input) if raw_input.strip() else {}], with [{}] for a
    [JSONDecodeError]. *)
Definition read_envelope (w : world) (raw_input : str) : result json :=
  match Py.strip raw_input with
  | [] => Ok (JObj [])
  | _ :: _ =>
      match w_json_loads w raw_input with
      | Parsed d => Ok d
      | NotJson => Ok (JObj [])
      | LoadsRaises e => Raise e
      end
  end.

(** The [try] block of [main]. *)
Definition main_try (w : world) : M run_state unit :=
  (raw_input <- lift (of_answer (w_stdin w)) ;;
   data <- lift (read_envelope w raw_input) ;;
   session_id <- lift (PyJson.get data (txt "session_id") (JStr [])) ;;
   agent_transcript <- lift (PyJson.get data (txt "agent_transcript_path") (JStr [])) ;;
   parent_transcript <- lift (PyJson.get data (txt "transcript_path") (JStr [])) ;;
   cwd <- lift (PyJson.get data (txt "cwd") (JStr [])) ;;
   project <-
     (if PyJson.truthy cwd
      then (p <- lift (as_path cwd) ;; ret (path_name p))
      else ret (txt "unknown")) ;;
   (* 1. Verify Engram is running *)
   (if negb (check_engram_health w) then sys_exit 0 else ret tt) ;;;
   (* 2. Verify we have a transcript to read *)
   transcript_exists <-
     (if PyJson.truthy agent_transcript
      then (p <- lift (as_path agent_transcript) ;; lift (file_exists (w_files w p)))
      else ret false) ;;
   (if negb transcript_exists then sys_exit 0 else ret tt) ;;;
   (* 3. Detect agent name from parent transcript *)
   agent_name <-
     (if PyJson.truthy parent_transcript
      then (p <- lift (as_path parent_transcript) ;; lift (detect_agent_name w p))
      else ret unknown) ;;
   (* 4. Extract learnings from agent transcript *)
   learnings <-
     (p <- lift (as_path agent_transcript) ;; lift (extract_learnings w p)) ;;
   match learnings with
   | [] => sys_exit 0
   | _ :: _ =>
       (* 5. Save each learning to Engram *)
       for_each learnings (save_learning w session_id agent_name project)
   end)%stmt.

(** [main()] *)
Definition main (w : world) : M run_state unit :=
  (lift (of_answer (w_setup_logging w)) ;;;
   try_except (main_try w) (fun _ => ret tt) ;;;
   sys_exit 0)%stmt.

(** How the interpreter ends the process: [SystemExit(code)] gives status
    [code], any other exception that reaches the top level prints a
    traceback and gives status 1, the end of the script gives status 0. *)
Definition exit_status (r : result unit) : Z :=
  match r with
  | Ok _ => 0
  | Raise (SystemExit code) => code
  | Raise _ => 1
  end.

(** A result that is not an exit with a status other than 0. *)
Definition exits_zero {A : Type} (r : result A) : Prop :=
  match r with
  | Raise (SystemExit code) => code = 0%Z
  | _ => True
  end.

(** A block none of whose runs ends in an exit with a status other than 0. *)
Definition quiet {S A : Type} (m : M S A) : Prop :=
  forall s, exits_zero (snd (m s)).

(** One invocation of the hook: what was posted, and the exit status. *)
Definition run_hook (w : world) : list observation * Z :=
  let '(st, r) := main w (RunState [] 0) in
  (posted st, exit_status r).

(* ===================================================================== *)
(** ** Declarative descriptions, to compare the code with *)
(* ===================================================================== *)

Module Spec.

(** The number of [#] a text starts with. *)
Fixpoint count_hashes (s : str) : nat :=
  match s with
  | c :: s' => if Ascii.eqb "#" c then S (count_hashes s') else 0
  | [] => 0
  end.

(** A line break followed by a header line of level [lo] to [hi]: one line
    feed, between [lo] and [hi] characters [#], one space. *)
Definition heading_at (lo hi : nat) (s : str) : bool :=
  match s with
  | c :: s' =>
      Ascii.eqb c Py.newline
      && (lo <=? count_hashes s') && (count_hashes s' <=? hi)
      && Py.startswith (txt " ") (skipn (count_hashes s') s')
  | [] => false
  end.

(** The text up to the first position where [stop] holds, or all of it. *)
Fixpoint up_to (stop : str -> bool) (s : str) : str :=
  match s with
  | [] => []
  | c :: s' => if stop s then [] else c :: up_to stop s'
  end.

(** The section body as the data model words it: the text after the header
    up to the next header of level at most the level of the header that
    opened the section, or the end of the text. *)
Definition section_body_by_level (level : nat) (after_header : str) : str :=
  up_to (heading_at 1 level) after_header.

(** [" ".join(s.split())] *)
Definition normalize_space (s : str) : str := Py.join (txt " ") (Py.split s).

(** No Markdown marker left: neither [*] nor a backquote. *)
Definition no_markers (s : str) : bool :=
  forallb (fun c => negb (Ascii.eqb "*" c) && negb (Ascii.eqb "`" c)) s.

(** The learnings of a list of raw items: the cleaned items that pass the
    validity test, in order. *)
Definition valid_items (items : list str) : list str :=
  filter valid_learning (map _clean_markdown items).

(** The raw items the learnings of a section are taken from: the numbered
    items if one of them passes the validity test, the bulleted items
    otherwise. *)
Definition chosen_items (section_text : str) : list str :=
  match valid_items (Re.findall numbered_pattern section_text) with
  | [] => Re.findall bullets_pattern section_text
  | _ :: _ => Re.findall numbered_pattern section_text
  end.

(** The [subagent_type] a Task [tool_use] item carries, if it is truthy. *)
Definition task_dispatch (item : json) : list json :=
  match item with
  | JObj fields =>
      if PyJson.eq_str (PyJson.field fields (txt "type")) (txt "tool_use")
         && PyJson.eq_str (PyJson.field fields (txt "name")) (txt "Task")
      then match PyJson.lookup (txt "input") fields with
           | Some (JObj input) =>
               let v := PyJson.field input (txt "subagent_type") in
               if PyJson.truthy v then [v] else []
           | _ => []
           end
      else []
  | _ => []
  end.

(** The [subagent_type] of a record's top-level [tool_input], if truthy. *)
Definition tool_input_dispatch (fields : list (str * json)) : list json :=
  match PyJson.lookup (txt "tool_input") fields with
  | Some (JObj tool_input) =>
      let v := PyJson.field tool_input (txt "subagent_type") in
      if PyJson.truthy v then [v] else []
  | _ => []
  end.

Definition dispatches_in (content : json) : list json :=
  match content with
  | JList items => flat_map task_dispatch items
  | _ => []
  end.

(** The content list the code inspects: the one of [message], or, for a
    record without [message], the record's own [content]. *)
Definition inspected_content (fields : list (str * json)) : json :=
  match PyJson.lookup (txt "message") fields with
  | Some (JObj message) =>
      match PyJson.lookup (txt "content") message with
      | Some c => c
      | None => JList []
      end
  | Some _ => JNull
  | None => PyJson.field fields (txt "content")
  end.

(** All matches of one record, in the order the code appends them. *)
Definition entry_dispatches (entry : json) : list json :=
  match entry with
  | JObj fields =>
      dispatches_in (inspected_content fields) ++ tool_input_dispatch fields
  | _ => []
  end.

(** The two record shapes as the claim words them: a Task [tool_use] item
    inside the content list of [message], and a top-level [tool_input]. *)
Definition claimed_dispatches (entry : json) : list json :=
  match entry with
  | JObj fields =>
      match PyJson.lookup (txt "message") fields with
      | Some (JObj message) =>
          dispatches_in (PyJson.field message (txt "content"))
      | _ => []
      end
      ++ tool_input_dispatch fields
  | _ => []
  end.

(** The records of a log: its lines that are not blank and parse. *)
Definition entries_of (w : world) (lines : list str) : list json :=
  flat_map (fun raw_line =>
              match Py.strip raw_line with
              | [] => []
              | line =>
                  match w_json_loads w line with
                  | Parsed entry => [entry]
                  | NotJson | LoadsRaises _ => []
                  end
              end) lines.

(** The last element of the list of matches, or ["unknown"]. *)
Definition last_or_unknown (found : list json) : json := last found unknown.

(** The detector as the claim words it, for a log that can be read. *)
Definition claimed_agent_name (w : world) (lines : list str) : json :=
  last_or_unknown (flat_map claimed_dispatches (entries_of w lines)).














(** A record of type ["user"] whose [message] holds the list [items]. *)
Definition user_record (items : list json) : json :=
  JObj [(txt "type", JStr (txt "user"));
        (txt "message", JObj [(txt "content", JList items)])].

(** What the claim asks of a learning: long enough, no leading bracket. *)
Definition acceptable (learning : str) : Prop :=
  MIN_LEARNING_LENGTH <= length learning
  /\ Py.startswith (txt "[") learning = false.

(** A word: not empty, no whitespace in it. *)
Definition is_word (w : str) : Prop :=
  w <> [] /\ forallb (fun c => negb (Py.isspace c)) w = true.

(** "Any 2xx response". *)
Definition is_2xx (resp : response) : bool :=
  ((200 <=? status_code resp)%Z && (status_code resp <? 300)%Z).

End Spec.

(* ===================================================================== *)
(** ** Concrete inputs *)
(* ===================================================================== *)

Module Examples.

(** The lines of a text, joined by line feeds. *)
Definition unlines (lines : list string) : str :=
  Py.join [Py.newline] (map txt lines).

(** JSON text written with apostrophes in place of the double quotes. *)
Definition json_text (s : string) : str :=
  map (fun c => if Ascii.eqb c "'" then "034"%char else c) (txt s).

(** A [json.loads] given by a table of texts, each with the way
    [json.loads] ends on it; a text not in the table is not JSON. *)
Fixpoint loads_table (table : list (str * loaded)) (line : str) : loaded :=
  match table with
  | [] => NotJson
  | (text, outcome) :: table' =>
      if Py.text_eqb text line then outcome else loads_table table' line
  end.

Definition markdown_sample : str := txt "**Use async** for `I/O`".

Definition nested_bold : str := txt "****a****".

(** A level-2 learnings header whose list is interrupted by a level-3
    header line. *)
Definition nested_headings : str :=
  unlines ["## Key Learnings:";
           "1. Validate every input boundary before parsing.";
           "### Details";
           "2. Cache misses should be logged at debug level."].

(** The match of [header_pattern] on its first line. *)
Definition nested_headings_match : Re.rmatch := Re.RMatch 0 17 None.

(** Three learnings sections: the oldest and the middle one are well
    formed, the most recent one holds only items that are too short. *)
Definition revised_report : str :=
  unlines ["## Learnings";
           "1. The first draft of this list is superseded below.";
           "## Key Learnings:";
           "1. Always validate input boundaries before parsing.";
           "2. Cache misses should log at debug level.";
           "### Learnings";
           "1. too short";
           "";
           "- also short"].

Definition revised_report_oldest : Re.rmatch := Re.RMatch 0 12 None.
Definition revised_report_middle : Re.rmatch := Re.RMatch 66 83 None.
Definition revised_report_newest : Re.rmatch := Re.RMatch 179 192 None.

(** A numbered list of three items, the second of which is too short. *)
Definition three_items : str :=
  unlines ["## Key Learnings:";
           "1. Always validate input boundaries before parsing.";
           "2. Be careful.";
           "3. Cache misses should log at debug level."].

(** A numbered list of three items, the second of which is a placeholder. *)
Definition three_items_placeholder : str :=
  unlines ["## Key Learnings:";
           "1. Always validate input boundaries before parsing.";
           "2. [describe the second learning of this run here]";
           "3. Cache misses should log at debug level."].

(** Numbered markers whose items all fail the test, then a bulleted list. *)
Definition numbered_then_bullets : str :=
  unlines ["";
           "1. too short";
           "2. [a placeholder that is long enough]";
           "";
           "- Prefer small pure functions over shared state.";
           "- Log every retry with its attempt number."].

(** A numbered list followed by a bulleted one. *)
Definition numbered_and_bullets : str :=
  unlines ["";
           "1. Always validate input boundaries before parsing.";
           "";
           "- Prefer small pure functions over shared state."].

(** A world in which only the given logs exist.  A log is a path and its
    lines, each line with the way [json.loads] ends on it; nothing else is
    JSON.
    Logging works, standard input is empty and the capture service does
    not answer. *)
Definition world_of_logs (logs : list (str * list (str * loaded))) : world :=
  World (inr tt) (inr [])
        (loads_table (flat_map snd logs))
        (fun path =>
           match find (fun log => Py.text_eqb (fst log) path) logs with
           | Some log => Readable (map fst (snd log))
           | None => Missing
           end)
        (inl RequestException)
        (fun _ _ => inl RequestException)
        (fun _ => [])
        (fun _ => []).

(** A pre-execution record: a top-level [tool_input] naming the agent. *)
Definition pre_tool_use (agent : string) : json :=
  JObj [(txt "tool_input", JObj [(txt "subagent_type", JStr (txt agent))])].

(** A record whose [message] holds a Task [tool_use] item. *)
Definition task_call (agent : string) : json :=
  JObj [(txt "type", JStr (txt "assistant"));
        (txt "message",
         JObj [(txt "content",
                JList [JObj [(txt "type", JStr (txt "tool_use"));
                             (txt "name", JStr (txt "Task"));
                             (txt "input",
                              JObj [(txt "subagent_type", JStr (txt agent))])]])])].

Definition parent_path : str := txt "/tmp/parent.jsonl".

(** A parent log whose second record has a string where the code expects
    the [message] object. *)
Definition interrupted_parent_log : list (str * loaded) :=
  [(json_text "{'tool_input': {'subagent_type': 'planner'}}",
    Parsed (pre_tool_use "planner"));
   (json_text "{'type': 'system', 'message': 'session resumed'}",
    Parsed (JObj [(txt "type", JStr (txt "system"));
                (txt "message", JStr (txt "session resumed"))]));
   (json_text "{'tool_input': {'subagent_type': 'reviewer'}}",
    Parsed (pre_tool_use "reviewer"))].

Definition interrupted_world : world :=
  world_of_logs [(parent_path, interrupted_parent_log)].

(** A parent log with both record shapes, a line that is not JSON and a
    blank line. *)
Definition mixed_parent_log : list (str * loaded) :=
  [(json_text "{'type': 'assistant', 'message': {'content': [{'type': 'tool_use', 'name': 'Task', 'input': {'subagent_type': 'planner'}}]}}",
    Parsed (task_call "planner"));
   (txt "not json", NotJson);
   (txt "   ", NotJson);
   (json_text "{'tool_input': {'subagent_type': 'reviewer'}}",
    Parsed (pre_tool_use "reviewer"));
   (json_text "{'type': 'user', 'message': {'content': 'thanks'}}",
    Parsed (JObj [(txt "type", JStr (txt "user"));
                (txt "message", JObj [(txt "content", JStr (txt "thanks"))])]))].

Definition mixed_world : world :=
  world_of_logs [(parent_path, mixed_parent_log)].

Definition agent_path : str := txt "/tmp/agent.jsonl".

(** A [text] block. *)
Definition text_block (text : str) : json :=
  JObj [(txt "type", JStr (txt "text")); (txt "text", JStr text)].

(** An assistant record holding one [text] block. *)
Definition assistant_says (text : str) : json :=
  JObj [(txt "type", JStr (txt "assistant"));
        (txt "message", JObj [(txt "content", JList [text_block text])])].

(** An agent log whose only record reports [three_items]. *)
Definition three_items_log : list (str * loaded) :=
  [(json_text "{'type': 'assistant', 'message': {'content': [{'type': 'text', 'text': '## Key Learnings:\n1. Always validate input boundaries before parsing.\n2. Be careful.\n3. Cache misses should log at debug level.'}]}}",
    Parsed (assistant_says three_items))].

Definition three_items_world : world :=
  world_of_logs [(agent_path, three_items_log)].

(** An agent log whose only record reports [revised_report]. *)
Definition revised_report_log : list (str * loaded) :=
  [(json_text "{'type': 'assistant', 'message': {'content': [{'type': 'text', 'text': '## Learnings\n1. The first draft of this list is superseded below.\n## Key Learnings:\n1. Always validate input boundaries before parsing.\n2. Cache misses should log at debug level.\n### Learnings\n1. too short\n\n- also short'}]}}",
    Parsed (assistant_says revised_report))].

Definition revised_report_world : world :=
  world_of_logs [(agent_path, revised_report_log)].

(** The body with which the capture service acknowledges a submission. *)
Definition saved_body : str := json_text "{'id': 7}".

(** A capture service that answers every request with the given status,
    and every POST with [saved_body]; no file exists. *)
Definition service_world (status : Z) : world :=
  World (inr tt) (inr [])
        (loads_table [(saved_body, Parsed (JObj [(txt "id", JInt 7)]))])
        (fun _ => Missing)
        (inr (Response status []))
        (fun _ _ => inr (Response status saved_body))
        (fun _ => [])
        (fun _ => []).

Definition sample_observation : observation :=
  Observation (txt "[reviewer] Cache misses should log at debug level....")
              (txt "Cache misses should log at debug level.")
              (txt "learning") (txt "proj") (JStr []) (JStr (txt "reviewer"))
              (txt "subagent-stop-hook") [].

(** A [tool_result] item with the given content. *)
Definition tool_result (content : json) : json :=
  JObj [(txt "type", JStr (txt "tool_result")); (txt "content", content)].

(** An agent log: an assistant turn, then a user record with the string
    result of a shell tool and the list result of a sub-task whose text
    holds a backslash followed by [n]. *)
Definition tool_results_log : list (str * loaded) :=
  [(json_text "{'type': 'assistant', 'message': {'content': [{'type': 'text', 'text': 'Running the checks.'}]}}",
    Parsed (JObj [(txt "type", JStr (txt "assistant"));
                (txt "message",
                 JObj [(txt "content", JList [text_block (txt "Running the checks.")])])]));
   (json_text "{'type': 'user', 'message': {'content': [{'type': 'tool_result', 'content': '## Learnings'}, {'type': 'tool_result', 'content': [{'type': 'text', 'text': 'done\\nall green'}]}]}}",
    Parsed (Spec.user_record
            [tool_result (JStr (txt "## Learnings"));
             tool_result (JList [text_block (txt "done\nall green")])]))].

Definition tool_results_world : world :=
  world_of_logs [(agent_path, tool_results_log)].




(** A parent log on whose second line [json.loads] raises
    [RecursionError]: a nesting too deep. *)
Definition deep_line_log : list (str * loaded) :=
  [(json_text "{'tool_input': {'subagent_type': 'planner'}}",
    Parsed (pre_tool_use "planner"));
   (txt "[[[[[[[[", LoadsRaises RecursionError);
   (json_text "{'tool_input': {'subagent_type': 'reviewer'}}",
    Parsed (pre_tool_use "reviewer"))].

Definition deep_line_world : world :=
  world_of_logs [(parent_path, deep_line_log)].

(** A parent path on which [Path.exists] raises: a name of 300 characters,
    more than the file system allows.  Nothing else exists. *)
Definition long_name_path : str :=
  txt "/tmp/" ++ repeat "a"%char 300 ++ txt ".jsonl".

Definition long_name_world : world :=
  World (inr tt) (inr [])
        (fun _ => NotJson)
        (fun path => if Py.text_eqb path long_name_path then Inaccessible else Missing)
        (inl RequestException)
        (fun _ _ => inl RequestException)
        (fun _ => [])
        (fun _ => []).

(** The envelope the host writes to standard input. *)
Definition envelope : str :=
  json_text "{'agent_transcript_path': '/tmp/agent.jsonl', 'transcript_path': '/tmp/parent.jsonl', 'cwd': '/work/proj'}".

Definition envelope_value : json :=
  JObj [(txt "agent_transcript_path", JStr agent_path);
        (txt "transcript_path", JStr parent_path);
        (txt "cwd", JStr (txt "/work/proj"))].

(** An agent log reporting two learnings. *)
Definition two_learnings_log : list (str * loaded) :=
  [(json_text "{'type': 'assistant', 'message': {'content': [{'type': 'text', 'text': '## Key Learnings:\n1. Always validate input boundaries before parsing.\n2. Cache misses should log at debug level.'}]}}",
    Parsed (assistant_says
            (unlines ["## Key Learnings:";
                      "1. Always validate input boundaries before parsing.";
                      "2. Cache misses should log at debug level."])))].

(** A parent log naming the agent [reviewer]. *)
Definition reviewer_log : list (str * loaded) :=
  [(json_text "{'type': 'assistant', 'message': {'content': [{'type': 'tool_use', 'name': 'Task', 'input': {'subagent_type': 'reviewer'}}]}}",
    Parsed (task_call "reviewer"))].

(** A complete run: the envelope on standard input, both logs in place and
    a capture service that accepts every submission.  [logging] is what
    [setup_logging] does. *)
Definition hook_world (logging : answer unit) : world :=
  World logging (inr envelope)
        (loads_table ((envelope, Parsed envelope_value)
                      :: (saved_body, Parsed (JObj [(txt "id", JInt 7)]))
                      :: two_learnings_log ++ reviewer_log))
        (fun path =>
           if Py.text_eqb path agent_path then Readable (map fst two_learnings_log)
           else if Py.text_eqb path parent_path then Readable (map fst reviewer_log)
           else Missing)
        (inr (Response 200 []))
        (fun _ _ => inr (Response 201 saved_body))
        (fun _ => txt "2026-01-01T00:00:00+00:00")
        (fun _ => []).

(** The log directory cannot be created: [LOG_DIR.mkdir] raises [OSError]. *)
Definition unwritable_log_dir_world : world := hook_world (inl OSError).

End Examples.

(* ===================================================================== *)
(** ** Further descriptions *)
(* ===================================================================== *)

Module Hook.

(** [data.get(key, "")] on the fields of the envelope. *)
Definition envelope_field (fields : list (str * json)) (key : string) : json :=
  match PyJson.lookup (txt key) fields with
  | Some v => v
  | None => JStr []
  end.

(** A value [Path(...)] is never applied to, or can be applied to: a falsy
    value or a string. *)
Definition falsy_or_str (v : json) : Prop :=
  PyJson.truthy v = false \/ exists s, v = JStr s.

(** The project name [main] derives from [cwd]. *)
Definition project_of (cwd : json) : str :=
  match cwd with
  | JStr (c :: p) => path_name (c :: p)
  | _ => txt "unknown"
  end.

(** [detect_agent_name(parent_transcript, logger)] as [main] calls it, on
    the value of [transcript_path]: the sentinel for a falsy value, the
    [TypeError] of [Path] for a truthy value that is not a string. *)
Definition agent_of (w : world) (parent_transcript : json) : result json :=
  match parent_transcript with
  | JStr p => detect_agent_name w p
  | v => if PyJson.truthy v then Raise TypeError else Ok unknown
  end.

(** The title of the observation posted for a learning. *)
Definition title_of (w : world) (agent_name : json) (learning : str) : str :=
  txt "[" ++ format_value w agent_name ++ txt "] "
  ++ firstn 60 learning ++ txt "...".

(** What every observation of one run has in common. *)
Definition post_of (w : world) (session_id agent_name : json) (project : str)
    (o : observation) : Prop :=
  o_title o = title_of w agent_name (o_content o)
  /\ o_type o = txt "learning"
  /\ o_project o = project
  /\ o_session_id o = session_id
  /\ o_agent_name o = agent_name
  /\ o_source o = txt "subagent-stop-hook".

(** The submissions that came back with a truthy id, counted from the
    [n]-th POST on. *)
Fixpoint acknowledged (w : world) (n : nat) (posts : list observation) : nat :=
  match posts with
  | [] => 0
  | o :: posts' =>
      (if PyJson.truthy (save_to_engram w n o) then 1 else 0)
      + acknowledged w (S n) posts'
  end.

End Hook.

(** The world [w] with the file at [path] replaced by [f]. *)
Definition with_file (w : world) (path : str) (f : file) : world :=
  World (w_setup_logging w) (w_stdin w) (w_json_loads w)
        (fun p => if Py.text_eqb p path then f else w_files w p)
        (w_get_health w) (w_post w) (w_now w) (w_str w).

(** A line the readers pass over: blank, or rejected by [json.loads] with
    [JSONDecodeError]. *)
Definition skipped_line (w : world) (raw_line : str) : Prop :=
  Py.strip raw_line = [] \/ w_json_loads w (Py.strip raw_line) = NotJson.

(** The character before offset [i] of [s], where [pv] stands before [s]. *)
Definition prev_at (pv : option ascii) (s : str) (i : nat) : option ascii :=
  match i with
  | O => pv
  | S j => nth_error s j
  end.

(** The cursor stands at the end of a line. *)
Definition at_line_end (s : str) : Prop :=
  match s with
  | [] => True
  | c :: _ => c = Py.newline
  end.

(** The cursor stands at the start of a line. *)
Definition at_line_start (pv : option ascii) : Prop :=
  match pv with
  | None => True
  | Some c => c = Py.newline
  end.

(** The pattern ends with [$]. *)
Fixpoint ends_with_eol (r : Re.regex) : bool :=
  match r with
  | Re.Eol => true
  | Re.Cat _ r2 => ends_with_eol r2
  | _ => false
  end.

(** The pattern starts with [^]. *)
Definition starts_with_bol (r : Re.regex) : bool :=
  match r with
  | Re.Cat Re.Bol _ => true
  | _ => false
  end.

(** A value [str.join] accepts as a part. *)
Definition is_string (v : json) : Prop := exists s, v = JStr s.

(** An item of an assistant record that adds nothing but a string to the
    parts: anything but a [text] block whose [text] is truthy and not a
    string. *)
Definition joinable_text_block (item : json) : bool :=
  match item with
  | JObj fields =>
      if PyJson.eq_str (PyJson.field fields (txt "type")) (txt "text")
      then match PyJson.lookup (txt "text") fields with
           | Some (JStr _) | None => true
           | Some v => negb (PyJson.truthy v)
           end
      else true
  | _ => true
  end.

(** A record all of whose assistant text blocks are joinable; a record of
    another type is. *)
Definition joinable_record (entry : json) : bool :=
  match entry with
  | JObj fields =>
      if PyJson.eq_str (PyJson.field fields (txt "type")) (txt "assistant")
      then match PyJson.lookup (txt "message") fields with
           | Some (JObj message) =>
               match PyJson.lookup (txt "content") message with
               | Some (JList items) => forallb joinable_text_block items
               | _ => true
               end
           | _ => true
           end
      else true
  | _ => true
  end.

(** An agent log whose assistant record holds a number where the text of
    a block is expected. *)
Definition numeric_text_log : list (str * loaded) :=
  [(Examples.json_text "{'type': 'assistant', 'message': {'content': [{'type': 'text', 'text': 5}]}}",
    Parsed (JObj [(txt "type", JStr (txt "assistant"));
                  (txt "message",
                   JObj [(txt "content",
                          JList [JObj [(txt "type", JStr (txt "text"));
                                       (txt "text", JInt 5)]])])]))].

Definition numeric_text_world : world :=
  Examples.world_of_logs [(Examples.agent_path, numeric_text_log)].

(** The phrases a learnings header is written with. *)
Definition header_keywords : list string :=
  ["Aprendizajes"; "Aprendizajes Clave"; "Key Learnings"; "Key Learning";
   "Learnings"; "Learning"].

(** A header line: the [#] marks, one space, the phrase and, if wanted, a
    colon. *)
Definition header_line (hashes keyword : string) (colon : bool) : str :=
  txt hashes ++ txt " " ++ txt keyword ++ (if colon then txt ":" else []).

(** Every character class of the pattern lies within [q]. *)
Fixpoint classes_within (q : ascii -> bool) (r : Re.regex) : Prop :=
  match r with
  | Re.Chr p | Re.Rep p _ _ _ => forall x, p x = true -> q x = true
  | Re.Cat r1 r2 | Re.Alt r1 r2 => classes_within q r1 /\ classes_within q r2
  | Re.Ahead r1 | Re.Grp r1 => classes_within q r1
  | Re.Eps | Re.Bol | Re.Eol | Re.EndZ => True
  end.

Definition not_hash (c : ascii) : bool := negb (Ascii.eqb "#" c).

(** Every character class of the pattern tells no letter from its
    lower-case form. *)
Fixpoint case_blind (r : Re.regex) : Prop :=
  match r with
  | Re.Chr p | Re.Rep p _ _ _ => forall x, p (Py.lower x) = p x
  | Re.Cat r1 r2 | Re.Alt r1 r2 => case_blind r1 /\ case_blind r2
  | Re.Ahead r1 | Re.Grp r1 => case_blind r1
  | Re.Eps | Re.Bol | Re.Eol | Re.EndZ => True
  end.

(** The cursor over the lower-cased text. *)
Definition lower_cursor (c : Re.cursor) : Re.cursor :=
  Re.Cursor (option_map Py.lower (Re.prev c)) (map Py.lower (Re.rest c))
            (Re.pos c) (option_map (map Py.lower) (Re.grp c)).

(** The match over the lower-cased text. *)
Definition lower_match (m : Re.rmatch) : Re.rmatch :=
  Re.RMatch (Re.m_start m) (Re.m_end m) (option_map (map Py.lower) (Re.m_group m)).

(** Where a match stands. *)
Definition span (m : Re.rmatch) : nat * nat := (Re.m_start m, Re.m_end m).

(* ===================================================================== *)
(** * Properties *)
(* ===================================================================== *)

(** Unfolds the matcher on a pattern without unfolding the character tests. *)
Ltac re_unfold :=
  unfold Re.match_at, Re.lit, Re.lit_ci, Re.plus, Re.star, Re.plus_lazy,
    Re.maybe, Re.opt;
  cbn [Re.run Re.rep fold_right txt list_ascii_of_string
       Re.rest Re.pos Re.prev Re.grp].

(** ** Substitution leaves a text without the marker unchanged *)

Section SubIdentity.
Variable r : Re.regex.
Variable starts : ascii -> bool.
Hypothesis no_empty : forall pv, Re.match_at r pv [] = None.
Hypothesis needs_start :
  forall pv c s, starts c = false -> Re.match_at r pv (c :: s) = None.

Lemma sub_group_from_unchanged (s : str) :
  forall pv, forallb (fun c => negb (starts c)) s = true ->
  Re.sub_group_from r 0 pv s = s.
Proof.
  induction s as [|c s IH]; intros pv Hs; simpl.
  - now rewrite no_empty.
  - simpl in Hs. apply andb_true_iff in Hs as [Hc Hs].
    apply negb_true_iff in Hc.
    rewrite (needs_start pv s Hc). now rewrite IH.
Qed.
End SubIdentity.

Lemma bold_needs_star pv c s :
  Ascii.eqb "*" c = false -> Re.match_at bold_pattern pv (c :: s) = None.
Proof.
  intros H. unfold bold_pattern. re_unfold. unfold Re.only. now rewrite H.
Qed.

Lemma italic_needs_star pv c s :
  Ascii.eqb "*" c = false -> Re.match_at italic_pattern pv (c :: s) = None.
Proof.
  intros H. unfold italic_pattern. re_unfold. unfold Re.only. now rewrite H.
Qed.

Lemma code_needs_backquote pv c s :
  Ascii.eqb "`" c = false -> Re.match_at code_pattern pv (c :: s) = None.
Proof.
  intros H. unfold code_pattern. re_unfold. unfold Re.only. now rewrite H.
Qed.

Lemma no_markers_split (s : str) :
  Spec.no_markers s = true ->
  forallb (fun c => negb (Ascii.eqb "*" c)) s = true
  /\ forallb (fun c => negb (Ascii.eqb "`" c)) s = true.
Proof.
  unfold Spec.no_markers. induction s as [|c s IH]; cbn [forallb]; [easy|].
  intros H. apply andb_true_iff in H as [Hc Hs].
  apply andb_true_iff in Hc as [H1 H2].
  destruct (IH Hs) as [IH1 IH2]. now rewrite H1, H2, IH1, IH2.
Qed.

(** On a text without markers only the whitespace is normalized. *)
Lemma clean_markdown_no_markers (s : str) :
  Spec.no_markers s = true -> _clean_markdown s = Spec.normalize_space s.
Proof.
  intros H. destruct (no_markers_split s H) as [Hstar Hquote].
  unfold _clean_markdown, Re.sub_group, Spec.normalize_space.
  rewrite (@sub_group_from_unchanged bold_pattern (Ascii.eqb "*")
             (fun _ => eq_refl) bold_needs_star s None Hstar).
  rewrite (@sub_group_from_unchanged code_pattern (Ascii.eqb "`")
             (fun _ => eq_refl) code_needs_backquote s None Hquote).
  rewrite (@sub_group_from_unchanged italic_pattern (Ascii.eqb "*")
             (fun _ => eq_refl) italic_needs_star s None Hstar).
  reflexivity.
Qed.

(** ** [split] and [join] *)

Lemma split_words (s : str) : Forall Spec.is_word (Py.split s).
Proof.
  induction s as [|c s IH]; simpl; [constructor|].
  destruct (Py.isspace c) eqn:Hc; [exact IH|].
  assert (Hone : Spec.is_word [c]) by (split; [discriminate | simpl; now rewrite Hc]).
  destruct s as [|d s']; [now constructor|].
  destruct (Py.isspace d) eqn:Hd; [now constructor|].
  destruct (Py.split (d :: s')) as [|w ws] eqn:Hsp; [now constructor|].
  inversion IH as [|? ? [Hw1 Hw2] Hws]; subst.
  constructor; [|exact Hws].
  split; [discriminate|]. simpl. now rewrite Hc, Hw2.
Qed.

Lemma split_word_app (w t : str) :
  Spec.is_word w ->
  match t with [] => True | d :: _ => Py.isspace d = true end ->
  Py.split (w ++ t) = w :: Py.split t.
Proof.
  intros [Hne Hns] Ht. induction w as [|c w IH]; [congruence|].
  simpl in Hns. apply andb_true_iff in Hns as [Hc Hw].
  apply negb_true_iff in Hc.
  destruct w as [|c' w'].
  - cbn [app Py.split]. rewrite Hc. destruct t as [|d t'].
    + reflexivity.
    + rewrite Ht. reflexivity.
  - change ((c :: c' :: w') ++ t) with (c :: (c' :: w') ++ t).
    cbn [Py.split]. rewrite Hc.
    change ((c' :: w') ++ t) with (c' :: w' ++ t) at 1.
    cbv beta iota.
    assert (Hc' : Py.isspace c' = false).
    { simpl in Hw. apply andb_true_iff in Hw as [Hc' _].
      now apply negb_true_iff in Hc'. }
    rewrite Hc'.
    change (c' :: w' ++ t) with ((c' :: w') ++ t).
    rewrite IH; [reflexivity|discriminate|exact Hw].
Qed.

Lemma split_join_words (ws : list str) :
  Forall Spec.is_word ws -> Py.split (Py.join (txt " ") ws) = ws.
Proof.
  induction 1 as [|w ws Hw Hws IH]; [reflexivity|].
  destruct ws as [|w' ws'].
  - simpl. rewrite <- (app_nil_r w) at 1.
    now rewrite (@split_word_app w [] Hw I).
  - change (Py.join (txt " ") (w :: w' :: ws'))
      with (w ++ txt " " ++ Py.join (txt " ") (w' :: ws')).
    rewrite split_word_app; [|exact Hw|reflexivity].
    f_equal. exact IH.
Qed.

(** Normalizing whitespace twice is normalizing it once. *)
Lemma normalize_space_idempotent (s : str) :
  Spec.normalize_space (Spec.normalize_space s) = Spec.normalize_space s.
Proof.
  unfold Spec.normalize_space.
  now rewrite (split_join_words (split_words s)).
Qed.

(** ** C9: the Markdown normalizer *)

(** The example of the specification. *)
Example clean_markdown_sample :
  _clean_markdown Examples.markdown_sample = txt "Use async for I/O".
Proof. vm_compute. reflexivity. Qed.

(** C9, as stated, fails: [_clean_markdown] is not idempotent.  On
    [****a****] the bold pass leaves [**a**], the italic pass leaves [*a*],
    and a second application strips that to [a]. *)
Lemma clean_markdown_not_idempotent :
  _clean_markdown Examples.nested_bold = txt "*a*"
  /\ _clean_markdown (_clean_markdown Examples.nested_bold) = txt "a"
  /\ _clean_markdown (_clean_markdown Examples.nested_bold)
     <> _clean_markdown Examples.nested_bold.
Proof. vm_compute. repeat split. discriminate. Qed.

(** C9, amended: whenever the output of [_clean_markdown] holds neither [*]
    nor a backquote, it is a fixed point: applying the function again gives
    the same text. *)
Theorem clean_markdown_fixed_point_without_markers (s : str) :
  Spec.no_markers (_clean_markdown s) = true ->
  _clean_markdown (_clean_markdown s) = _clean_markdown s.
Proof.
  intros H. rewrite (clean_markdown_no_markers _ H).
  unfold _clean_markdown.
  apply normalize_space_idempotent.
Qed.

Lemma clean_markdown_fixed_point_witness :
  Spec.no_markers (_clean_markdown Examples.markdown_sample) = true
  /\ _clean_markdown (_clean_markdown Examples.markdown_sample)
     = _clean_markdown Examples.markdown_sample.
Proof.
  split.
  - vm_compute. reflexivity.
  - apply (clean_markdown_fixed_point_without_markers Examples.markdown_sample).
    vm_compute. reflexivity.
Defined.

(** ** The matcher makes progress *)

Lemma rep_progress (A : Type) (p : ascii -> bool) (g : bool) (s : str) :
  forall lo hi pv n (k : option ascii -> str -> nat -> option A) x,
  Re.rep p g lo hi pv s n k = Some x ->
  exists pv' s' n', k pv' s' n' = Some x /\ n + lo <= n'.
Proof.
  induction s as [|c s IH]; intros lo hi pv n k x H; cbn [Re.rep] in H.
  - destruct g, lo, hi as [[|h]|]; try discriminate;
      repeat match type of H with
             | match ?e with _ => _ end = Some _ => destruct e eqn:?
             end;
      try discriminate; try (injection H as <-);
      (exists pv, [], n; split; [assumption|lia]).
  - assert (Hmore : forall lo' hi',
             Re.rep p g lo' hi' (Some c) s (S n) k = Some x ->
             n + lo <= S n + lo' ->
             exists pv' s' n', k pv' s' n' = Some x /\ n + lo <= n').
    { intros lo' hi' Hr Hle. destruct (IH _ _ _ _ _ _ Hr) as (pv' & s' & n' & Hk & Hn).
      exists pv', s', n'. split; [assumption|lia]. }
    assert (Hstop : k pv (c :: s) n = Some x -> lo = 0 ->
             exists pv' s' n', k pv' s' n' = Some x /\ n + lo <= n').
    { intros Hk ->. exists pv, (c :: s), n. split; [assumption|lia]. }
    destruct g, lo as [|lo], hi as [[|h]|], (p c);
      cbn [Nat.pred option_map] in H; try discriminate;
      repeat match type of H with
             | match ?e with _ => _ end = Some _ => destruct e eqn:?
             end;
      try discriminate;
      try (injection H as <-);
      try (now apply Hstop);
      try (eapply Hmore; [eassumption|cbn [Nat.pred]; lia]).
Qed.

Lemma run_progress (r : Re.regex) :
  forall (A : Type) (c : Re.cursor) (k : Re.cursor -> option A) x,
  Re.run r c k = Some x ->
  exists c', k c' = Some x /\ Re.pos c + Re.min_len r <= Re.pos c'.
Proof.
  induction r as [p|p lo hi g|r1 IH1 r2 IH2|r1 IH1 r2 IH2| | | | |r1 IH1|r1 IH1];
    intros A c k x H; cbn [Re.run Re.min_len] in H |- *.
  - destruct (Re.rest c) as [|y s']; [discriminate|].
    destruct (p y); [|discriminate].
    eexists. split; [exact H|]. cbn. lia.
  - apply rep_progress in H as (pv' & s' & n' & Hk & Hn).
    eexists. split; [exact Hk|]. cbn. lia.
  - apply IH1 in H as (c1 & H & Hn1).
    apply IH2 in H as (c2 & H & Hn2).
    exists c2. split; [exact H|lia].
  - destruct (Re.run r1 c k) eqn:H1.
    + injection H as <-. apply IH1 in H1 as (c1 & H & Hn1).
      exists c1. split; [exact H|lia].
    + apply IH2 in H as (c2 & H & Hn2).
      exists c2. split; [exact H|lia].
  - exists c. split; [exact H|lia].
  - exists c. split; [|lia].
    destruct (Re.prev c) as [y|]; [|exact H].
    destruct (Re.is_newline y); [exact H|discriminate].
  - exists c. split; [|lia].
    destruct (Re.rest c) as [|y s']; [exact H|].
    destruct (Re.is_newline y); [exact H|discriminate].
  - exists c. split; [|lia].
    destruct (Re.rest c) as [|y s']; [exact H|discriminate].
  - exists c. split; [|lia].
    destruct (Re.run r1 c (fun _ => Some tt)); [exact H|discriminate].
  - apply IH1 in H as (c1 & H & Hn1).
    eexists. split; [exact H|]. cbn. lia.
Qed.

(** A match of [r] is at least [min_len r] characters long. *)
Lemma match_at_min_len (r : Re.regex) pv s n g :
  Re.match_at r pv s = Some (n, g) -> Re.min_len r <= n.
Proof.
  unfold Re.match_at. intros H.
  apply run_progress in H as (c' & H & Hn).
  injection H as <- _. cbn in Hn. lia.
Qed.

(** No pattern of the script matches the empty string. *)
Lemma script_patterns_consume :
  Forall (fun r => 1 <= Re.min_len r)
    [header_pattern; next_section_pattern; numbered_pattern; bullets_pattern;
     bold_pattern; code_pattern; italic_pattern].
Proof. repeat constructor. Qed.

(** ** The first match of a search *)

Section FirstMatch.
Variable r : Re.regex.
Variable here : str -> bool.
Hypothesis match_here :
  forall pv s,
    here s = match Re.match_at r pv s with Some _ => true | None => false end.

Lemma finditer_from_first (s : str) :
  forall off pv,
  match Re.finditer_from r 0 off pv s with
  | [] => Spec.up_to here s = s
  | m :: _ =>
      off <= Re.m_start m
      /\ firstn (Re.m_start m - off) s = Spec.up_to here s
  end.
Proof.
  induction s as [|c s IH]; intros off pv; cbn [Re.finditer_from Spec.up_to].
  - destruct (Re.match_at r pv []) as [[n g]|]; [|reflexivity].
    cbn. split; [lia|]. now rewrite firstn_nil.
  - rewrite (match_here pv (c :: s)).
    destruct (Re.match_at r pv (c :: s)) as [[n g]|].
    + cbn. split; [lia|]. now rewrite Nat.sub_diag.
    + specialize (IH (S off) (Some c)).
      destruct (Re.finditer_from r 0 (S off) (Some c) s) as [|m ms].
      * now rewrite IH.
      * destruct IH as [Hle IH]. split; [lia|].
        replace (Re.m_start m - off) with (S (Re.m_start m - S off)) by lia.
        cbn [firstn]. now rewrite IH.
Qed.

(** Cutting at the first match of [re.search] is cutting at the first
    position where the pattern matches. *)
Lemma cut_at_search (s : str) :
  match Re.search r s with
  | Some m => firstn (Re.m_start m) s
  | None => s
  end = Spec.up_to here s.
Proof.
  unfold Re.search, Re.finditer.
  pose proof (finditer_from_first s 0 None) as H.
  destruct (Re.finditer_from r 0 0 None s) as [|m ms]; [now symmetry|].
  destruct H as [_ H]. now rewrite Nat.sub_0_r in H.
Qed.
End FirstMatch.

(** [next_section_pattern] matches exactly at a line feed followed by one to
    three [#] and a space. *)
Lemma next_section_match pv s :
  Spec.heading_at 1 3 s
  = match Re.match_at next_section_pattern pv s with
    | Some _ => true
    | None => false
    end.
Proof.
  unfold next_section_pattern, Spec.heading_at. re_unfold.
  destruct s as [|c0 s]; [reflexivity|].
  unfold Re.only. rewrite (Ascii.eqb_sym c0 Py.newline).
  destruct (Ascii.eqb Py.newline c0); [|reflexivity].
  cbn [andb].
  destruct s as [|c1 [|c2 [|c3 [|c4 s]]]];
    cbn [Re.rep Spec.count_hashes Nat.pred option_map];
    repeat match goal with
           | |- context [Ascii.eqb "#" ?c] => destruct (Ascii.eqb "#" c) eqn:?
           end;
    cbn [Nat.leb skipn Py.startswith txt list_ascii_of_string andb
         Re.rep Nat.pred option_map];
    repeat match goal with
           | |- context [Ascii.eqb " " ?c] => destruct (Ascii.eqb " " c) eqn:?
           end;
    try reflexivity; try congruence;
    exfalso;
    repeat match goal with
           | H : Ascii.eqb _ _ = true |- _ => apply Ascii.eqb_eq in H
           end;
    congruence.
Qed.

(** ** C5: the body of a section *)

(** C5, as stated, fails.  In a section opened by [## Key Learnings:] the
    line [### Details] ends the body: the code keeps the first item only,
    where a cut at the next header of level at most 2 would keep the whole
    rest of the text. *)
Lemma level3_heading_ends_level2_section :
  Re.finditer header_pattern Examples.nested_headings
    = [Examples.nested_headings_match]
  /\ section_of Examples.nested_headings Examples.nested_headings_match
     = Examples.unlines [""; "1. Validate every input boundary before parsing."]
  /\ Spec.section_body_by_level 2
       (skipn (Re.m_end Examples.nested_headings_match) Examples.nested_headings)
     = Examples.unlines [""; "1. Validate every input boundary before parsing.";
                         "### Details";
                         "2. Cache misses should be logged at debug level."]
  /\ section_of Examples.nested_headings Examples.nested_headings_match
     <> Spec.section_body_by_level 2
          (skipn (Re.m_end Examples.nested_headings_match) Examples.nested_headings)
  /\ learnings_of_text Examples.nested_headings
     = [txt "Validate every input boundary before parsing."].
Proof. vm_compute. repeat split. discriminate. Qed.

(** C5, amended: the body of a section is the text after the header match up
    to the first line feed that is followed by one to three [#] and a space,
    or up to the end of the text, whatever the level of the header that
    opened the section. *)
Theorem section_of_cuts_at_next_heading (text : str) (m : Re.rmatch) :
  section_of text m
  = Spec.up_to (Spec.heading_at 1 3) (skipn (Re.m_end m) text).
Proof.
  unfold section_of.
  apply (cut_at_search next_section_pattern (Spec.heading_at 1 3)).
  intros pv s. apply next_section_match.
Qed.

(** What [up_to] means: a prefix, at whose end the stop holds unless the
    text is exhausted, and before whose end it never holds. *)
Lemma up_to_spec (stop : str -> bool) (s : str) :
  exists i,
    i <= length s
    /\ Spec.up_to stop s = firstn i s
    /\ (i < length s -> stop (skipn i s) = true)
    /\ (forall j, j < i -> stop (skipn j s) = false).
Proof.
  induction s as [|c s (i & Hi & Heq & Hstop & Hbefore)].
  - exists 0. cbn. repeat split; [lia | lia | intros j Hj; lia].
  - cbn [Spec.up_to]. destruct (stop (c :: s)) eqn:Hc.
    + exists 0. cbn. repeat split; [lia | easy | intros j Hj; lia].
    + exists (S i). cbn [length firstn skipn]. repeat split.
      * lia.
      * now rewrite Heq.
      * intros H. apply Hstop. lia.
      * intros [|j] Hj; [exact Hc|]. cbn [skipn]. apply Hbefore. lia.
Qed.

(** A header line of level four does not end a section. *)
Example level4_heading_does_not_end_section :
  section_of (Examples.unlines ["## Learnings"; "1. first"; "#### Deep"; "2. second"])
             (Re.RMatch 0 12 None)
  = Examples.unlines [""; "1. first"; "#### Deep"; "2. second"].
Proof. vm_compute. reflexivity. Qed.

(** ** C4: numbered items before bulleted ones *)

Lemma collect_valid_spec (items : list str) :
  forall learnings,
  collect_valid items learnings = learnings ++ Spec.valid_items items.
Proof.
  unfold Spec.valid_items.
  induction items as [|item items IH]; intros learnings; cbn [collect_valid map filter].
  - now rewrite app_nil_r.
  - destruct (valid_learning (_clean_markdown item)); rewrite IH.
    + now rewrite <- app_assoc.
    + reflexivity.
Qed.

(** The learnings of a section, by cases on its numbered parse. *)
Lemma section_learnings_by_cases (section_text : str) :
  section_learnings section_text
  = match Spec.valid_items (Re.findall numbered_pattern section_text) with
    | [] => Spec.valid_items (Re.findall bullets_pattern section_text)
    | learnings => learnings
    end.
Proof.
  unfold section_learnings.
  destruct (Re.findall numbered_pattern section_text) as [|item items] eqn:Hn.
  - cbn. now rewrite collect_valid_spec.
  - rewrite collect_valid_spec. cbn [app].
    destruct (Spec.valid_items (item :: items)); [|reflexivity].
    now rewrite collect_valid_spec.
Qed.

(** C4: within one section the numbered items are tried first.  When at
    least one numbered item passes the validity test, the learnings are the
    valid numbered items and nothing else; the learnings are the valid
    bulleted items exactly when no numbered item validates, be it that no
    numbered marker is present or that every numbered item fails the test. *)
Theorem numbered_items_take_priority (section_text : str) :
  let numbered := Spec.valid_items (Re.findall numbered_pattern section_text) in
  let bullets := Spec.valid_items (Re.findall bullets_pattern section_text) in
  (numbered <> [] -> section_learnings section_text = numbered)
  /\ (numbered = [] -> section_learnings section_text = bullets)
  /\ section_learnings section_text
     = match numbered with
       | [] => bullets
       | _ :: _ => numbered
       end.
Proof.
  cbv zeta. rewrite section_learnings_by_cases.
  destruct (Spec.valid_items (Re.findall numbered_pattern section_text));
    repeat split; congruence.
Qed.

Lemma numbered_items_take_priority_witness :
  Spec.valid_items (Re.findall numbered_pattern Examples.numbered_and_bullets) <> []
  /\ Spec.valid_items (Re.findall numbered_pattern Examples.numbered_then_bullets) = []
  /\ section_learnings Examples.numbered_and_bullets
     = Spec.valid_items (Re.findall numbered_pattern Examples.numbered_and_bullets)
  /\ section_learnings Examples.numbered_then_bullets
     = Spec.valid_items (Re.findall bullets_pattern Examples.numbered_then_bullets).
Proof.
  pose proof (numbered_items_take_priority Examples.numbered_and_bullets)
    as (Hnumbered & _ & _).
  pose proof (numbered_items_take_priority Examples.numbered_then_bullets)
    as (_ & Hbullets & _).
  split; [vm_compute; discriminate|].
  split; [vm_compute; reflexivity|].
  split.
  - apply Hnumbered. vm_compute. discriminate.
  - apply Hbullets. vm_compute. reflexivity.
Defined.

(** Numbered markers are present, every numbered item fails the test: the
    bulleted items are returned. *)
Example bullets_when_no_numbered_item_validates :
  Re.findall numbered_pattern Examples.numbered_then_bullets
    = [txt "too short"; txt "[a placeholder that is long enough]"]
  /\ section_learnings Examples.numbered_then_bullets
     = [txt "Prefer small pure functions over shared state.";
        txt "Log every retry with its attempt number."].
Proof. vm_compute. split; reflexivity. Qed.

(** One numbered item validates: the bulleted list is not looked at. *)
Example bullets_skipped_when_a_numbered_item_validates :
  Re.findall bullets_pattern Examples.numbered_and_bullets
    = [txt "Prefer small pure functions over shared state."]
  /\ section_learnings Examples.numbered_and_bullets
     = [txt "Always validate input boundaries before parsing."].
Proof. vm_compute. split; reflexivity. Qed.

(** ** C3: every learning passes the validity test *)

Lemma valid_learning_acceptable (cleaned : str) :
  valid_learning cleaned = true <-> Spec.acceptable cleaned.
Proof.
  unfold valid_learning, Spec.acceptable.
  rewrite andb_true_iff, Nat.leb_le, negb_true_iff. reflexivity.
Qed.

Lemma valid_items_acceptable (items : list str) :
  Forall Spec.acceptable (Spec.valid_items items).
Proof.
  unfold Spec.valid_items. apply Forall_forall. intros l Hl.
  apply filter_In in Hl as [_ Hl]. now apply valid_learning_acceptable.
Qed.

Lemma section_learnings_acceptable (section_text : str) :
  Forall Spec.acceptable (section_learnings section_text).
Proof.
  rewrite section_learnings_by_cases.
  pose proof (valid_items_acceptable (Re.findall numbered_pattern section_text)) as H.
  destruct (Spec.valid_items (Re.findall numbered_pattern section_text));
    [apply valid_items_acceptable | exact H].
Qed.

Lemma scan_sections_acceptable (text : str) (candidates : list Re.rmatch) :
  Forall Spec.acceptable (scan_sections text candidates).
Proof.
  induction candidates as [|m older IH]; cbn [scan_sections]; [constructor|].
  pose proof (section_learnings_acceptable (section_of text m)) as H.
  destruct (section_learnings (section_of text m)); [exact IH | exact H].
Qed.

Lemma learnings_of_text_acceptable (text : str) :
  Forall Spec.acceptable (learnings_of_text text).
Proof.
  unfold learnings_of_text.
  destruct (Py.strip text); [constructor|].
  destruct (Re.finditer header_pattern text); [constructor|].
  apply scan_sections_acceptable.
Qed.

(** ** C2: the most recent section that yields items *)

Lemma lstrip_nil_iff (s : str) :
  Py.lstrip s = [] <-> forallb Py.isspace s = true.
Proof.
  induction s as [|c s IH]; cbn [Py.lstrip forallb]; [easy|].
  destruct (Py.isspace c); [exact IH|]. cbn. split; discriminate.
Qed.

Lemma lstrip_head (s : str) :
  match Py.lstrip s with
  | [] => True
  | c :: _ => Py.isspace c = false
  end.
Proof.
  induction s as [|c s IH]; cbn [Py.lstrip]; [exact I|].
  destruct (Py.isspace c) eqn:Hc; [exact IH | exact Hc].
Qed.

Lemma forallb_rev (A : Type) (f : A -> bool) (l : list A) :
  forallb f (rev l) = forallb f l.
Proof.
  induction l as [|a l IH]; [reflexivity|].
  cbn [rev forallb]. rewrite forallb_app, IH. cbn. 
  rewrite andb_true_r. apply andb_comm.
Qed.

(** [not text.strip()] holds exactly for a text of whitespace only. *)
Lemma strip_nil_iff (s : str) :
  Py.strip s = [] <-> forallb Py.isspace s = true.
Proof.
  unfold Py.strip, Py.rstrip. split.
  - intros H.
    assert (H1 : Py.lstrip (rev (Py.lstrip s)) = []).
    { destruct (Py.lstrip (rev (Py.lstrip s))) as [|a l]; [reflexivity|].
      cbn [rev] in H. now destruct (rev l). }
    apply lstrip_nil_iff in H1. rewrite forallb_rev in H1.
    pose proof (lstrip_head s) as Hh.
    destruct (Py.lstrip s) as [|c t] eqn:Hl.
    + now apply lstrip_nil_iff.
    + cbn in H1. rewrite Hh in H1. discriminate.
  - intros H. apply lstrip_nil_iff in H. now rewrite H.
Qed.

Lemma space_is_not_hash (c : ascii) :
  Py.isspace c = true -> Re.only "#" c = false.
Proof.
  unfold Re.only. destruct (Ascii.eqb_spec "#" c) as [<-|]; [|reflexivity].
  vm_compute. discriminate.
Qed.

Lemma header_needs_hash pv c s :
  Re.only "#" c = false -> Re.match_at header_pattern pv (c :: s) = None.
Proof.
  intros H. unfold header_pattern. re_unfold.
  rewrite H. now destruct pv as [x|]; [destruct (Re.is_newline x)|].
Qed.

Lemma header_not_at_end pv : Re.match_at header_pattern pv [] = None.
Proof.
  unfold header_pattern. re_unfold.
  now destruct pv as [x|]; [destruct (Re.is_newline x)|].
Qed.

(** A text of whitespace has no learnings header. *)
Lemma no_header_in_blank_text (s : str) :
  forall off pv, forallb Py.isspace s = true ->
  Re.finditer_from header_pattern 0 off pv s = [].
Proof.
  induction s as [|c s IH]; intros off pv H; cbn [Re.finditer_from].
  - now rewrite header_not_at_end.
  - cbn in H. apply andb_true_iff in H as [Hc Hs].
    rewrite (@header_needs_hash pv c s (space_is_not_hash c Hc)).
    now apply IH.
Qed.

Lemma scan_sections_skip (text : str) (newer rest : list Re.rmatch) :
  Forall (fun m => section_learnings (section_of text m) = []) newer ->
  scan_sections text (newer ++ rest) = scan_sections text rest.
Proof.
  induction 1 as [|m newer Hm Hnewer IH]; [reflexivity|].
  cbn [app scan_sections]. now rewrite Hm.
Qed.

Lemma Forall_rev_list (A : Type) (P : A -> Prop) (l : list A) :
  Forall P l -> Forall P (rev l).
Proof.
  intros H. apply Forall_forall. intros x Hx.
  apply in_rev in Hx. now apply (proj1 (Forall_forall P l) H).
Qed.

(** On a text: the most recent section that yields items gives the result. *)
Lemma most_recent_section_of_text
    (text : str) (older newer : list Re.rmatch) (m : Re.rmatch) :
  Re.finditer header_pattern text = older ++ m :: newer ->
  Forall (fun m' => section_learnings (section_of text m') = []) newer ->
  section_learnings (section_of text m) <> [] ->
  learnings_of_text text = section_learnings (section_of text m).
Proof.
  intros Hmatches Hnewer Hm. unfold learnings_of_text.
  destruct (Py.strip text) as [|c t] eqn:Hstrip.
  - apply strip_nil_iff in Hstrip.
    unfold Re.finditer in Hmatches.
    rewrite (no_header_in_blank_text text 0 None Hstrip) in Hmatches.
    now destruct older.
  - rewrite Hmatches.
    destruct (older ++ m :: newer) eqn:Hnil; [now destruct older|].
    rewrite <- Hnil. rewrite rev_app_distr. cbn [rev].
    rewrite <- app_assoc.
    rewrite scan_sections_skip by now apply Forall_rev_list.
    cbn [app scan_sections].
    destruct (section_learnings (section_of text m)); [congruence|reflexivity].
Qed.

(** What [extract_learnings] does once the transcript text is there. *)
Lemma extract_learnings_of_text (w : world) (path : str) (text : str) :
  path <> [] -> file_exists (w_files w path) = Ok true ->
  _extract_text_from_jsonl w path = Ok text ->
  extract_learnings w path = Ok (learnings_of_text text).
Proof.
  intros Hpath Hfile Htext. unfold extract_learnings.
  destruct path as [|c p]; [congruence|].
  now rewrite Hfile, Htext.
Qed.

(** C2: let [text] be the text reconstructed from the transcript and let
    its header matches be [older ++ m :: newer] in document order.  When
    every section after [m] yields no valid item and the section of [m]
    yields at least one, [extract_learnings] returns the learnings of the
    section of [m]: the candidates are tried from the last one backward, a
    section without valid items falls back to the next older one, and the
    sections in [older] are never looked at. *)
Theorem most_recent_section_with_items_wins
    (w : world) (path text : str) (older newer : list Re.rmatch) (m : Re.rmatch) :
  path <> [] -> file_exists (w_files w path) = Ok true ->
  _extract_text_from_jsonl w path = Ok text ->
  Re.finditer header_pattern text = older ++ m :: newer ->
  Forall (fun m' => section_learnings (section_of text m') = []) newer ->
  section_learnings (section_of text m) <> [] ->
  extract_learnings w path = Ok (section_learnings (section_of text m)).
Proof.
  intros Hpath Hfile Htext Hmatches Hnewer Hm.
  rewrite (extract_learnings_of_text w Hpath Hfile Htext).
  f_equal. eapply most_recent_section_of_text; eassumption.
Qed.

(** Three sections: the newest yields nothing, the middle one is returned,
    the well-formed oldest one is ignored. *)
Lemma most_recent_section_with_items_witness :
  _extract_text_from_jsonl Examples.revised_report_world Examples.agent_path
    = Ok Examples.revised_report
  /\ Re.finditer header_pattern Examples.revised_report
     = [Examples.revised_report_oldest]
       ++ Examples.revised_report_middle :: [Examples.revised_report_newest]
  /\ section_learnings
       (section_of Examples.revised_report Examples.revised_report_oldest)
     = [txt "The first draft of this list is superseded below."]
  /\ section_learnings
       (section_of Examples.revised_report Examples.revised_report_middle)
     = [txt "Always validate input boundaries before parsing.";
        txt "Cache misses should log at debug level."]
  /\ extract_learnings Examples.revised_report_world Examples.agent_path
     = Ok (section_learnings
             (section_of Examples.revised_report Examples.revised_report_middle)).
Proof.
  split; [vm_compute; reflexivity|].
  split; [vm_compute; reflexivity|].
  split; [vm_compute; reflexivity|].
  split; [vm_compute; reflexivity|].
  apply (@most_recent_section_with_items_wins
           Examples.revised_report_world Examples.agent_path
           Examples.revised_report
           [Examples.revised_report_oldest] [Examples.revised_report_newest]
           Examples.revised_report_middle).
  - discriminate.
  - vm_compute. reflexivity.
  - vm_compute. reflexivity.
  - vm_compute. reflexivity.
  - constructor; [vm_compute; reflexivity | constructor].
  - vm_compute. discriminate.
Defined.

(** When no section yields a valid item the result is empty. *)
Lemma no_section_with_items (text : str) :
  Forall (fun m => section_learnings (section_of text m) = [])
         (Re.finditer header_pattern text) ->
  learnings_of_text text = [].
Proof.
  intros H. unfold learnings_of_text.
  destruct (Py.strip text); [reflexivity|].
  destruct (Re.finditer header_pattern text) eqn:Hm; [reflexivity|].
  rewrite <- Hm in *. 
  rewrite <- (app_nil_r (rev (Re.finditer header_pattern text))).
  rewrite scan_sections_skip by now apply Forall_rev_list.
  reflexivity.
Qed.

(** ** Reasoning about statements *)

Lemma keeps_ret S A (P : S -> Prop) (a : A) : keeps P (ret a).
Proof. intros s H. exact H. Qed.

Lemma keeps_lift S A (P : S -> Prop) (r : result A) : keeps P (lift r).
Proof. intros s H. exact H. Qed.

Lemma keeps_raise S A (P : S -> Prop) (e : exc) : keeps P (raise (A := A) e).
Proof. intros s H. exact H. Qed.

Lemma keeps_bind S A B (P : S -> Prop) (m : M S A) (f : A -> M S B) :
  keeps P m -> (forall a, keeps P (f a)) -> keeps P (bind m f).
Proof.
  intros Hm Hf s H. unfold bind. specialize (Hm s H).
  destruct (m s) as [s' [a|e]]; cbn in *; [now apply Hf | exact Hm].
Qed.

Lemma keeps_for_each S A (P : S -> Prop) (xs : list A) (body : A -> M S unit) :
  (forall x, keeps P (body x)) -> keeps P (for_each xs body).
Proof.
  intros Hbody. induction xs as [|x xs IH]; cbn [for_each].
  - apply keeps_ret.
  - apply keeps_bind; [apply Hbody | intros _; exact IH].
Qed.

Lemma keeps_try_except S A (P : S -> Prop) (m : M S A) (h : exc -> M S A) :
  keeps P m -> (forall e, keeps P (h e)) -> keeps P (try_except m h).
Proof.
  intros Hm Hh s H. unfold try_except. specialize (Hm s H).
  destruct (m s) as [s' [a|e]]; cbn in *; [exact Hm|].
  destruct (is_Exception e); [now apply Hh | exact Hm].
Qed.

Lemma keeps_append A (Q : A -> Prop) (x : A) :
  Q x -> keeps (Forall Q) (append x).
Proof.
  intros Hx s H. cbn. apply Forall_app. split; [exact H | now constructor].
Qed.

Lemma keeps_for_each_entry S (P : S -> Prop) w lines (body : json -> M S unit) :
  (forall entry, keeps P (body entry)) -> keeps P (for_each_entry w lines body).
Proof.
  intros Hbody. unfold for_each_entry. apply keeps_for_each. intros raw_line.
  destruct (Py.strip raw_line) as [|c l]; [apply keeps_ret|].
  destruct (w_json_loads w (c :: l));
    [apply Hbody | apply keeps_ret | apply keeps_raise].
Qed.

Lemma keeps_with_open S (P : S -> Prop) w path (body : list str -> M S unit) :
  (forall lines, keeps P (body lines)) -> keeps P (with_open w path body).
Proof.
  intros Hbody. unfold with_open.
  destruct (w_files w path); try apply keeps_raise; [apply Hbody|].
  apply keeps_bind; [apply Hbody | intros _; apply keeps_raise].
Qed.

(** A loop that ends normally has run its body on every element. *)
Lemma for_each_appends A B (body : A -> M (list B) unit) (f : A -> list B) :
  (forall x s s', body x s = (s', Ok tt) -> s' = s ++ f x) ->
  forall xs s s',
  for_each xs body s = (s', Ok tt) -> s' = s ++ flat_map f xs.
Proof.
  intros Hbody. induction xs as [|x xs IH]; intros s s' H; cbn [for_each flat_map] in *.
  - injection H as <-. now rewrite app_nil_r.
  - unfold bind in H. destruct (body x s) as [s1 [[]|e]] eqn:Hx; [|discriminate].
    apply Hbody in Hx. apply IH in H. subst. now rewrite <- app_assoc.
Qed.

Lemma for_each_app S A (body : A -> M S unit) (xs ys : list A) (s : S) :
  for_each (xs ++ ys) body s
  = bind (for_each xs body) (fun _ => for_each ys body) s.
Proof.
  revert s. induction xs as [|x xs IH]; intros s; cbn [app for_each].
  - reflexivity.
  - unfold bind in *. destruct (body x s) as [s1 [[]|e]]; [apply IH | reflexivity].
Qed.

(** A loop that an exception ends does not look at what follows. *)
Lemma for_each_raise_stops S A (body : A -> M S unit) (xs ys : list A) :
  forall s s' e,
  for_each xs body s = (s', Raise e) ->
  for_each (xs ++ ys) body s = (s', Raise e).
Proof.
  induction xs as [|x xs IH]; intros s s' e H; cbn [for_each app] in *.
  - discriminate.
  - unfold bind in *. destruct (body x s) as [s1 [[]|e1]]; [now apply IH | exact H].
Qed.

Lemma for_each_entry_appends B w (body : json -> M (list B) unit)
    (f : json -> list B) :
  (forall x s s', body x s = (s', Ok tt) -> s' = s ++ f x) ->
  forall lines s s',
  for_each_entry w lines body s = (s', Ok tt) ->
  s' = s ++ flat_map f (Spec.entries_of w lines).
Proof.
  intros Hbody lines s s' H. unfold for_each_entry in H.
  apply (@for_each_appends _ _ _
           (fun raw_line =>
              flat_map f match Py.strip raw_line with
                         | [] => []
                         | line => match w_json_loads w line with
                                   | Parsed entry => [entry]
                                   | NotJson | LoadsRaises _ => []
                                   end
                         end)) in H.
  - rewrite H. f_equal. unfold Spec.entries_of.
    clear. induction lines as [|l lines IH]; [reflexivity|].
    cbn [flat_map]. rewrite IH. now rewrite flat_map_app.
  - clear - Hbody. intros raw_line s s' H.
    destruct (Py.strip raw_line) as [|c line].
    + injection H as <-. now rewrite app_nil_r.
    + destruct (w_json_loads w (c :: line)) as [entry| |e].
      * cbn [flat_map]. rewrite app_nil_r. now apply Hbody.
      * injection H as <-. now rewrite app_nil_r.
      * discriminate.
Qed.

(** ** C10: the detected agent name is never empty *)

Lemma detect_item_keeps_truthy (item : json) :
  keeps (Forall (fun v => PyJson.truthy v = true)) (detect_item item).
Proof.
  unfold detect_item. destruct item; try apply keeps_ret.
  destruct (_ && _); [|apply keeps_ret].
  apply keeps_bind; [apply keeps_lift|]. intros input.
  apply keeps_bind; [apply keeps_lift|]. intros subagent_type.
  destruct (PyJson.truthy subagent_type) eqn:H;
    [now apply keeps_append | apply keeps_ret].
Qed.

Lemma detect_entry_keeps_truthy (entry : json) :
  keeps (Forall (fun v => PyJson.truthy v = true)) (detect_entry entry).
Proof.
  unfold detect_entry, entry_content, detect_tool_input.
  apply keeps_bind.
  { apply keeps_bind; [apply keeps_lift|]. intros has_message.
    destruct has_message.
    - apply keeps_bind; [apply keeps_lift|]. intros message. apply keeps_lift.
    - apply keeps_bind; [apply keeps_lift|]. intros has_content.
      destruct has_content; [apply keeps_lift | apply keeps_ret]. }
  intros content. apply keeps_bind.
  { destruct content; try apply keeps_ret.
    apply keeps_for_each. apply detect_item_keeps_truthy. }
  intros _. apply keeps_bind; [apply keeps_lift|]. intros has_tool_input.
  destruct has_tool_input; [|apply keeps_ret].
  apply keeps_bind; [apply keeps_lift|]. intros tool_input.
  apply keeps_bind; [apply keeps_lift|]. intros subagent_type.
  destruct (PyJson.truthy subagent_type) eqn:H;
    [now apply keeps_append | apply keeps_ret].
Qed.

Lemma last_in (A : Type) (l : list A) (d : A) : l <> [] -> In (last l d) l.
Proof.
  induction l as [|a l IH]; [congruence|]. intros _.
  destruct l as [|b l]; [now left|]. right. apply IH. discriminate.
Qed.

(** Only truthy values are ever appended to [found]. *)
Lemma found_in_truthy (w : world) (path : str) :
  Forall (fun v => PyJson.truthy v = true) (found_in w path).
Proof.
  unfold found_in.
  assert (Hk : keeps (Forall (fun v => PyJson.truthy v = true))
                 (try_except
                    (with_open w path
                       (fun fh => for_each_entry w fh detect_entry))
                    (fun _ => ret tt))).
  { apply keeps_try_except; [|intros e; apply keeps_ret].
    apply keeps_with_open. intros lines.
    apply keeps_for_each_entry. apply detect_entry_keeps_truthy. }
  exact (Hk [] (Forall_nil _)).
Qed.

(** C10: for every world and every path, whatever [detect_agent_name]
    returns is truthy; in particular it is never the empty string.  Only
    truthy [subagent_type] values are ever appended to [found], and the
    sentinel is a non-empty string.  The one way in which the function
    returns nothing is the [OSError] of [path.exists()]. *)
Theorem detect_agent_name_never_empty (w : world) (path : str) :
  match detect_agent_name w path with
  | Ok name => PyJson.truthy name = true /\ name <> JStr []
  | Raise e => e = Exception OSError /\ w_files w path = Inaccessible
  end.
Proof.
  assert (Hvalue : forall name, PyJson.truthy name = true ->
                     PyJson.truthy name = true /\ name <> JStr []).
  { intros name H. split; [exact H|]. intros Heq. rewrite Heq in H. discriminate. }
  unfold detect_agent_name.
  destruct path as [|c path]; [now apply Hvalue|].
  destruct (w_files w (c :: path)) eqn:Hfile; cbn [file_exists];
    try (now apply Hvalue); try (now split).
  all: pose proof (found_in_truthy w (c :: path)) as Hk;
    destruct (found_in w (c :: path)) as [|v found] eqn:Hfound;
    [now apply Hvalue|];
    apply Hvalue; apply (proj1 (Forall_forall _ _) Hk);
    apply last_in; discriminate.
Qed.

(** ** C6: what the detector returns *)

Lemma bind_ok S A B (m : M S A) (f : A -> M S B) s s' b :
  bind m f s = (s', Ok b) ->
  exists s1 a, m s = (s1, Ok a) /\ f a s1 = (s', Ok b).
Proof.
  unfold bind. destruct (m s) as [s1 [a|e]]; [|discriminate].
  intros H. now exists s1, a.
Qed.

Lemma lift_ok S A (r : result A) (s s' : S) a :
  lift r s = (s', Ok a) -> s' = s /\ r = Ok a.
Proof. unfold lift. intros H. now injection H as <- ->. Qed.

Lemma ret_ok S A (x : A) (s s' : S) a :
  ret x s = (s', Ok a) -> s' = s /\ a = x.
Proof. unfold ret. intros H. now injection H as <- ->. Qed.

Lemma Ok_inj A (a b : A) : Ok a = Ok b -> a = b.
Proof. intros H. now injection H. Qed.

Lemma get_dict fields key default :
  PyJson.get (JObj fields) key default
  = Ok (match PyJson.lookup key fields with Some x => x | None => default end).
Proof. cbn. now destruct (PyJson.lookup key fields). Qed.

(** Takes a block that ended normally apart, statement by statement. *)
Ltac stmt_inv H :=
  repeat match type of H with
         | bind _ _ _ = (_, Ok _) =>
             let s1 := fresh "s" in
             let a := fresh "a" in
             let H1 := fresh "H" in
             apply bind_ok in H as (s1 & a & H1 & H);
             first [ apply lift_ok in H1 as [-> H1]
                   | apply ret_ok in H1 as [-> ->]
                   | idtac ]
         | lift _ _ = (_, Ok _) => apply lift_ok in H as [-> H]
         | ret _ _ = (_, Ok _) => apply ret_ok in H as [-> H]
         end.

Lemma append_ok A (x : A) (s s' : list A) u :
  append x s = (s', Ok u) -> s' = s ++ [x].
Proof. unfold append, modify. intros H. now injection H as <-. Qed.

Lemma detect_item_ok (item : json) (s s' : list json) :
  detect_item item s = (s', Ok tt) -> s' = s ++ Spec.task_dispatch item.
Proof.
  unfold detect_item, Spec.task_dispatch. intros H.
  destruct item as [| | | | |items|fields];
    try (apply ret_ok in H as [-> _]; now rewrite app_nil_r).
  destruct (_ && _); [|apply ret_ok in H as [-> _]; now rewrite app_nil_r].
  stmt_inv H. rewrite get_dict in H0. apply Ok_inj in H0 as <-.
  destruct (PyJson.lookup (txt "input") fields) as [[| | | | |l|input]|];
    try (cbn in H1; discriminate).
  - rewrite get_dict in H1. apply Ok_inj in H1 as <-. fold (PyJson.field input (txt "subagent_type")) in H.
    destruct (PyJson.truthy (PyJson.field input (txt "subagent_type"))).
    + now apply append_ok in H.
    + apply ret_ok in H as [-> _]. now rewrite app_nil_r.
  - cbn in H1. apply Ok_inj in H1 as <-. cbn in H.
    apply ret_ok in H as [-> _]. now rewrite app_nil_r.
Qed.

Lemma entry_content_ok (entry : json) (s s' : list json) content :
  entry_content entry s = (s', Ok content) ->
  s' = s
  /\ content = match entry with
               | JObj fields => Spec.inspected_content fields
               | _ => JNull
               end.
Proof.
  unfold entry_content, Spec.inspected_content. intros H. stmt_inv H.
  destruct entry as [| | | |t|items|fields]; try discriminate;
    cbn [PyJson.contains] in H0; apply Ok_inj in H0 as <-.
  - destruct (Py.contains (txt "message") t); stmt_inv H; [discriminate|].
    cbn [PyJson.contains] in H0. apply Ok_inj in H0 as <-.
    destruct (Py.contains (txt "content") t); stmt_inv H; [discriminate|easy].
  - destruct (existsb _ items); stmt_inv H; [discriminate|].
    cbn [PyJson.contains] in H0. apply Ok_inj in H0 as <-.
    destruct (existsb _ items); stmt_inv H; [discriminate|easy].
  - destruct (PyJson.lookup (txt "message") fields) as [message|] eqn:Hm; stmt_inv H.
    + cbn [PyJson.item] in H0. rewrite Hm in H0. apply Ok_inj in H0 as <-.
      destruct message; try discriminate.
      rewrite get_dict in H. now apply Ok_inj in H as <-.
    + cbn [PyJson.contains] in H0. apply Ok_inj in H0 as <-. unfold PyJson.field.
      destruct (PyJson.lookup (txt "content") fields) as [c|] eqn:Hc; stmt_inv H.
      * rewrite get_dict, Hc in H. now apply Ok_inj in H as <-.
      * easy.
Qed.

Lemma detect_tool_input_ok (entry : json) (s s' : list json) :
  detect_tool_input entry s = (s', Ok tt) ->
  s' = s ++ match entry with
            | JObj fields => Spec.tool_input_dispatch fields
            | _ => []
            end.
Proof.
  unfold detect_tool_input, Spec.tool_input_dispatch. intros H. stmt_inv H.
  destruct entry as [| | | |t|items|fields]; try discriminate;
    cbn [PyJson.contains] in H0; apply Ok_inj in H0 as <-.
  - destruct (Py.contains _ t); stmt_inv H; [discriminate|now rewrite app_nil_r].
  - destruct (existsb _ items); stmt_inv H; [discriminate|now rewrite app_nil_r].
  - destruct (PyJson.lookup (txt "tool_input") fields) as [tool_input|] eqn:Ht;
      stmt_inv H; [|now rewrite app_nil_r].
    cbn [PyJson.item] in H0. rewrite Ht in H0. apply Ok_inj in H0 as <-.
    destruct tool_input; try discriminate.
    rewrite get_dict in H1. apply Ok_inj in H1 as <-.
    fold (PyJson.field fields0 (txt "subagent_type")) in H.
    destruct (PyJson.truthy (PyJson.field fields0 (txt "subagent_type"))).
    + now apply append_ok in H.
    + apply ret_ok in H as [-> _]. now rewrite app_nil_r.
Qed.

(** A record whose inspection ends normally adds exactly its matches. *)
Lemma detect_entry_ok (entry : json) (s s' : list json) :
  detect_entry entry s = (s', Ok tt) -> s' = s ++ Spec.entry_dispatches entry.
Proof.
  unfold detect_entry. intros H.
  apply bind_ok in H as (s1 & content & Hcontent & H).
  apply entry_content_ok in Hcontent as [-> ->].
  apply bind_ok in H as (s2 & [] & Hloop & H).
  apply detect_tool_input_ok in H.
  unfold Spec.entry_dispatches, Spec.dispatches_in.
  destruct entry as [| | | |t|items|fields];
    try (apply ret_ok in Hloop as [-> _]; now rewrite H).
  destruct (Spec.inspected_content fields) as [| | | | |items|];
    try (apply ret_ok in Hloop as [-> _]; now rewrite H).
  apply (for_each_appends _ Spec.task_dispatch detect_item_ok) in Hloop.
  subst. now rewrite app_assoc.
Qed.

(** C6, as stated, fails: the scan does not reach every parseable line.
    The second record of this log is valid JSON whose [message] is a string,
    so [entry["message"].get] raises, the [except] around the loop ends the
    scan, and the dispatch of [reviewer] on the third line is never seen. *)
Lemma scan_ends_at_malformed_record :
  detect_agent_name Examples.interrupted_world Examples.parent_path
    = Ok (JStr (txt "planner"))
  /\ Spec.claimed_agent_name Examples.interrupted_world
       (map fst Examples.interrupted_parent_log)
     = JStr (txt "reviewer")
  /\ detect_agent_name Examples.interrupted_world Examples.parent_path
     <> Ok (Spec.claimed_agent_name Examples.interrupted_world
              (map fst Examples.interrupted_parent_log)).
Proof. vm_compute. repeat split. discriminate. Qed.

(** The same happens on a line at which [json.loads] raises something
    other than [JSONDecodeError], and the sentinel is not what a path gives
    on which [path.exists()] raises. *)
Example scan_ends_where_loads_raises :
  detect_agent_name Examples.deep_line_world Examples.parent_path
    = Ok (JStr (txt "planner"))
  /\ detect_agent_name Examples.long_name_world Examples.long_name_path
     = Raise OSError.
Proof. vm_compute. split; reflexivity. Qed.

Lemma last_or_unknown_found (found : list json) :
  match found with [] => Ok unknown | _ :: _ => Ok (last found unknown) end
  = Ok (Spec.last_or_unknown found).
Proof. now destruct found. Qed.

(** What [detect_agent_name] returns for a file that exists. *)
Lemma detect_agent_name_found (w : world) (path : str) :
  path <> [] -> file_exists (w_files w path) = Ok true ->
  detect_agent_name w path = Ok (Spec.last_or_unknown (found_in w path)).
Proof.
  intros Hpath Hfile. unfold detect_agent_name.
  destruct path as [|c p]; [congruence|].
  rewrite Hfile. apply last_or_unknown_found.
Qed.

(** C6, amended.  [detect_agent_name] returns ["unknown"] when the path is
    empty, when [path.exists()] says that it names nothing and when the
    file cannot be opened; when [path.exists()] itself raises, its
    [OSError] leaves the function.  Otherwise it inspects the lines in file
    order, passing over the blank ones and those [json.loads] rejects with
    [JSONDecodeError], and returns the last element of the one list
    [found], or ["unknown"] if that list is empty.  When the scan ends
    without an exception, [found] holds, in file order, every truthy
    [subagent_type] of a Task [tool_use] item in the content list of
    [message] (or, for a record without [message], in the record's own
    [content] list) and of a top-level [tool_input].  The scan ends early,
    with what [found] holds by then, at the first record whose inspection
    raises, at the first line on which [json.loads] raises anything but
    [JSONDecodeError], and when reading the file fails. *)
Theorem detect_agent_name_returns_last_dispatch (w : world) (path : str) :
  (path = [] \/ w_files w path = Missing \/ w_files w path = Unreadable ->
   detect_agent_name w path = Ok unknown)
  /\ (path <> [] -> w_files w path = Inaccessible ->
      detect_agent_name w path = Raise OSError)
  /\ (forall lines,
        path <> [] ->
        (w_files w path = Readable lines
         \/ exists e, w_files w path = Interrupted lines e) ->
        snd (for_each_entry w lines detect_entry []) = Ok tt ->
        detect_agent_name w path
        = Ok (Spec.last_or_unknown
                (flat_map Spec.entry_dispatches (Spec.entries_of w lines))))
  /\ (forall inspected rest found e,
        path <> [] ->
        (w_files w path = Readable (inspected ++ rest)
         \/ exists e', w_files w path = Interrupted (inspected ++ rest) e') ->
        for_each_entry w inspected detect_entry [] = (found, Raise e) ->
        detect_agent_name w path = Ok (Spec.last_or_unknown found))
  /\ (forall inspected bad rest e,
        path <> [] ->
        (w_files w path = Readable (inspected ++ bad :: rest)
         \/ exists e', w_files w path = Interrupted (inspected ++ bad :: rest) e') ->
        snd (for_each_entry w inspected detect_entry []) = Ok tt ->
        Py.strip bad <> [] ->
        w_json_loads w (Py.strip bad) = LoadsRaises e ->
        detect_agent_name w path
        = Ok (Spec.last_or_unknown
                (flat_map Spec.entry_dispatches (Spec.entries_of w inspected)))).
Proof.
  assert (Hstop : forall inspected rest found e,
            path <> [] ->
            (w_files w path = Readable (inspected ++ rest)
             \/ exists e', w_files w path = Interrupted (inspected ++ rest) e') ->
            for_each_entry w inspected detect_entry [] = (found, Raise e) ->
            detect_agent_name w path = Ok (Spec.last_or_unknown found)).
  { intros inspected rest found e Hpath Hfile Hraise.
    rewrite detect_agent_name_found;
      [|exact Hpath | now destruct Hfile as [-> | [e' ->]]].
    f_equal. f_equal. unfold found_in, try_except, with_open.
    unfold for_each_entry in *.
    pose proof (for_each_raise_stops _ inspected rest _ Hraise) as Hall.
    destruct Hfile as [-> | [e' ->]].
    - rewrite Hall. now destruct (is_Exception e).
    - unfold bind. rewrite Hall. now destruct (is_Exception e). }
  split; [|split; [|split; [|split]]].
  - intros [-> | [H | H]]; [reflexivity | |];
      unfold detect_agent_name; destruct path as [|c p]; try reflexivity;
      rewrite H; cbn [file_exists]; [reflexivity|].
    unfold found_in, try_except, with_open. rewrite H. reflexivity.
  - intros Hpath H. unfold detect_agent_name.
    destruct path as [|c p]; [congruence|]. now rewrite H.
  - intros lines Hpath Hfile Hok.
    rewrite detect_agent_name_found;
      [|exact Hpath | now destruct Hfile as [-> | [e' ->]]].
    f_equal. f_equal. unfold found_in, try_except, with_open.
    destruct (for_each_entry w lines detect_entry []) as [found r] eqn:Hscan.
    cbn [snd] in Hok. subst r.
    apply (for_each_entry_appends w _ _ detect_entry_ok) in Hscan as Hfound.
    cbn [app] in Hfound. subst found.
    destruct Hfile as [-> | [e' ->]].
    + now rewrite Hscan.
    + unfold bind. rewrite Hscan. reflexivity.
  - exact Hstop.
  - intros inspected bad rest e Hpath Hfile Hok Hbad Hloads.
    destruct (for_each_entry w inspected detect_entry []) as [found r] eqn:Hscan.
    cbn [snd] in Hok. subst r.
    apply (for_each_entry_appends w _ _ detect_entry_ok) in Hscan as Hfound.
    cbn [app] in Hfound. subst found.
    apply (Hstop (inspected ++ [bad]) rest _ e Hpath).
    + now rewrite <- app_assoc.
    + unfold for_each_entry in *. rewrite for_each_app. unfold bind at 1.
      rewrite Hscan. cbn [for_each]. unfold bind.
      destruct (Py.strip bad) as [|c l]; [congruence|].
      now rewrite Hloads.
Qed.

Lemma detect_agent_name_witness :
  detect_agent_name Examples.mixed_world Examples.parent_path
    = Ok (JStr (txt "reviewer"))
  /\ detect_agent_name Examples.interrupted_world Examples.parent_path
     = Ok (JStr (txt "planner"))
  /\ detect_agent_name Examples.mixed_world (txt "/tmp/absent.jsonl") = Ok unknown
  /\ detect_agent_name Examples.deep_line_world Examples.parent_path
     = Ok (JStr (txt "planner"))
  /\ detect_agent_name Examples.long_name_world Examples.long_name_path
     = Raise OSError.
Proof.
  pose proof (detect_agent_name_returns_last_dispatch
                Examples.mixed_world Examples.parent_path) as (_ & _ & Hok & _).
  pose proof (detect_agent_name_returns_last_dispatch
                Examples.interrupted_world Examples.parent_path)
    as (_ & _ & _ & Hstop & _).
  pose proof (detect_agent_name_returns_last_dispatch
                Examples.mixed_world (txt "/tmp/absent.jsonl")) as (Hunknown & _).
  pose proof (detect_agent_name_returns_last_dispatch
                Examples.deep_line_world Examples.parent_path)
    as (_ & _ & _ & _ & Hloads).
  pose proof (detect_agent_name_returns_last_dispatch
                Examples.long_name_world Examples.long_name_path)
    as (_ & Hraises & _).
  split; [|split; [|split; [|split]]].
  - rewrite (Hok (map fst Examples.mixed_parent_log));
      [vm_compute; reflexivity | discriminate | left; vm_compute; reflexivity
       | vm_compute; reflexivity].
  - rewrite (Hstop (firstn 2 (map fst Examples.interrupted_parent_log))
                   (skipn 2 (map fst Examples.interrupted_parent_log))
                   [JStr (txt "planner")] AttributeError);
      [vm_compute; reflexivity | discriminate | left; vm_compute; reflexivity
       | vm_compute; reflexivity].
  - apply Hunknown. right. left. vm_compute. reflexivity.
  - rewrite (Hloads (firstn 1 (map fst Examples.deep_line_log))
                    (txt "[[[[[[[[")
                    (skipn 2 (map fst Examples.deep_line_log))
                    RecursionError);
      [vm_compute; reflexivity | discriminate | left; vm_compute; reflexivity
       | vm_compute; reflexivity | vm_compute; discriminate
       | vm_compute; reflexivity].
  - apply Hraises; [vm_compute; discriminate | vm_compute; reflexivity].
Defined.

(** ** C7: what a tool result contributes to the reconstructed text *)















(** *** Blocks that end normally *)












(** *** Parts are only ever appended *)

Section AppendOnly.
Variable P : list json -> Prop.
Hypothesis P_append : forall x s, P s -> P (s ++ [x]).






End AppendOnly.





(** ** C8: what counts as success of the capture service *)

(** C8, as stated, fails: success is not "any 2xx".  A response with status
    304 is not a 2xx response, yet [resp.ok] holds for it: the health check
    reports the service available and the submission returns the id. *)
Lemma not_modified_counts_as_success :
  w_get_health (Examples.service_world 304) = inr (Response 304 [])
  /\ Spec.is_2xx (Response 304 []) = false
  /\ check_engram_health (Examples.service_world 304) = true
  /\ Spec.is_2xx (Response 304 Examples.saved_body) = false
  /\ save_to_engram (Examples.service_world 304) 0 Examples.sample_observation
     = JInt 7.
Proof. vm_compute. repeat split. Qed.

Lemma ok_iff (resp : response) :
  ok resp = true <-> ~ (400 <= status_code resp < 600)%Z.
Proof.
  unfold ok. rewrite negb_true_iff, andb_false_iff, Z.leb_gt, Z.ltb_ge. lia.
Qed.

(** C8, amended.  [check_engram_health] reports the service available
    exactly when GET /health is answered with a status outside 400..599
    (the [ok] of [requests]: every 2xx status, and 304 as well);
    [save_to_engram] returns a value other than [None] exactly when POST
    /observations is answered with such a status and a body that is a JSON
    object holding that value under ["id"], and [None] in every other
    case. *)
Theorem capture_service_success_is_response_ok (w : world) :
  (check_engram_health w = true
   <-> exists resp, w_get_health w = inr resp
                    /\ ~ (400 <= status_code resp < 600)%Z)
  /\ (forall n obs v,
        v <> JNull ->
        (save_to_engram w n obs = v
         <-> exists resp fields,
               w_post w n obs = inr resp
               /\ ~ (400 <= status_code resp < 600)%Z
               /\ w_json_loads w (body resp) = Parsed (JObj fields)
               /\ PyJson.lookup (txt "id") fields = Some v))
  /\ (forall resp, Spec.is_2xx resp = true -> ok resp = true).
Proof.
  repeat split.
  - unfold check_engram_health. destruct (w_get_health w) as [e|resp]; cbn.
    + discriminate.
    + intros H. exists resp. split; [reflexivity | now apply ok_iff].
  - intros (resp & Hget & Hok). unfold check_engram_health. rewrite Hget. cbn.
    now apply ok_iff.
  - intros Hsave.
    unfold save_to_engram, try_except, bind, lift, ret, response_json in Hsave.
    destruct (w_post w n obs) as [e|resp] eqn:Hpost;
      cbn [of_answer is_Exception] in Hsave; [congruence|].
    destruct (ok resp) eqn:Hok; [|congruence].
    destruct (w_json_loads w (body resp)) as [data| |e] eqn:Hloads;
      cbn [is_Exception] in Hsave; [|congruence|congruence].
    destruct data as [| | | | | |fields];
      cbn [PyJson.get is_Exception] in Hsave; try congruence.
    destruct (PyJson.lookup (txt "id") fields) as [x|] eqn:Hid; [|congruence].
    exists resp, fields. split; [reflexivity|]. split; [now apply ok_iff|].
    split; [assumption | congruence].
  - intros (resp & fields & Hpost & Hok & Hloads & Hid).
    apply ok_iff in Hok.
    unfold save_to_engram, try_except, bind, lift, ret, response_json.
    rewrite Hpost. cbn [of_answer]. rewrite Hok, Hloads.
    cbn [PyJson.get]. now rewrite Hid.
  - intros resp. unfold Spec.is_2xx. rewrite andb_true_iff, Z.leb_le, Z.ltb_lt.
    intros H. apply ok_iff. lia.
Qed.

Lemma capture_service_success_witness :
  check_engram_health (Examples.service_world 200) = true
  /\ save_to_engram (Examples.service_world 201) 0 Examples.sample_observation
     = JInt 7
  /\ check_engram_health (Examples.service_world 503) = false.
Proof.
  pose proof (capture_service_success_is_response_ok (Examples.service_world 200))
    as (Hhealth & _ & _).
  pose proof (capture_service_success_is_response_ok (Examples.service_world 201))
    as (_ & Hsave & _).
  split; [|split].
  - apply Hhealth. exists (Response 200 []). split; [reflexivity | cbn; lia].
  - apply Hsave; [discriminate|].
    exists (Response 201 Examples.saved_body), [(txt "id", JInt 7)].
    split; [reflexivity|]. split; [cbn; lia|].
    split; vm_compute; reflexivity.
  - vm_compute. reflexivity.
Defined.

(** The learnings of a text are empty or those of one of its sections. *)
Lemma scan_sections_from_one (text : str) (candidates : list Re.rmatch) :
  scan_sections text candidates = []
  \/ exists m, scan_sections text candidates = section_learnings (section_of text m).
Proof.
  induction candidates as [|m older IH]; cbn [scan_sections]; [now left|].
  destruct (section_learnings (section_of text m)) eqn:Hm; [exact IH|].
  right. exists m. now rewrite Hm.
Qed.

Lemma learnings_of_text_from_one (text : str) :
  learnings_of_text text = []
  \/ exists m, learnings_of_text text = section_learnings (section_of text m).
Proof.
  unfold learnings_of_text.
  destruct (Py.strip text); [now left|].
  destruct (Re.finditer header_pattern text); [now left|].
  apply scan_sections_from_one.
Qed.

Lemma filter_complement_length (A : Type) (f : A -> bool) (l : list A) :
  length (filter f l) = length l - length (filter (fun x => negb (f x)) l).
Proof.
  induction l as [|a l IH]; [reflexivity|]. cbn [filter].
  pose proof (filter_length_le (fun x => negb (f x)) l) as Hle.
  destruct (f a); cbn [negb length]; lia.
Qed.

(** The learnings of a section are the valid ones among its chosen items. *)
Lemma section_learnings_chosen (section_text : str) :
  section_learnings section_text
  = Spec.valid_items (Spec.chosen_items section_text).
Proof.
  rewrite section_learnings_by_cases. unfold Spec.chosen_items.
  now destruct (Spec.valid_items (Re.findall numbered_pattern section_text)) eqn:H.
Qed.

(** The scan of the candidates finds nothing in any of them, or returns the
    learnings of one of them. *)
Lemma scan_sections_cases (text : str) (candidates : list Re.rmatch) :
  (scan_sections text candidates = []
   /\ Forall (fun m => section_learnings (section_of text m) = []) candidates)
  \/ exists m,
       In m candidates
       /\ scan_sections text candidates = section_learnings (section_of text m)
       /\ section_learnings (section_of text m) <> [].
Proof.
  induction candidates as [|m older IH]; cbn [scan_sections].
  - left. split; [reflexivity | constructor].
  - destruct (section_learnings (section_of text m)) as [|l ls] eqn:Hm.
    + destruct IH as [[Hnil Hall] | (m' & Hin & Heq & Hne)].
      * left. split; [exact Hnil | now constructor].
      * right. exists m'. split; [now right | now split].
    + right. exists m. rewrite Hm. split; [now left|]. split; [reflexivity|discriminate].
Qed.

Lemma learnings_of_text_cases (text : str) :
  (learnings_of_text text = []
   /\ Forall (fun m => section_learnings (section_of text m) = [])
             (Re.finditer header_pattern text))
  \/ exists m,
       In m (Re.finditer header_pattern text)
       /\ learnings_of_text text = section_learnings (section_of text m)
       /\ section_learnings (section_of text m) <> [].
Proof.
  unfold learnings_of_text.
  destruct (Py.strip text) as [|c t] eqn:Hstrip.
  - left. split; [reflexivity|].
    apply strip_nil_iff in Hstrip. unfold Re.finditer.
    rewrite (no_header_in_blank_text text 0 None Hstrip). constructor.
  - destruct (Re.finditer header_pattern text) as [|m0 ms] eqn:Hm.
    + left. split; [reflexivity | constructor].
    + rewrite <- Hm.
      destruct (scan_sections_cases text (rev (Re.finditer header_pattern text)))
        as [[Hnil Hall] | (m & Hin & Heq & Hne)].
      * left. split; [exact Hnil|].
        apply Forall_rev_list in Hall. now rewrite rev_involutive in Hall.
      * right. exists m. split; [now apply in_rev | now split].
Qed.

(** C3: every learning [extract_learnings] returns is at least
    [MIN_LEARNING_LENGTH] characters long and does not begin with a bracket.
    The list returned is, in order, the cleaned items that pass the test
    among the raw items of one section of the reconstructed text (its
    numbered items if one of them passes, else its bulleted items): an item
    that fails is left out, the others stay, so the list is as many items
    shorter as there are failing items.  The list is empty only when there
    is nothing to read or when no section of the text holds an item that
    passes. *)
Theorem learnings_are_the_valid_items
    (w : world) (path : str) (learnings : list str) :
  extract_learnings w path = Ok learnings ->
  Forall Spec.acceptable learnings
  /\ ((learnings = []
       /\ (path = []
           \/ file_exists (w_files w path) = Ok false
           \/ exists text,
                _extract_text_from_jsonl w path = Ok text
                /\ Forall (fun m =>
                             filter valid_learning
                               (map _clean_markdown
                                    (Spec.chosen_items (section_of text m))) = [])
                          (Re.finditer header_pattern text)))
      \/ exists text m items,
           _extract_text_from_jsonl w path = Ok text
           /\ In m (Re.finditer header_pattern text)
           /\ items = Spec.chosen_items (section_of text m)
           /\ learnings = filter valid_learning (map _clean_markdown items)
           /\ learnings <> []
           /\ length learnings
              = length items
                - length (filter (fun cleaned => negb (valid_learning cleaned))
                                 (map _clean_markdown items))).
Proof.
  intros H.
  assert (Hfrom : (learnings = []
                   /\ (path = [] \/ file_exists (w_files w path) = Ok false))
                  \/ exists text,
                       _extract_text_from_jsonl w path = Ok text
                       /\ learnings = learnings_of_text text).
  { unfold extract_learnings in H.
    destruct path as [|c p]; [apply Ok_inj in H; left; split; [easy | now left]|].
    destruct (file_exists (w_files w (c :: p))) as [[]|e]; [| |discriminate].
    - destruct (_extract_text_from_jsonl w (c :: p)) as [text|e]; [|discriminate].
      apply Ok_inj in H. right. now exists text.
    - apply Ok_inj in H. left. split; [easy | now right]. }
  split.
  - destruct Hfrom as [[-> _] | (text & _ & ->)]; [constructor|].
    apply learnings_of_text_acceptable.
  - destruct Hfrom as [[-> Hwhy] | (text & Htext & ->)].
    { left. split; [reflexivity|]. destruct Hwhy as [Hp | Hf]; [now left|].
      right. now left. }
    destruct (learnings_of_text_cases text) as [[Hnil Hall] | (m & Hin & Heq & Hne)].
    + left. split; [exact Hnil|]. right. right. exists text. split; [exact Htext|].
      apply Forall_forall. intros m Hm.
      apply (proj1 (Forall_forall _ _) Hall) in Hm.
      now rewrite section_learnings_chosen in Hm.
    + right. exists text, m, (Spec.chosen_items (section_of text m)).
      rewrite Heq in *. rewrite section_learnings_chosen in *.
      unfold Spec.valid_items in *.
      repeat split; try assumption.
      rewrite filter_complement_length. now rewrite length_map.
Qed.

(** Three numbered items of which the second is too short: two learnings. *)
Lemma learnings_are_the_valid_items_witness :
  extract_learnings Examples.three_items_world Examples.agent_path
    = Ok [txt "Always validate input boundaries before parsing.";
          txt "Cache misses should log at debug level."]
  /\ Spec.chosen_items (section_of Examples.three_items (Re.RMatch 0 17 None))
     = [txt "Always validate input boundaries before parsing.";
        txt "Be careful.";
        txt "Cache misses should log at debug level."]
  /\ exists text m items,
       _extract_text_from_jsonl Examples.three_items_world Examples.agent_path
       = Ok text
       /\ In m (Re.finditer header_pattern text)
       /\ items = Spec.chosen_items (section_of text m)
       /\ [txt "Always validate input boundaries before parsing.";
           txt "Cache misses should log at debug level."]
          = filter valid_learning (map _clean_markdown items)
       /\ [txt "Always validate input boundaries before parsing.";
           txt "Cache misses should log at debug level."] <> []
       /\ 2 = length items
              - length (filter (fun cleaned => negb (valid_learning cleaned))
                               (map _clean_markdown items)).
Proof.
  split; [vm_compute; reflexivity|].
  split; [vm_compute; reflexivity|].
  destruct (@learnings_are_the_valid_items
              Examples.three_items_world Examples.agent_path
              [txt "Always validate input boundaries before parsing.";
               txt "Cache misses should log at debug level."])
    as (_ & [[Hnil _] | Hright]).
  - vm_compute. reflexivity.
  - discriminate.
  - exact Hright.
Defined.

(** The same list with a placeholder in second place. *)
Example placeholder_is_left_out :
  learnings_of_text Examples.three_items_placeholder
  = [txt "Always validate input boundaries before parsing.";
     txt "Cache misses should log at debug level."].
Proof. vm_compute. reflexivity. Qed.

(** ** C1: the exit status *)

Lemma quiet_ret S A (a : A) : quiet (ret (S := S) a).
Proof. intros s. exact I. Qed.

Lemma quiet_lift S A (r : result A) : exits_zero r -> quiet (lift (S := S) r).
Proof. intros H s. exact H. Qed.

Lemma quiet_sys_exit_0 S A : quiet (sys_exit (S := S) (A := A) 0).
Proof. intros s. reflexivity. Qed.

Lemma quiet_bind S A B (m : M S A) (f : A -> M S B) :
  quiet m -> (forall a, quiet (f a)) -> quiet (bind m f).
Proof.
  intros Hm Hf s. unfold bind. specialize (Hm s).
  destruct (m s) as [s' [a|e]]; [apply Hf | exact Hm].
Qed.

Lemma quiet_for_each S A (xs : list A) (body : A -> M S unit) :
  (forall x, quiet (body x)) -> quiet (for_each xs body).
Proof.
  intros Hbody. induction xs as [|x xs IH]; cbn [for_each].
  - apply quiet_ret.
  - apply quiet_bind; [apply Hbody | intros _; exact IH].
Qed.

Lemma of_answer_exits_zero A (r : answer A) : exits_zero (of_answer r).
Proof. now destruct r. Qed.

Lemma get_exits_zero v key default : exits_zero (PyJson.get v key default).
Proof. destruct v; cbn; try exact I. now destruct (PyJson.lookup key fields). Qed.

Lemma as_path_exits_zero v : exits_zero (as_path v).
Proof. now destruct v. Qed.

Lemma strings_of_exits_zero parts : exits_zero (strings_of parts).
Proof.
  induction parts as [|v parts IH]; [exact I|].
  cbn [strings_of]. destruct v; try exact I.
  now destruct (strings_of parts).
Qed.

Lemma file_exists_exits_zero f : exits_zero (file_exists f).
Proof. now destruct f. Qed.

Lemma read_envelope_exits_zero w raw : exits_zero (read_envelope w raw).
Proof.
  unfold read_envelope. destruct (Py.strip raw); [exact I|].
  now destruct (w_json_loads w raw).
Qed.

Lemma detect_agent_name_exits_zero w path : exits_zero (detect_agent_name w path).
Proof.
  unfold detect_agent_name. destruct path as [|c p]; [exact I|].
  pose proof (file_exists_exits_zero (w_files w (c :: p))) as H.
  destruct (file_exists (w_files w (c :: p))) as [[]|e]; [|exact I|exact H].
  now destruct (found_in w (c :: p)).
Qed.

Lemma extract_learnings_exits_zero w path : exits_zero (extract_learnings w path).
Proof.
  unfold extract_learnings. destruct path as [|c p]; [exact I|].
  pose proof (file_exists_exits_zero (w_files w (c :: p))) as Hf.
  destruct (file_exists (w_files w (c :: p))) as [[]|e]; [|exact I|exact Hf].
  unfold _extract_text_from_jsonl, join_parts.
  pose proof (strings_of_exits_zero (transcript_parts w (c :: p))) as H.
  now destruct (strings_of _).
Qed.

(** The [try] block of [main] only ever exits with status 0. *)
Lemma main_try_quiet (w : world) : quiet (main_try w).
Proof.
  unfold main_try.
  apply quiet_bind; [apply quiet_lift, of_answer_exits_zero|]. intros raw_input.
  apply quiet_bind; [apply quiet_lift, read_envelope_exits_zero|]. intros data.
  apply quiet_bind; [apply quiet_lift, get_exits_zero|]. intros session_id.
  apply quiet_bind; [apply quiet_lift, get_exits_zero|]. intros agent_transcript.
  apply quiet_bind; [apply quiet_lift, get_exits_zero|]. intros parent_transcript.
  apply quiet_bind; [apply quiet_lift, get_exits_zero|]. intros cwd.
  apply quiet_bind.
  { destruct (PyJson.truthy cwd); [|apply quiet_ret].
    apply quiet_bind; [apply quiet_lift, as_path_exits_zero|].
    intros p. apply quiet_ret. }
  intros project.
  apply quiet_bind.
  { destruct (negb _); [apply quiet_sys_exit_0 | apply quiet_ret]. }
  intros _.
  apply quiet_bind.
  { destruct (PyJson.truthy agent_transcript); [|apply quiet_ret].
    apply quiet_bind; [apply quiet_lift, as_path_exits_zero|].
    intros p. apply quiet_lift, file_exists_exits_zero. }
  intros transcript_exists.
  apply quiet_bind.
  { destruct (negb _); [apply quiet_sys_exit_0 | apply quiet_ret]. }
  intros _.
  apply quiet_bind.
  { destruct (PyJson.truthy parent_transcript); [|apply quiet_ret].
    apply quiet_bind; [apply quiet_lift, as_path_exits_zero|].
    intros p. apply quiet_lift, detect_agent_name_exits_zero. }
  intros agent_name.
  apply quiet_bind.
  { apply quiet_bind; [apply quiet_lift, as_path_exits_zero|].
    intros p. apply quiet_lift, extract_learnings_exits_zero. }
  intros learnings.
  destruct learnings as [|l ls]; [apply quiet_sys_exit_0|].
  apply quiet_for_each. intros learning s. exact I.
Qed.

(** Once [setup_logging] has returned, the process ends with status 0
    whatever standard input, the files and the capture service do. *)
Lemma main_exits_zero_once_logging_is_set_up (w : world) :
  w_setup_logging w = inr tt -> snd (run_hook w) = 0%Z.
Proof.
  intros Hlog. unfold run_hook, main, bind, lift. rewrite Hlog.
  cbn [of_answer]. unfold try_except.
  pose proof (main_try_quiet w (RunState [] 0)) as Hq.
  destruct (main_try w (RunState [] 0)) as [st [[]|[code|e]]];
    cbn [snd exits_zero is_Exception] in *.
  - reflexivity.
  - now subst code.
  - reflexivity.
Qed.

(** The run of the specification's end-to-end example. *)
Example end_to_end_run :
  map (fun o => (o_title o, o_project o)) (fst (run_hook (Examples.hook_world (inr tt))))
    = [(txt "[reviewer] Always validate input boundaries before parsing....",
        txt "proj");
       (txt "[reviewer] Cache misses should log at debug level....",
        txt "proj")]
  /\ snd (run_hook (Examples.hook_world (inr tt))) = 0%Z.
Proof. vm_compute. split; reflexivity. Qed.

(** C1: the code does not exit with status 0 on every path.  The call
    [setup_logging()] stands before the [try] of [main]: when the log
    directory cannot be created, [LOG_DIR.mkdir] raises [OSError], nothing
    catches it, and the process ends with a traceback and status 1 without
    having posted anything. *)
Theorem unwritable_log_dir_exits_with_status_1 :
  run_hook Examples.unwritable_log_dir_world = ([], 1%Z).
Proof. vm_compute. reflexivity. Qed.

(* ===================================================================== *)
(** * Further properties *)
(* ===================================================================== *)

(** ** The orchestrator *)

Lemma bind_lift S A B (r : result A) (f : A -> M S B) (s : S) :
  bind (lift r) f s
  = match r with
    | Ok a => f a s
    | Raise e => (s, Raise e)
    end.
Proof. unfold bind, lift. now destruct r. Qed.

Lemma get_ok_inv (v : json) (key : str) (default x : json) :
  PyJson.get v key default = Ok x ->
  exists fields,
    v = JObj fields
    /\ x = match PyJson.lookup key fields with Some y => y | None => default end.
Proof.
  destruct v; try discriminate. rewrite get_dict. intros H.
  apply Ok_inj in H. now exists fields.
Qed.

(** The loop of [main]: every learning is posted, whatever the answers. *)
Lemma save_loop (w : world) (session_id agent_name : json) (project : str)
    (learnings : list str) :
  forall st,
  exists posts,
    for_each learnings (save_learning w session_id agent_name project) st
    = (RunState (posted st ++ posts)
                (saved_count st + Hook.acknowledged w (length (posted st)) posts),
       Ok tt)
    /\ map o_content posts = learnings
    /\ Forall (Hook.post_of w session_id agent_name project) posts.
Proof.
  induction learnings as [|learning learnings IH]; intros st.
  - exists []. cbn. rewrite app_nil_r, Nat.add_0_r. now destruct st.
  - cbn [for_each]. unfold bind at 1. unfold save_learning at 1. cbv zeta.
    match goal with
    | |- context [RunState (posted st ++ [?o]) ?n] =>
        destruct (IH (RunState (posted st ++ [o]) n)) as (posts & Hrun & Hc & Hp);
        exists (o :: posts)
    end.
    rewrite Hrun. cbn [posted saved_count]. repeat split.
    + f_equal. f_equal.
      * now rewrite <- app_assoc.
      * rewrite length_app. cbn [length Hook.acknowledged].
        rewrite Nat.add_1_r.
        destruct (PyJson.truthy _); lia.
    + cbn [map o_content]. now rewrite Hc.
    + constructor; [|exact Hp]. now repeat split.
Qed.

Lemma project_block S B (cwd : json) (f : str -> M S B) (s : S) :
  bind (if PyJson.truthy cwd
        then (p <- lift (as_path cwd) ;; ret (path_name p))
        else ret (txt "unknown"))%stmt f s
  = match cwd with
    | JStr _ => f (Hook.project_of cwd) s
    | _ => if PyJson.truthy cwd then (s, Raise TypeError)
           else f (Hook.project_of cwd) s
    end.
Proof.
  destruct cwd as [|[]|n|m e|[|c p]|[|x l]|[|x l]]; cbn; try reflexivity;
    now destruct (negb _).
Qed.

Lemma exists_block S B (w : world) (v : json) (f : bool -> M S B) (s : S) :
  bind (if PyJson.truthy v
        then (p <- lift (as_path v) ;; lift (file_exists (w_files w p)))
        else ret false)%stmt f s
  = match v with
    | JStr (c :: p) =>
        match file_exists (w_files w (c :: p)) with
        | Ok b => f b s
        | Raise e => (s, Raise e)
        end
    | JStr [] => f false s
    | _ => if PyJson.truthy v then (s, Raise TypeError) else f false s
    end.
Proof.
  destruct v as [|[]|n|m e|[|c p]|[|x l]|[|x l]]; cbn; try reflexivity;
    try (now destruct (negb _));
    try (unfold bind, lift; now destruct (file_exists (w_files w (c :: p)))).
Qed.

Lemma agent_block S B (w : world) (v : json) (f : json -> M S B) (s : S) :
  bind (if PyJson.truthy v
        then (p <- lift (as_path v) ;; lift (detect_agent_name w p))
        else ret unknown)%stmt f s
  = match Hook.agent_of w v with
    | Ok agent_name => f agent_name s
    | Raise e => (s, Raise e)
    end.
Proof.
  destruct v as [|[]|n|m e|[|c p]|[|x l]|[|x l]]; cbn; try reflexivity;
    try (now destruct (negb _));
    try (unfold bind, lift;
         now destruct (match file_exists (w_files w (c :: p)) with
                       | Ok true => _ | Ok false => _ | Raise e => _ end)).
Qed.

Lemma project_block_ok S B (cwd : json) (f : str -> M S B) (s : S) :
  Hook.falsy_or_str cwd ->
  bind (if PyJson.truthy cwd
        then (p <- lift (as_path cwd) ;; ret (path_name p))
        else ret (txt "unknown"))%stmt f s
  = f (Hook.project_of cwd) s.
Proof.
  intros H. rewrite project_block. destruct H as [Hf | [t ->]]; [|reflexivity].
  destruct cwd; try reflexivity; now rewrite Hf.
Qed.

Lemma falsy_or_str_cases (v : json) :
  Hook.falsy_or_str v
  \/ (PyJson.truthy v = true /\ forall s, v <> JStr s).
Proof.
  unfold Hook.falsy_or_str. destruct v as [| | | |t| |].
  5: { left. right. now exists t. }
  all: destruct (PyJson.truthy _) eqn:Ht;
    [right; split; [reflexivity|discriminate] | left; now left].
Qed.

(** The [try] block of [main] either leaves the state as it is, or reaches
    the loop with every precondition met. *)
Lemma main_try_cases (w : world) (st : run_state) :
  (exists r, main_try w st = (st, r))
  \/ exists raw fields p learnings agent_name,
       w_stdin w = inr raw
       /\ read_envelope w raw = Ok (JObj fields)
       /\ check_engram_health w = true
       /\ Hook.envelope_field fields "agent_transcript_path" = JStr p
       /\ p <> []
       /\ file_exists (w_files w p) = Ok true
       /\ extract_learnings w p = Ok learnings
       /\ learnings <> []
       /\ Hook.falsy_or_str (Hook.envelope_field fields "cwd")
       /\ Hook.agent_of w (Hook.envelope_field fields "transcript_path")
          = Ok agent_name
       /\ main_try w st
          = for_each learnings
              (save_learning w
                 (Hook.envelope_field fields "session_id")
                 agent_name
                 (Hook.project_of (Hook.envelope_field fields "cwd")))
              st.
Proof.
  set (P := fun x : run_state * result unit =>
    (exists r, x = (st, r))
    \/ exists raw fields p learnings agent_name,
         w_stdin w = inr raw
         /\ read_envelope w raw = Ok (JObj fields)
         /\ check_engram_health w = true
         /\ Hook.envelope_field fields "agent_transcript_path" = JStr p
         /\ p <> []
         /\ file_exists (w_files w p) = Ok true
         /\ extract_learnings w p = Ok learnings
         /\ learnings <> []
         /\ Hook.falsy_or_str (Hook.envelope_field fields "cwd")
         /\ Hook.agent_of w (Hook.envelope_field fields "transcript_path")
            = Ok agent_name
         /\ x = for_each learnings
                  (save_learning w
                     (Hook.envelope_field fields "session_id")
                     agent_name
                     (Hook.project_of (Hook.envelope_field fields "cwd")))
                  st).
  change (P (main_try w st)).
  assert (Hstop : forall r, P (st, r)) by (intros r; left; now exists r).
  unfold main_try. rewrite bind_lift.
  destruct (w_stdin w) as [e|raw] eqn:Hstdin; cbn [of_answer]; [apply Hstop|].
  rewrite bind_lift.
  destruct (read_envelope w raw) as [[| | | | | |fields]|e] eqn:Hdata;
    try solve [apply Hstop].
  rewrite bind_lift, get_dict. rewrite bind_lift, get_dict.
  rewrite bind_lift, get_dict. rewrite bind_lift, get_dict.
  fold (Hook.envelope_field fields "session_id").
  fold (Hook.envelope_field fields "agent_transcript_path").
  fold (Hook.envelope_field fields "transcript_path").
  fold (Hook.envelope_field fields "cwd").
  destruct (falsy_or_str_cases (Hook.envelope_field fields "cwd"))
    as [Hcwd | [Htruthy Hnot]].
  2: { rewrite project_block.
       destruct (Hook.envelope_field fields "cwd");
         try (rewrite Htruthy; apply Hstop).
       now destruct (Hnot s). }
  rewrite (project_block_ok _ _ Hcwd).
  destruct (check_engram_health w) eqn:Hhealth; cbn [negb]; [|apply Hstop].
  unfold bind at 1. unfold ret at 1.
  rewrite exists_block.
  destruct (Hook.envelope_field fields "agent_transcript_path")
    as [|[]|n|m e|[|c p]|[|x l]|[|x l]] eqn:Hagent;
    cbn [PyJson.truthy];
    try solve [apply Hstop];
    try solve [destruct (negb _); apply Hstop].
  destruct (file_exists (w_files w (c :: p))) as [[]|e] eqn:Hfile; cbn [negb];
    [|apply Hstop|apply Hstop].
  unfold bind at 1. unfold ret at 1.
  rewrite agent_block.
  destruct (Hook.agent_of w (Hook.envelope_field fields "transcript_path"))
    as [agent_name|e] eqn:Hname; [|apply Hstop].
  unfold bind at 1. unfold bind at 1. unfold lift at 1. cbn [as_path].
  unfold lift at 1.
  destruct (extract_learnings w (c :: p)) as [[|l ls]|e] eqn:Hex;
    try solve [apply Hstop].
  right. exists raw, fields, (c :: p), (l :: ls), agent_name.
  repeat split; try assumption; try reflexivity; discriminate.
Qed.

(** With every precondition met, the [try] block is the loop over the
    learnings, or the exit for an empty list. *)
Lemma main_try_reaches_loop (w : world) (st : run_state)
    (raw : str) (fields : list (str * json)) (p : str) (learnings : list str)
    (agent_name : json) :
  w_stdin w = inr raw ->
  read_envelope w raw = Ok (JObj fields) ->
  check_engram_health w = true ->
  Hook.envelope_field fields "agent_transcript_path" = JStr p ->
  p <> [] ->
  file_exists (w_files w p) = Ok true ->
  Hook.falsy_or_str (Hook.envelope_field fields "cwd") ->
  Hook.agent_of w (Hook.envelope_field fields "transcript_path") = Ok agent_name ->
  extract_learnings w p = Ok learnings ->
  main_try w st
  = match learnings with
    | [] => (st, Raise (SystemExit 0))
    | _ :: _ =>
        for_each learnings
          (save_learning w
             (Hook.envelope_field fields "session_id")
             agent_name
             (Hook.project_of (Hook.envelope_field fields "cwd")))
          st
    end.
Proof.
  intros Hstdin Hdata Hhealth Hagent Hp Hfile Hcwd Hname Hex.
  unfold main_try. rewrite bind_lift, Hstdin. cbn [of_answer].
  rewrite bind_lift, Hdata.
  rewrite bind_lift, get_dict. rewrite bind_lift, get_dict.
  rewrite bind_lift, get_dict. rewrite bind_lift, get_dict.
  fold (Hook.envelope_field fields "session_id").
  fold (Hook.envelope_field fields "agent_transcript_path").
  fold (Hook.envelope_field fields "transcript_path").
  fold (Hook.envelope_field fields "cwd").
  rewrite (project_block_ok _ _ Hcwd).
  rewrite Hhealth. cbn [negb]. unfold bind at 1. unfold ret at 1.
  rewrite exists_block, Hagent.
  destruct p as [|c p]; [congruence|].
  rewrite Hfile. cbn [negb]. unfold bind at 1. unfold ret at 1.
  rewrite agent_block, Hname.
  unfold bind at 1. unfold bind at 1. unfold lift at 1. cbn [as_path].
  unfold lift at 1. rewrite Hex. now destruct learnings.
Qed.

(** What [main] leaves behind is what its [try] block leaves behind. *)
Lemma main_state (w : world) (st : run_state) :
  fst (main w st)
  = match w_setup_logging w with
    | inl _ => st
    | inr _ => fst (main_try w st)
    end.
Proof.
  unfold main, bind, lift, try_except, sys_exit, raise, ret.
  destruct (w_setup_logging w) as [e|[]]; cbn [of_answer]; [reflexivity|].
  destruct (main_try w st) as [st' [[]|e]]; [reflexivity|].
  now destruct (is_Exception e).
Qed.

Lemma run_hook_posts (w : world) :
  fst (run_hook w) = posted (fst (main w (RunState [] 0))).
Proof. unfold run_hook. now destruct (main w (RunState [] 0)). Qed.

Lemma run_hook_status (w : world) :
  snd (run_hook w) = exit_status (snd (main w (RunState [] 0))).
Proof. unfold run_hook. now destruct (main w (RunState [] 0)). Qed.

(** What a run that posts anything has gone through. *)
Lemma posting_needs (w : world) :
  fst (run_hook w) = []
  \/ exists raw fields p,
       w_stdin w = inr raw
       /\ read_envelope w raw = Ok (JObj fields)
       /\ check_engram_health w = true
       /\ Hook.envelope_field fields "agent_transcript_path" = JStr p
       /\ p <> []
       /\ file_exists (w_files w p) = Ok true.
Proof.
  rewrite run_hook_posts, main_state.
  destruct (w_setup_logging w) as [e|[]]; [now left|].
  destruct (main_try_cases w (RunState [] 0))
    as [[r Hr] | (raw & fields & p & learnings & agent_name & Hstdin & Hdata
                  & Hhealth & Hagent & Hp & Hfile & _)].
  - left. now rewrite Hr.
  - right. now exists raw, fields, p.
Qed.

(** X1: nothing is posted unless logging was set up, standard input held a
    JSON object, the capture service passed the health check, the
    envelope's [agent_transcript_path] is a non-empty string naming an
    existing file, [detect_agent_name] returned a name and
    [extract_learnings] returned a non-empty list; and then the contents of
    the observations posted are exactly the extracted learnings, in order,
    each observation carrying the title, type, project, session id, agent
    name and source of the run. *)
Theorem posts_are_the_extracted_learnings (w : world) :
  fst (run_hook w) = []
  \/ exists raw fields p learnings agent_name,
       w_setup_logging w = inr tt
       /\ w_stdin w = inr raw
       /\ read_envelope w raw = Ok (JObj fields)
       /\ check_engram_health w = true
       /\ Hook.envelope_field fields "agent_transcript_path" = JStr p
       /\ p <> []
       /\ file_exists (w_files w p) = Ok true
       /\ Hook.agent_of w (Hook.envelope_field fields "transcript_path")
          = Ok agent_name
       /\ extract_learnings w p = Ok learnings
       /\ learnings <> []
       /\ map o_content (fst (run_hook w)) = learnings
       /\ Forall (Hook.post_of w
                    (Hook.envelope_field fields "session_id")
                    agent_name
                    (Hook.project_of (Hook.envelope_field fields "cwd")))
                 (fst (run_hook w)).
Proof.
  rewrite run_hook_posts, main_state.
  destruct (w_setup_logging w) as [e|[]] eqn:Hlog; [now left|].
  destruct (main_try_cases w (RunState [] 0))
    as [[r Hr] | (raw & fields & p & learnings & agent_name & Hstdin & Hdata
                  & Hhealth & Hagent & Hp & Hfile & Hex & Hne & Hcwd & Hname
                  & Hrun)].
  - left. now rewrite Hr.
  - right. exists raw, fields, p, learnings, agent_name.
    destruct (save_loop w (Hook.envelope_field fields "session_id")
                agent_name
                (Hook.project_of (Hook.envelope_field fields "cwd"))
                learnings (RunState [] 0)) as (posts & Hloop & Hc & Hposts).
    rewrite Hrun, Hloop. cbn [fst posted app].
    repeat split; assumption.
Qed.

Lemma posts_are_the_extracted_learnings_witness :
  map o_content (fst (run_hook (Examples.hook_world (inr tt))))
  = [txt "Always validate input boundaries before parsing.";
     txt "Cache misses should log at debug level."]
  /\ extract_learnings (Examples.hook_world (inr tt)) Examples.agent_path
     = Ok [txt "Always validate input boundaries before parsing.";
           txt "Cache misses should log at debug level."].
Proof.
  destruct (posts_are_the_extracted_learnings (Examples.hook_world (inr tt)))
    as [Hnone | (raw & fields & p & learnings & agent_name & _)].
  - vm_compute in Hnone. discriminate.
  - split; vm_compute; reflexivity.
Defined.

(** X2: when the health check fails (the request raises, or the answer has
    a status from 400 to 599) and logging was set up, nothing is posted and
    the process ends with status 0, whatever standard input holds. *)
Theorem unreachable_service_posts_nothing (w : world) :
  w_setup_logging w = inr tt ->
  check_engram_health w = false ->
  run_hook w = ([], 0%Z).
Proof.
  intros Hlog Hhealth.
  rewrite (surjective_pairing (run_hook w)). f_equal.
  - destruct (posting_needs w) as [Hnone | (raw & fields & p & _ & _ & Hh & _)];
      [exact Hnone | congruence].
  - now apply main_exits_zero_once_logging_is_set_up.
Qed.

Lemma unreachable_service_witness :
  check_engram_health
    (Examples.world_of_logs [(Examples.agent_path, Examples.two_learnings_log)])
  = false
  /\ run_hook
       (Examples.world_of_logs [(Examples.agent_path, Examples.two_learnings_log)])
     = ([], 0%Z).
Proof.
  split; [vm_compute; reflexivity|].
  apply unreachable_service_posts_nothing; vm_compute; reflexivity.
Defined.

(** X3: when standard input cannot be read, is blank, is not JSON, makes
    [json.loads] raise, or is JSON without a usable
    [agent_transcript_path] (absent, empty, or a path of which
    [Path.exists] does not say that it exists), and logging was set up,
    nothing is posted and the process ends with status 0. *)
Theorem unusable_envelope_posts_nothing (w : world) :
  w_setup_logging w = inr tt ->
  (forall raw,
     w_stdin w = inr raw ->
     Py.strip raw = []
     \/ w_json_loads w raw = NotJson
     \/ (exists e, w_json_loads w raw = LoadsRaises e)
     \/ (forall fields p,
           w_json_loads w raw = Parsed (JObj fields) ->
           Hook.envelope_field fields "agent_transcript_path" = JStr p ->
           file_exists (w_files w p) <> Ok true)) ->
  run_hook w = ([], 0%Z).
Proof.
  intros Hlog Hraw.
  rewrite (surjective_pairing (run_hook w)). f_equal;
    [|now apply main_exits_zero_once_logging_is_set_up].
  destruct (posting_needs w)
    as [Hnone | (raw & fields & p & Hstdin & Hdata & _ & Hagent & Hp & Hfile)];
    [exact Hnone|].
  exfalso.
  assert (Hempty : read_envelope w raw = Ok (JObj []) -> False).
  { intros H. rewrite H in Hdata.
    assert (fields = []) by congruence. subst fields.
    destruct p; [congruence | discriminate]. }
  unfold read_envelope in Hdata, Hempty.
  destruct (Hraw raw Hstdin) as [Hblank | [Hbad | [[e He] | Hmissing]]].
  - apply Hempty. now rewrite Hblank.
  - apply Hempty. rewrite Hbad. now destruct (Py.strip raw).
  - rewrite He in Hdata. destruct (Py.strip raw); [now apply Hempty | discriminate].
  - destruct (Py.strip raw); [now apply Hempty|].
    destruct (w_json_loads w raw) as [d| |e] eqn:Hloads;
      [|now apply Hempty|discriminate].
    apply Ok_inj in Hdata. subst d.
    now apply (Hmissing fields p eq_refl Hagent).
Qed.

Lemma unusable_envelope_witness :
  w_stdin (Examples.service_world 200) = inr []
  /\ run_hook (Examples.service_world 200) = ([], 0%Z).
Proof.
  split; [reflexivity|].
  apply unusable_envelope_posts_nothing; [reflexivity|].
  intros raw H. left.
  assert (Hraw : raw = []) by (cbn in H; congruence).
  now rewrite Hraw.
Defined.

(** X4: when logging was set up, standard input holds a JSON object, the
    health check passes, [agent_transcript_path] names an existing file,
    [cwd] is a string or falsy and [detect_agent_name] returns a name for
    [transcript_path] (it raises for a value that is truthy and not a
    string, and for a path on which [Path.exists] raises), the hook posts
    one observation per extracted learning, in order and whatever the
    answers to the individual submissions are, and ends with status 0.
    The content of each observation is the learning, its title is
    [[agent] first-60-characters...], its project is the last component of
    [cwd] (or ["unknown"]). *)
Theorem one_post_per_learning (w : world)
    (raw : str) (fields : list (str * json)) (p : str) (learnings : list str)
    (agent_name : json) :
  w_setup_logging w = inr tt ->
  w_stdin w = inr raw ->
  read_envelope w raw = Ok (JObj fields) ->
  check_engram_health w = true ->
  Hook.envelope_field fields "agent_transcript_path" = JStr p ->
  p <> [] ->
  file_exists (w_files w p) = Ok true ->
  Hook.falsy_or_str (Hook.envelope_field fields "cwd") ->
  Hook.agent_of w (Hook.envelope_field fields "transcript_path") = Ok agent_name ->
  extract_learnings w p = Ok learnings ->
  map o_content (fst (run_hook w)) = learnings
  /\ Forall (Hook.post_of w
               (Hook.envelope_field fields "session_id")
               agent_name
               (Hook.project_of (Hook.envelope_field fields "cwd")))
            (fst (run_hook w))
  /\ snd (run_hook w) = 0%Z.
Proof.
  intros Hlog Hstdin Hdata Hhealth Hagent Hp Hfile Hcwd Hname Hex.
  split; [|split]; [| |now apply main_exits_zero_once_logging_is_set_up].
  - rewrite run_hook_posts, main_state, Hlog.
    rewrite (main_try_reaches_loop w (RunState [] 0) Hstdin Hdata Hhealth Hagent
               Hp Hfile Hcwd Hname Hex).
    destruct learnings as [|l ls]; [reflexivity|].
    destruct (save_loop w (Hook.envelope_field fields "session_id")
                agent_name
                (Hook.project_of (Hook.envelope_field fields "cwd"))
                (l :: ls) (RunState [] 0)) as (posts & Hloop & Hc & Hposts).
    now rewrite Hloop.
  - rewrite run_hook_posts, main_state, Hlog.
    rewrite (main_try_reaches_loop w (RunState [] 0) Hstdin Hdata Hhealth Hagent
               Hp Hfile Hcwd Hname Hex).
    destruct learnings as [|l ls]; [constructor|].
    destruct (save_loop w (Hook.envelope_field fields "session_id")
                agent_name
                (Hook.project_of (Hook.envelope_field fields "cwd"))
                (l :: ls) (RunState [] 0)) as (posts & Hloop & Hc & Hposts).
    now rewrite Hloop.
Qed.

(** The end-to-end world, with a capture service that rejects every
    submission: both learnings are still posted. *)
Lemma one_post_per_learning_witness :
  map o_content
    (fst (run_hook
            (World (inr tt) (inr Examples.envelope)
                   (w_json_loads (Examples.hook_world (inr tt)))
                   (w_files (Examples.hook_world (inr tt)))
                   (inr (Response 200 []))
                   (fun _ _ => inr (Response 500 []))
                   (fun _ => [])
                   (fun _ => []))))
  = [txt "Always validate input boundaries before parsing.";
     txt "Cache misses should log at debug level."].
Proof.
  apply (@one_post_per_learning _ Examples.envelope
           [(txt "agent_transcript_path", JStr Examples.agent_path);
            (txt "transcript_path", JStr Examples.parent_path);
            (txt "cwd", JStr (txt "/work/proj"))]
           Examples.agent_path _ (JStr (txt "reviewer"))).
  - reflexivity.
  - reflexivity.
  - vm_compute. reflexivity.
  - vm_compute. reflexivity.
  - vm_compute. reflexivity.
  - discriminate.
  - vm_compute. reflexivity.
  - right. eexists. vm_compute. reflexivity.
  - vm_compute. reflexivity.
  - vm_compute. reflexivity.
Defined.

(** With a [transcript_path] on which [Path.exists] raises, the exception
    of [detect_agent_name] is caught by [main] and nothing is posted, though
    the agent transcript holds two learnings. *)
Example unreadable_parent_path_posts_nothing :
  let w :=
    World (inr tt) (inr Examples.envelope)
          (w_json_loads (Examples.hook_world (inr tt)))
          (fun path => if Py.text_eqb path Examples.parent_path then Inaccessible
                       else w_files (Examples.hook_world (inr tt)) path)
          (inr (Response 200 []))
          (fun _ _ => inr (Response 201 Examples.saved_body))
          (fun _ => [])
          (fun _ => []) in
  extract_learnings w Examples.agent_path
  = Ok [txt "Always validate input boundaries before parsing.";
        txt "Cache misses should log at debug level."]
  /\ run_hook w = ([], 0%Z).
Proof. vm_compute. split; reflexivity. Qed.

(** X5: the counter [saved_count] ends as the number of submissions that
    came back with a truthy id: a submission that fails, or whose answer
    holds no id, the id [null], [0] or the empty string, is not counted.
    The counter never exceeds the number of observations posted. *)
Theorem saved_count_counts_truthy_ids (w : world) :
  let st := fst (main w (RunState [] 0)) in
  saved_count st = Hook.acknowledged w 0 (posted st)
  /\ saved_count st <= length (posted st).
Proof.
  cbv zeta.
  assert (Hle : forall n posts, Hook.acknowledged w n posts <= length posts).
  { intros n posts. revert n. induction posts as [|o posts IH]; intros n; [reflexivity|].
    cbn [Hook.acknowledged length]. specialize (IH (S n)).
    destruct (PyJson.truthy _); lia. }
  assert (H : saved_count (fst (main w (RunState [] 0)))
              = Hook.acknowledged w 0 (posted (fst (main w (RunState [] 0))))).
  { rewrite main_state.
    destruct (w_setup_logging w) as [e|[]]; [reflexivity|].
    destruct (main_try_cases w (RunState [] 0))
      as [[r Hr] | (raw & fields & p & learnings & agent_name & _ & _ & _ & _ & _
                    & _ & _ & _ & _ & _ & Hrun)].
    - now rewrite Hr.
    - destruct (save_loop w (Hook.envelope_field fields "session_id")
                  agent_name
                  (Hook.project_of (Hook.envelope_field fields "cwd"))
                  learnings (RunState [] 0)) as (posts & Hloop & _ & _).
      now rewrite Hrun, Hloop. }
  split; [exact H|]. rewrite H. apply Hle.
Qed.

(** ** The readers of the two logs *)

Lemma startswith_refl (a : str) : Py.startswith a a = true.
Proof.
  induction a as [|c a IH]; [reflexivity|].
  cbn. now rewrite Ascii.eqb_refl, IH.
Qed.

Lemma text_eqb_refl (a : str) : Py.text_eqb a a = true.
Proof. unfold Py.text_eqb. now rewrite Nat.eqb_refl, startswith_refl. Qed.

Lemma with_file_same (w : world) (path : str) (f : file) :
  w_files (with_file w path f) path = f.
Proof. cbn. now rewrite text_eqb_refl. Qed.

(** A skipped line can be taken out of a log without changing what a
    reader does. *)
Lemma for_each_entry_skip S (w : world) (body : json -> M S unit)
    (pre post : list str) (line : str) (s : S) :
  skipped_line w line ->
  for_each_entry w (pre ++ line :: post) body s
  = for_each_entry w (pre ++ post) body s.
Proof.
  intros Hskip. unfold for_each_entry. rewrite !for_each_app.
  unfold bind. destruct (for_each pre _ s) as [s1 [[]|e]]; [|reflexivity].
  cbn [for_each]. unfold bind.
  destruct Hskip as [Hblank | Hbad].
  - now rewrite Hblank.
  - rewrite Hbad. now destruct (Py.strip line).
Qed.

Lemma for_each_entry_with_file S (w : world) (path : str) (f : file)
    (lines : list str) (body : json -> M S unit) :
  for_each_entry (with_file w path f) lines body = for_each_entry w lines body.
Proof. reflexivity. Qed.

(** X6: a blank line and a line that [json.loads] rejects with
    [JSONDecodeError] are passed over by both readers: taking such a line
    out of a log changes neither the agent name detected from it, nor the
    text reconstructed from it, nor the learnings extracted from it.  (A
    line on which [json.loads] raises anything else is not such a line: it
    ends the scan.) *)
Theorem skipped_lines_do_not_matter (w : world) (path : str)
    (pre post : list str) (line : str) :
  skipped_line w line ->
  detect_agent_name (with_file w path (Readable (pre ++ line :: post))) path
  = detect_agent_name (with_file w path (Readable (pre ++ post))) path
  /\ _extract_text_from_jsonl (with_file w path (Readable (pre ++ line :: post))) path
     = _extract_text_from_jsonl (with_file w path (Readable (pre ++ post))) path
  /\ extract_learnings (with_file w path (Readable (pre ++ line :: post))) path
     = extract_learnings (with_file w path (Readable (pre ++ post))) path.
Proof.
  intros Hskip.
  assert (Htext :
    _extract_text_from_jsonl (with_file w path (Readable (pre ++ line :: post))) path
    = _extract_text_from_jsonl (with_file w path (Readable (pre ++ post))) path).
  { unfold _extract_text_from_jsonl, transcript_parts, try_except, with_open.
    rewrite !with_file_same.
    rewrite !for_each_entry_with_file.
    now rewrite for_each_entry_skip. }
  split; [|split; [exact Htext|]].
  - unfold detect_agent_name, found_in, try_except, with_open.
    destruct path as [|c p]; [reflexivity|].
    rewrite !with_file_same. cbn [file_exists].
    rewrite !for_each_entry_with_file.
    now rewrite for_each_entry_skip.
  - unfold extract_learnings. destruct path as [|c p]; [reflexivity|].
    rewrite !with_file_same. cbn [file_exists]. now rewrite Htext.
Qed.

Lemma skipped_lines_witness :
  detect_agent_name Examples.mixed_world Examples.parent_path
  = detect_agent_name
      (with_file Examples.mixed_world Examples.parent_path
         (Readable (firstn 1 (map fst Examples.mixed_parent_log)
                    ++ skipn 2 (map fst Examples.mixed_parent_log))))
      Examples.parent_path.
Proof.
  transitivity
    (detect_agent_name
       (with_file Examples.mixed_world Examples.parent_path
          (Readable (firstn 1 (map fst Examples.mixed_parent_log)
                     ++ txt "not json" :: skipn 2 (map fst Examples.mixed_parent_log))))
       Examples.parent_path).
  - vm_compute. reflexivity.
  - apply (@skipped_lines_do_not_matter Examples.mixed_world Examples.parent_path
             (firstn 1 (map fst Examples.mixed_parent_log))
             (skipn 2 (map fst Examples.mixed_parent_log))
             (txt "not json")).
    right. vm_compute. reflexivity.
Defined.

Lemma for_each_entry_all_skipped S (w : world) (body : json -> M S unit)
    (lines : list str) :
  Forall (skipped_line w) lines ->
  forall s, for_each_entry w lines body s = (s, Ok tt).
Proof.
  unfold for_each_entry.
  induction 1 as [|l ls Hl Hls IH]; intros s; [reflexivity|].
  cbn [for_each]. unfold bind.
  destruct Hl as [Hblank | Hbad].
  - rewrite Hblank. exact (IH s).
  - rewrite Hbad. destruct (Py.strip l); exact (IH s).
Qed.

(** X7: [extract_learnings] returns the empty list, and raises nothing,
    when the path is empty, when [path.exists()] says that it names no
    file, when the file cannot be opened and when every line the file
    yields is blank or rejected by [json.loads] as not JSON, be the file
    read to its end or not.  When [path.exists()] itself raises, its
    [OSError] leaves the function. *)
Theorem nothing_to_read_gives_no_learnings (w : world) (path : str) :
  (path = []
   \/ w_files w path = Missing
   \/ w_files w path = Unreadable
   \/ (exists lines,
         (w_files w path = Readable lines
          \/ exists e, w_files w path = Interrupted lines e)
         /\ Forall (skipped_line w) lines) ->
   extract_learnings w path = Ok [])
  /\ (path <> [] -> w_files w path = Inaccessible ->
      extract_learnings w path = Raise OSError).
Proof.
  split.
  - intros H. unfold extract_learnings.
    destruct path as [|c p]; [reflexivity|].
    destruct H as [H | [H | [H | (lines & H & Hskip)]]]; [discriminate | | |].
    + now rewrite H.
    + rewrite H. cbn [file_exists].
      unfold _extract_text_from_jsonl, transcript_parts, try_except, with_open.
      now rewrite H.
    + unfold _extract_text_from_jsonl, transcript_parts, try_except, with_open.
      destruct H as [H | [e H]]; rewrite H; cbn [file_exists].
      * now rewrite (for_each_entry_all_skipped _ Hskip).
      * unfold bind. now rewrite (for_each_entry_all_skipped _ Hskip).
  - intros Hpath H. unfold extract_learnings.
    destruct path as [|c p]; [congruence|]. now rewrite H.
Qed.

Lemma nothing_to_read_witness :
  extract_learnings Examples.mixed_world (txt "/tmp/absent.jsonl") = Ok []
  /\ extract_learnings Examples.long_name_world Examples.long_name_path
     = Raise OSError.
Proof.
  split.
  - apply nothing_to_read_gives_no_learnings. right. left. vm_compute. reflexivity.
  - apply nothing_to_read_gives_no_learnings;
      [vm_compute; discriminate | vm_compute; reflexivity].
Defined.

(** ** The extraction from the text *)

Lemma no_header_without_hash (s : str) :
  forall off pv,
  forallb (fun c => negb (Ascii.eqb "#" c)) s = true ->
  Re.finditer_from header_pattern 0 off pv s = [].
Proof.
  induction s as [|c s IH]; intros off pv H; cbn [Re.finditer_from].
  - now rewrite header_not_at_end.
  - cbn [forallb] in H. apply andb_true_iff in H as [Hc Hs].
    apply negb_true_iff in Hc.
    rewrite (@header_needs_hash pv c s Hc). now apply IH.
Qed.

(** X9: a text without any [#] holds no recognized header, so no learnings
    are extracted from it, whatever lists it contains. *)
Theorem no_hash_no_learnings (text : str) :
  forallb (fun c => negb (Ascii.eqb "#" c)) text = true ->
  Re.finditer header_pattern text = [] /\ learnings_of_text text = [].
Proof.
  intros H. unfold learnings_of_text, Re.finditer.
  rewrite (no_header_without_hash text 0 None H).
  split; [reflexivity | now destruct (Py.strip text)].
Qed.

Lemma no_hash_no_learnings_witness :
  learnings_of_text Examples.numbered_then_bullets = [].
Proof.
  apply no_hash_no_learnings. vm_compute. reflexivity.
Defined.

(** X12: on a text that holds neither [*] nor a backquote,
    [_clean_markdown] only normalizes the whitespace: the result is the
    words of the text joined by single spaces. *)
Theorem clean_markdown_of_plain_text (s : str) :
  Spec.no_markers s = true ->
  _clean_markdown s = Py.join (txt " ") (Py.split s).
Proof. intros H. now rewrite (clean_markdown_no_markers s H). Qed.

Lemma clean_markdown_of_plain_text_witness :
  _clean_markdown (Examples.unlines ["  two"; "lines  of   text "])
  = txt "two lines of text".
Proof.
  rewrite clean_markdown_of_plain_text; vm_compute; reflexivity.
Defined.

Lemma in_join_words (ws : list str) (c : ascii) :
  In c (Py.join (txt " ") ws) -> c = " "%char \/ exists w, In w ws /\ In c w.
Proof.
  induction ws as [|w ws IH]; [intros []|].
  destruct ws as [|w' ws'].
  - cbn [Py.join]. intros H. right. exists w. split; [now left | exact H].
  - change (Py.join (txt " ") (w :: w' :: ws'))
      with (w ++ txt " " ++ Py.join (txt " ") (w' :: ws')).
    intros H. apply in_app_or in H as [H | H].
    + right. exists w. split; [now left | exact H].
    + apply in_app_or in H as [H | H].
      * left. destruct H as [H | []]. now symmetry.
      * destruct (IH H) as [Hc | (w0 & Hw0 & Hc)]; [now left|].
        right. exists w0. split; [now right | exact Hc].
Qed.

(** The output of [_clean_markdown] is whitespace-normalized. *)
Lemma clean_markdown_normalized (s : str) :
  Spec.normalize_space (_clean_markdown s) = _clean_markdown s
  /\ forall c, In c (_clean_markdown s) -> Py.isspace c = true -> c = " "%char.
Proof.
  unfold _clean_markdown. split.
  - apply normalize_space_idempotent.
  - intros c Hin Hspace.
    apply in_join_words in Hin as [Hc | (w & Hw & Hc)]; [exact Hc|].
    pose proof (split_words
                  (Re.sub_group italic_pattern
                     (Re.sub_group code_pattern (Re.sub_group bold_pattern s))))
      as Hwords.
    apply (proj1 (Forall_forall _ _) Hwords) in Hw as [_ Hns].
    apply (proj1 (forallb_forall _ _) Hns) in Hc.
    rewrite Hspace in Hc. discriminate.
Qed.

Lemma valid_items_cleaned (items : list str) (l : str) :
  In l (Spec.valid_items items) -> exists item, l = _clean_markdown item.
Proof.
  unfold Spec.valid_items. intros H. apply filter_In in H as [H _].
  apply in_map_iff in H as (item & <- & _). now exists item.
Qed.

Lemma learnings_of_text_cleaned (text : str) (l : str) :
  In l (learnings_of_text text) -> exists item, l = _clean_markdown item.
Proof.
  destruct (learnings_of_text_from_one text) as [-> | [m ->]]; [intros []|].
  rewrite section_learnings_by_cases.
  destruct (Spec.valid_items (Re.findall numbered_pattern (section_of text m)))
    eqn:Hnum.
  - apply valid_items_cleaned.
  - rewrite <- Hnum. apply valid_items_cleaned.
Qed.

(** X13: every learning [extract_learnings] returns is a single line of
    words separated by single spaces: joining its words by spaces gives
    the learning back, and the only whitespace character it can hold is
    the space (no line feed, no tab). *)
Theorem learnings_are_single_lines
    (w : world) (path : str) (learnings : list str) :
  extract_learnings w path = Ok learnings ->
  Forall (fun l =>
            Py.join (txt " ") (Py.split l) = l
            /\ forall c, In c l -> Py.isspace c = true -> c = " "%char)
         learnings.
Proof.
  intros H. apply Forall_forall. intros l Hl.
  assert (Hclean : exists item, l = _clean_markdown item).
  { unfold extract_learnings in H.
    destruct path as [|c p]; [apply Ok_inj in H; subst; destruct Hl|].
    destruct (file_exists (w_files w (c :: p))) as [[]|e];
      [|apply Ok_inj in H; subst; destruct Hl|discriminate].
    destruct (_extract_text_from_jsonl w (c :: p)) as [text|e]; [|discriminate].
    apply Ok_inj in H. subst learnings.
    now apply (learnings_of_text_cleaned text). }
  destruct Hclean as [item ->].
  apply clean_markdown_normalized.
Qed.

Lemma learnings_are_single_lines_witness :
  Forall (fun l =>
            Py.join (txt " ") (Py.split l) = l
            /\ forall c, In c l -> Py.isspace c = true -> c = " "%char)
         [txt "Always validate input boundaries before parsing.";
          txt "Cache misses should log at debug level."].
Proof.
  apply (@learnings_are_single_lines
           Examples.three_items_world Examples.agent_path).
  vm_compute. reflexivity.
Defined.

(** ** Where a pattern can match *)

Lemma rep_suffix (A : Type) (p : ascii -> bool) (g : bool) (s : str) :
  forall lo hi pv n (k : option ascii -> str -> nat -> option A) x,
  Re.rep p g lo hi pv s n k = Some x ->
  exists j,
    k (prev_at pv s j) (skipn j s) (n + j) = Some x
    /\ lo <= j <= length s
    /\ match hi with Some h => j <= h | None => True end
    /\ forallb p (firstn j s) = true.
Proof.
  induction s as [|c s IH]; intros lo hi pv n k x H; cbn [Re.rep] in H.
  - assert (Hk : k pv [] n = Some x /\ lo = 0).
    { destruct g, lo, hi as [[|h]|]; try discriminate;
        repeat match type of H with
               | match ?e with _ => _ end = Some _ => destruct e eqn:?
               end;
        try discriminate; try (injection H as <-); now split. }
    destruct Hk as [Hk ->]. exists 0. rewrite Nat.add_0_r. cbn.
    repeat split; try assumption; try lia. now destruct hi as [[|h]|]; try lia.
  - assert (Hstop : k pv (c :: s) n = Some x -> lo = 0 ->
             exists j,
               k (prev_at pv (c :: s) j) (skipn j (c :: s)) (n + j) = Some x
               /\ lo <= j <= length (c :: s)
               /\ match hi with Some h => j <= h | None => True end
               /\ forallb p (firstn j (c :: s)) = true).
    { intros Hk ->. exists 0. rewrite Nat.add_0_r. cbn.
      repeat split; try assumption; try lia. destruct hi; [lia | exact I]. }
    assert (Hmore : p c = true ->
             hi <> Some 0 ->
             Re.rep p g (Nat.pred lo) (option_map Nat.pred hi) (Some c) s (S n) k = Some x ->
             exists j,
               k (prev_at pv (c :: s) j) (skipn j (c :: s)) (n + j) = Some x
               /\ lo <= j <= length (c :: s)
               /\ match hi with Some h => j <= h | None => True end
               /\ forallb p (firstn j (c :: s)) = true).
    { intros Hc Hhi Hr.
      destruct (IH _ _ _ _ _ _ Hr) as (j & Hk & Hj & Hh & Hall).
      exists (S j). cbn [skipn firstn forallb length prev_at].
      replace (n + S j) with (S n + j) by lia.
      repeat split.
      - destruct j; exact Hk.
      - lia.
      - lia.
      - destruct hi as [[|h]|]; cbn in Hh; [congruence | lia | exact I].
      - now rewrite Hc, Hall. }
    destruct g, lo as [|lo], hi as [[|h]|], (p c) eqn:Hc;
      cbn [Nat.pred option_map] in H, Hmore; try discriminate;
      repeat match type of H with
             | match ?e with _ => _ end = Some _ => destruct e eqn:?
             end;
      try discriminate;
      try (injection H as <-);
      try (now apply Hstop);
      try (apply Hmore; [reflexivity | discriminate
                         | first [assumption | reflexivity]]).
Qed.

Lemma prev_at_skipn (pv : option ascii) (s : str) (i j : nat) :
  prev_at (prev_at pv s i) (skipn i s) j = prev_at pv s (i + j).
Proof.
  destruct j as [|j].
  - now rewrite Nat.add_0_r.
  - rewrite Nat.add_succ_r. cbn [prev_at]. apply nth_error_skipn.
Qed.

(** Every successful run hands over to the rest of the pattern at a later
    position of the same text; a pattern that ends with [$] hands over at
    the end of a line. *)
Lemma run_suffix (r : Re.regex) :
  forall (A : Type) (c : Re.cursor) (k : Re.cursor -> option A) x,
  Re.run r c k = Some x ->
  exists c' j,
    k c' = Some x
    /\ Re.pos c' = Re.pos c + j
    /\ Re.rest c' = skipn j (Re.rest c)
    /\ j <= length (Re.rest c)
    /\ Re.prev c' = prev_at (Re.prev c) (Re.rest c) j
    /\ (ends_with_eol r = true -> at_line_end (Re.rest c')).
Proof.
  induction r as [p|p lo hi g|r1 IH1 r2 IH2|r1 IH1 r2 IH2| | | | |r1 IH1|r1 IH1];
    intros A c k x H; cbn [Re.run ends_with_eol] in H |- *.
  - destruct (Re.rest c) as [|y s'] eqn:Hrest; [discriminate|].
    destruct (p y); [|discriminate].
    eexists. exists 1. split; [exact H|]. cbn. repeat split; try lia; try discriminate.
  - apply rep_suffix in H as (j & Hk & Hj & _ & _).
    eexists. exists j. split; [exact Hk|]. cbn. repeat split; try lia; try discriminate.
  - apply IH1 in H as (c1 & j1 & H & Hp1 & Hr1 & Hl1 & Hv1 & _).
    apply IH2 in H as (c2 & j2 & H & Hp2 & Hr2 & Hl2 & Hv2 & He2).
    exists c2, (j1 + j2). split; [exact H|].
    rewrite Hr1 in Hr2, Hl2, Hv2. rewrite length_skipn in Hl2.
    repeat split.
    + lia.
    + rewrite Hr2, skipn_skipn. f_equal. lia.
    + lia.
    + rewrite Hv2, Hv1. apply prev_at_skipn.
    + exact He2.
  - destruct (Re.run r1 c k) eqn:H1.
    + injection H as <-. apply IH1 in H1 as (c1 & j1 & H & Hp1 & Hr1 & Hl1 & Hv1 & _).
      exists c1, j1. repeat split; try assumption; try discriminate.
    + apply IH2 in H as (c2 & j2 & H & Hp2 & Hr2 & Hl2 & Hv2 & _).
      exists c2, j2. repeat split; try assumption; try discriminate.
  - exists c, 0. rewrite Nat.add_0_r. cbn. repeat split; try assumption; try lia;
      try discriminate.
  - exists c, 0. rewrite Nat.add_0_r. cbn. repeat split; try lia; try discriminate.
    destruct (Re.prev c) as [y|]; [|exact H].
    destruct (Re.is_newline y); [exact H|discriminate].
  - exists c, 0. rewrite Nat.add_0_r. cbn [skipn prev_at]. repeat split; try lia.
    + destruct (Re.rest c) as [|y s']; [exact H|].
      destruct (Re.is_newline y); [exact H|discriminate].
    + intros _. unfold at_line_end. destruct (Re.rest c) as [|y s']; [exact I|].
      unfold Re.is_newline in H. destruct (Ascii.eqb_spec y Py.newline);
        [assumption | discriminate].
  - exists c, 0. rewrite Nat.add_0_r. cbn. repeat split; try lia; try discriminate.
    destruct (Re.rest c) as [|y s']; [exact H|discriminate].
  - exists c, 0. rewrite Nat.add_0_r. cbn. repeat split; try lia; try discriminate.
    destruct (Re.run r1 c (fun _ => Some tt)); [exact H|discriminate].
  - apply IH1 in H as (c1 & j1 & H & Hp1 & Hr1 & Hl1 & Hv1 & _).
    eexists. exists j1. split; [exact H|]. cbn. repeat split; try assumption;
      try discriminate.
Qed.

Lemma run_starts_at_bol (r : Re.regex) (A : Type) (c : Re.cursor)
    (k : Re.cursor -> option A) x :
  starts_with_bol r = true -> Re.run r c k = Some x -> at_line_start (Re.prev c).
Proof.
  destruct r as [| |r1 r2| | | | | | |]; try discriminate.
  destruct r1; try discriminate. intros _. cbn [Re.run]. unfold at_line_start.
  destruct (Re.prev c) as [y|]; [|easy].
  unfold Re.is_newline. destruct (Ascii.eqb_spec y Py.newline); [easy|discriminate].
Qed.

(** A match is found at an offset of the text, from the character before
    that offset. *)
Lemma finditer_from_In (r : Re.regex) (s : str) :
  forall skip off pv m,
  In m (Re.finditer_from r skip off pv s) ->
  exists i n,
    Re.m_start m = off + i
    /\ Re.m_end m = off + i + n
    /\ i <= length s
    /\ Re.match_at r (prev_at pv s i) (skipn i s) = Some (n, Re.m_group m).
Proof.
  induction s as [|c s IH]; intros skip off pv m H; cbn [Re.finditer_from] in H.
  - destruct skip; [|destruct H].
    destruct (Re.match_at r pv []) as [[n g]|] eqn:Hm; [|destruct H].
    destruct H as [<- | []]. exists 0, n. cbn. rewrite Nat.add_0_r. now repeat split.
  - assert (Hlater : forall skip', In m (Re.finditer_from r skip' (S off) (Some c) s) ->
              exists i n,
                Re.m_start m = off + i
                /\ Re.m_end m = off + i + n
                /\ i <= length (c :: s)
                /\ Re.match_at r (prev_at pv (c :: s) i) (skipn i (c :: s))
                   = Some (n, Re.m_group m)).
    { intros skip' Hin. destruct (IH _ _ _ _ Hin) as (i & n & Hs & He & Hi & Hm).
      exists (S i), n. cbn [length skipn prev_at]. repeat split; try lia.
      destruct i; exact Hm. }
    destruct skip as [|skip]; [|now apply Hlater in H].
    destruct (Re.match_at r pv (c :: s)) as [[n g]|] eqn:Hm;
      [|now apply Hlater in H].
    destruct H as [<- | H]; [|now apply Hlater in H].
    exists 0, n. cbn. rewrite !Nat.add_0_r. repeat split; try lia. exact Hm.
Qed.

Lemma count_hashes_exact (s : str) :
  forall j,
  forallb (Re.only "#") (firstn j s) = true ->
  match skipn j s with
  | [] => False
  | c :: _ => Re.only "#" c = false
  end ->
  Spec.count_hashes s = j.
Proof.
  unfold Re.only.
  induction s as [|c s IH]; intros j Hall Hnext.
  - now destruct j.
  - destruct j as [|j]; cbn [firstn skipn forallb Spec.count_hashes] in *.
    + now rewrite Hnext.
    + apply andb_true_iff in Hall as [Hc Hall]. rewrite Hc. f_equal. now apply IH.
Qed.

(** Where [header_pattern] matches: at the start of a line, on two or three
    [#] followed by whitespace, up to the end of a line. *)
Lemma header_match_shape pv s n g :
  Re.match_at header_pattern pv s = Some (n, g) ->
  at_line_start pv
  /\ (Spec.count_hashes s = 2 \/ Spec.count_hashes s = 3)
  /\ at_line_end (skipn n s)
  /\ 1 <= n <= length s.
Proof.
  intros H. split; [|split; [|split]].
  - now apply (run_starts_at_bol header_pattern _ _ eq_refl H).
  - unfold header_pattern in H.
    match type of H with
    | Re.match_at (Re.Cat Re.Bol (Re.Cat _ (Re.Cat _ ?tail))) _ _ = _ =>
        remember tail as T eqn:HT
    end.
    unfold Re.match_at, Re.plus in H. cbn [Re.run Re.rest Re.pos Re.prev Re.grp] in H.
    assert (Hrep :
      Re.rep (Re.only "#") true 2 (Some 3) pv s 0
        (fun pv0 s0 n0 =>
           Re.rep Py.isspace true 1 None pv0 s0 n0
             (fun pv1 s1 n1 =>
                Re.run T (Re.Cursor pv1 s1 n1 None)
                  (fun c => Some (Re.pos c, Re.grp c)))) = Some (n, g)).
    { destruct pv as [y|]; [|exact H]. now destruct (Re.is_newline y). }
    clear H.
    apply rep_suffix in Hrep as (j & Hk & Hj & Hh & Hall).
    apply rep_suffix in Hk as (j2 & _ & Hj2 & _ & Hall2).
    assert (Hcount : Spec.count_hashes s = j).
    { apply count_hashes_exact; [exact Hall|].
      destruct (skipn j s) as [|c t]; [cbn in Hj2; lia|].
      destruct j2 as [|j2]; [lia|]. cbn [firstn forallb] in Hall2.
      apply andb_true_iff in Hall2 as [Hc _]. now apply space_is_not_hash. }
    lia.
  - unfold Re.match_at in H.
    apply run_suffix in H as (c' & j & Hk & Hp & Hr & Hl & _ & He).
    injection Hk as <- _. cbn in Hp, Hr. subst j. rewrite <- Hr.
    now apply He.
  - pose proof (match_at_min_len _ _ _ H) as Hmin.
    unfold Re.match_at in H.
    apply run_suffix in H as (c' & j & Hk & Hp & Hr & Hl & _ & He).
    injection Hk as <- _. cbn in Hp, Hl. subst j.
    split; [|exact Hl].
    assert (1 <= Re.min_len header_pattern) by (vm_compute; lia). lia.
Qed.

(** X10: every header [extract_learnings] finds starts at the start of a
    line with exactly two or three [#], is not empty, and ends at the end
    of a line (before a line feed, or at the end of the text). *)
Theorem headers_span_whole_lines (text : str) (m : Re.rmatch) :
  In m (Re.finditer header_pattern text) ->
  Re.m_start m < Re.m_end m <= length text
  /\ at_line_start (prev_at None text (Re.m_start m))
  /\ (Spec.count_hashes (skipn (Re.m_start m) text) = 2
      \/ Spec.count_hashes (skipn (Re.m_start m) text) = 3)
  /\ at_line_end (skipn (Re.m_end m) text).
Proof.
  intros H. unfold Re.finditer in H.
  apply finditer_from_In in H as (i & n & Hs & He & Hi & Hm).
  cbn [Nat.add] in Hs, He. rewrite Hs, He.
  apply header_match_shape in Hm as (Hstart & Hlevel & Hend & Hn).
  rewrite length_skipn in Hn. rewrite skipn_skipn in Hend.
  replace (i + n) with (n + i) by lia.
  repeat split; try assumption; lia.
Qed.

Lemma headers_span_whole_lines_witness :
  at_line_end (skipn 83 Examples.revised_report)
  /\ Spec.count_hashes (skipn 179 Examples.revised_report) = 3.
Proof.
  split.
  - apply (@headers_span_whole_lines Examples.revised_report
             Examples.revised_report_middle).
    vm_compute. right. left. reflexivity.
  - destruct (@headers_span_whole_lines Examples.revised_report
                Examples.revised_report_newest) as (_ & _ & [H | H] & _).
    + vm_compute. right. right. left. reflexivity.
    + vm_compute in H. discriminate.
    + exact H.
Defined.

(** ** What can make the reconstruction fail *)

Lemma keeps_bind_lift S A B (P : S -> Prop) (r : result A) (f : A -> M S B) :
  (forall a, r = Ok a -> keeps P (f a)) -> keeps P (bind (lift r) f).
Proof.
  intros Hf s H. unfold bind, lift.
  destruct r as [a|e]; cbn; [now apply (Hf a) | exact H].
Qed.

Lemma keeps_for_each_in S A (P : S -> Prop) (xs : list A) (body : A -> M S unit) :
  (forall x, In x xs -> keeps P (body x)) -> keeps P (for_each xs body).
Proof.
  induction xs as [|x xs IH]; intros Hbody; cbn [for_each].
  - apply keeps_ret.
  - apply keeps_bind; [apply Hbody; now left|].
    intros _. apply IH. intros y Hy. apply Hbody. now right.
Qed.

Lemma result_block_keeps_strings (block : json) :
  keeps (Forall is_string) (result_block block).
Proof.
  unfold result_block. destruct block; try apply keeps_ret.
  destruct (PyJson.eq_str _ _); [|apply keeps_ret].
  apply keeps_bind; [apply keeps_lift|]. intros text.
  destruct (PyJson.truthy text); [|apply keeps_ret].
  apply keeps_bind_lift. intros replaced Hr. apply keeps_append.
  destruct text; try discriminate. cbn in Hr. apply Ok_inj in Hr as <-.
  now eexists.
Qed.

Lemma user_item_keeps_strings (item : json) :
  keeps (Forall is_string) (user_item item).
Proof.
  unfold user_item. destruct item; try apply keeps_ret.
  destruct (PyJson.eq_str _ _); [|apply keeps_ret].
  apply keeps_bind; [apply keeps_lift|]. intros result_content.
  destruct result_content; try apply keeps_ret.
  apply keeps_for_each. apply result_block_keeps_strings.
Qed.

Lemma assistant_item_keeps_strings (item : json) :
  joinable_text_block item = true ->
  keeps (Forall is_string) (assistant_item item).
Proof.
  unfold assistant_item, joinable_text_block.
  destruct item as [| | | | | |fields]; try (intros _; apply keeps_ret).
  destruct (PyJson.eq_str _ _); [|intros _; apply keeps_ret].
  intros Hj. rewrite get_dict.
  apply keeps_bind_lift. intros text Ht. apply Ok_inj in Ht as <-.
  destruct (PyJson.lookup (txt "text") fields) as [v|]; [|apply keeps_ret].
  destruct (PyJson.truthy v) eqn:Hv; [|apply keeps_ret].
  apply keeps_append.
  destruct v as [| | | |t| |]; cbv beta iota in Hj;
    try (cbn [negb] in Hj; discriminate).
  now exists t.
Qed.

Lemma for_message_content_keeps (P : list json -> Prop) (entry : json)
    (body : json -> M (list json) unit) :
  (forall item, keeps P (body item)) ->
  keeps P (for_message_content entry body).
Proof.
  intros Hbody. unfold for_message_content.
  apply keeps_bind; [apply keeps_lift|]. intros message.
  apply keeps_bind; [apply keeps_lift|]. intros content.
  destruct content; try apply keeps_ret. now apply keeps_for_each.
Qed.

Lemma extract_entry_keeps_strings (entry : json) :
  joinable_record entry = true ->
  keeps (Forall is_string) (extract_entry entry).
Proof.
  unfold extract_entry, joinable_record. intros Hj.
  destruct entry as [| | | | | |fields];
    try (apply keeps_bind_lift; intros a Ha; discriminate).
  apply keeps_bind_lift. intros type Ht.
  rewrite get_dict in Ht. apply Ok_inj in Ht as <-.
  fold (PyJson.field fields (txt "type")).
  apply keeps_bind.
  { destruct (PyJson.eq_str (PyJson.field fields (txt "type")) (txt "assistant"));
      [|apply keeps_ret].
    unfold for_message_content. rewrite get_dict.
    apply keeps_bind_lift. intros message Hm. apply Ok_inj in Hm as <-.
    destruct (PyJson.lookup (txt "message") fields) as [message|].
    - destruct message as [| | | | | |message];
        try (apply keeps_bind_lift; intros a Ha; discriminate).
      rewrite get_dict.
      apply keeps_bind_lift. intros content Hc. apply Ok_inj in Hc as <-.
      destruct (PyJson.lookup (txt "content") message) as [[| | | | |items|]|];
        try apply keeps_ret.
      apply keeps_for_each_in. intros item Hin.
      apply assistant_item_keeps_strings.
      now apply (proj1 (forallb_forall _ _) Hj).
    - rewrite get_dict. cbn.
      apply keeps_bind_lift. intros content Hc. apply Ok_inj in Hc as <-.
      apply keeps_ret. }
  intros _. apply keeps_bind; [apply keeps_lift|]. intros type.
  apply keeps_bind.
  { destruct (PyJson.eq_str type (txt "user")); [|apply keeps_ret].
    apply for_message_content_keeps. apply user_item_keeps_strings. }
  intros _. apply keeps_bind; [apply keeps_lift|]. intros type'.
  destruct (PyJson.eq_str type' (txt "tool_result")); [|apply keeps_ret].
  apply keeps_bind; [apply keeps_lift|]. intros content.
  destruct content as [| | | |[|c t]| |]; try apply keeps_ret.
  apply keeps_bind_lift. intros replaced Hr. cbn in Hr. apply Ok_inj in Hr as <-.
  apply keeps_append. now eexists.
Qed.

Lemma strings_of_all_strings (parts : list json) :
  Forall is_string parts -> exists ss, strings_of parts = Ok ss.
Proof.
  induction 1 as [|v parts [s ->] _ [ss IH]]; [now exists []|].
  exists (s :: ss). cbn [strings_of]. now rewrite IH.
Qed.

Lemma strings_of_raises (parts : list json) (e : exc) :
  strings_of parts = Raise e -> e = Exception TypeError.
Proof.
  induction parts as [|v parts IH]; [discriminate|]. cbn [strings_of].
  destruct v; try (intros H; now injection H as <-).
  destruct (strings_of parts) as [ss|e']; [discriminate|].
  intros H. injection H as <-. now apply IH.
Qed.

(** X8: the reconstruction of the text returns a string whenever, in every
    assistant record among the lines the log yields, the [text] of every
    text block is absent, falsy or a string.  User records and legacy
    [tool_result] records never make it fail, and neither does a file that
    cannot be opened or read to its end, a line on which [json.loads]
    raises or a record of an unexpected shape. *)
Theorem joinable_records_give_a_text (w : world) (path : str) :
  (forall raw_line entry,
     In raw_line (lines_of (w_files w path)) ->
     w_json_loads w (Py.strip raw_line) = Parsed entry ->
     joinable_record entry = true) ->
  exists text, _extract_text_from_jsonl w path = Ok text.
Proof.
  intros H. unfold _extract_text_from_jsonl, join_parts, transcript_parts.
  assert (Hk : keeps (Forall is_string)
                 (try_except
                    (with_open w path
                       (fun fh => for_each_entry w fh extract_entry))
                    (fun _ => ret tt))).
  { apply keeps_try_except; [|intros e; apply keeps_ret].
    assert (Hscan : keeps (Forall is_string)
                      (for_each_entry w (lines_of (w_files w path)) extract_entry)).
    { unfold for_each_entry. apply keeps_for_each_in. intros raw_line Hin.
      destruct (Py.strip raw_line) as [|c l] eqn:Hs; [apply keeps_ret|].
      destruct (w_json_loads w (c :: l)) as [entry| |e] eqn:Hl;
        [|apply keeps_ret|apply keeps_raise].
      apply extract_entry_keeps_strings.
      apply (H raw_line entry Hin). now rewrite Hs. }
    unfold with_open.
    destruct (w_files w path) as [| | |lines|lines e]; try apply keeps_raise;
      cbn [lines_of] in Hscan; [exact Hscan|].
    apply keeps_bind; [exact Hscan | intros _; apply keeps_raise]. }
  specialize (Hk [] (Forall_nil _)).
  destruct (strings_of_all_strings Hk) as [ss Hss].
  rewrite Hss. now eexists.
Qed.

Lemma joinable_records_witness :
  exists text,
    _extract_text_from_jsonl Examples.tool_results_world Examples.agent_path
    = Ok text.
Proof.
  apply joinable_records_give_a_text.
  intros raw_line entry Hin Hl.
  assert (Hlines : lines_of (w_files Examples.tool_results_world Examples.agent_path)
                   = map fst Examples.tool_results_log)
    by (vm_compute; reflexivity).
  rewrite Hlines in Hin.
  destruct Hin as [<- | [<- | []]];
    (assert (Hentry : joinable_record entry = true);
     [|exact Hentry]);
    match type of Hl with
    | ?lhs = Parsed entry =>
        assert (Hv : exists v, lhs = Parsed v /\ joinable_record v = true)
          by (eexists; split; vm_compute; reflexivity)
    end;
    destruct Hv as (v & Hv & Hj); rewrite Hv in Hl;
    injection Hl as <-; exact Hj.
Defined.

(** X11: the only exception the reconstruction of the text raises is the
    [TypeError] of [str.join]: whatever happens while the log is read (the
    file cannot be opened or read to its end, [json.loads] raises, a record
    has an unexpected shape) is caught, and the parts read so far are
    joined.  [extract_learnings] raises that [TypeError], or the [OSError]
    of its [path.exists()], and nothing else. *)
Theorem reconstruction_raises_only_TypeError (w : world) (path : str) (e : exc) :
  (_extract_text_from_jsonl w path = Raise e -> e = Exception TypeError)
  /\ (extract_learnings w path = Raise e ->
      (e = Exception TypeError /\ file_exists (w_files w path) = Ok true)
      \/ (e = Exception OSError /\ w_files w path = Inaccessible)).
Proof.
  assert (Htext : forall p, _extract_text_from_jsonl w p = Raise e ->
                            e = Exception TypeError).
  { intros p. unfold _extract_text_from_jsonl, join_parts.
    destruct (strings_of (transcript_parts w p)) as [ss|e'] eqn:H;
      [discriminate|].
    intros He. injection He as <-. now apply (strings_of_raises _ H). }
  split; [apply Htext|].
  intros H. unfold extract_learnings in H.
  destruct path as [|c p]; [discriminate|].
  destruct (w_files w (c :: p)) eqn:Hfile; cbn [file_exists] in H;
    try discriminate;
    try (injection H as <-; right; now split);
    (destruct (_extract_text_from_jsonl w (c :: p)) as [text|e'] eqn:He;
     [discriminate|]; injection H as <-; left; split;
     [now apply (Htext (c :: p)) | reflexivity]).
Qed.

Lemma reconstruction_raises_witness :
  _extract_text_from_jsonl numeric_text_world Examples.agent_path
  = Raise TypeError.
Proof.
  assert (Hraises : exists e, _extract_text_from_jsonl numeric_text_world
                                Examples.agent_path = Raise e)
    by (eexists; vm_compute; reflexivity).
  destruct Hraises as [e H]. rewrite H. f_equal.
  exact (proj1 (@reconstruction_raises_only_TypeError
                  numeric_text_world Examples.agent_path e) H).
Defined.

(** ** The exit status *)

(** X14: the exit status depends on [setup_logging] alone.  When it raises,
    the exception reaches the top level: status 1, nothing posted.  Once it
    has returned the status is 0, whatever standard input, the files and
    the capture service do. *)
Theorem exit_status_is_zero_unless_logging_fails (w : world) :
  run_hook w
  = match w_setup_logging w with
    | inl _ => ([], 1%Z)
    | inr _ => (fst (run_hook w), 0%Z)
    end.
Proof.
  destruct (w_setup_logging w) as [e|[]] eqn:Hlog.
  - unfold run_hook, main, bind, lift. now rewrite Hlog.
  - rewrite (surjective_pairing (run_hook w)) at 1. f_equal.
    now apply main_exits_zero_once_logging_is_set_up.
Qed.

(** ** A parent log without anything to read *)

(** X15: the detected agent name is ["unknown"] when the path of the
    parent log is empty, when [path.exists()] says that it names no file,
    when the file cannot be opened and when every line the file yields is
    blank or rejected by [json.loads] as not JSON, be the file read to its
    end or not.  When [path.exists()] itself raises, its [OSError] leaves
    the function. *)
Theorem nothing_to_read_gives_unknown (w : world) (path : str) :
  (path = []
   \/ w_files w path = Missing
   \/ w_files w path = Unreadable
   \/ (exists lines,
         (w_files w path = Readable lines
          \/ exists e, w_files w path = Interrupted lines e)
         /\ Forall (skipped_line w) lines) ->
   detect_agent_name w path = Ok unknown)
  /\ (path <> [] -> w_files w path = Inaccessible ->
      detect_agent_name w path = Raise OSError).
Proof.
  split.
  - intros H. unfold detect_agent_name.
    destruct path as [|c p]; [reflexivity|].
    destruct H as [H | [H | [H | (lines & H & Hskip)]]]; [discriminate | | |].
    + now rewrite H.
    + rewrite H. cbn [file_exists]. unfold found_in, try_except, with_open.
      now rewrite H.
    + unfold found_in, try_except, with_open.
      destruct H as [H | [e H]]; rewrite H; cbn [file_exists].
      * now rewrite (for_each_entry_all_skipped _ Hskip).
      * unfold bind. now rewrite (for_each_entry_all_skipped _ Hskip).
  - intros Hpath H. unfold detect_agent_name.
    destruct path as [|c p]; [congruence|]. now rewrite H.
Qed.

Lemma nothing_to_read_gives_unknown_witness :
  detect_agent_name
    (Examples.world_of_logs
       [(Examples.parent_path, [(txt "not json", NotJson); (txt "   ", NotJson)])])
    Examples.parent_path
  = Ok unknown
  /\ detect_agent_name Examples.long_name_world Examples.long_name_path
     = Raise OSError.
Proof.
  split.
  - apply nothing_to_read_gives_unknown. right. right. right.
    exists [txt "not json"; txt "   "]. split; [left; vm_compute; reflexivity|].
    apply Forall_cons; [right; vm_compute; reflexivity|].
    apply Forall_cons; [left; vm_compute; reflexivity|].
    apply Forall_nil.
  - apply nothing_to_read_gives_unknown;
      [vm_compute; discriminate | vm_compute; reflexivity].
Defined.

(** ** Which header lines are found *)

(** Settles the attempts of the matcher that depend on the text after a
    header line. *)
Ltac settle_stuck H :=
  repeat (cbv beta iota in H;
          match type of H with
          | context [match ?e with Some _ => _ | None => _ end] =>
              lazymatch e with
              | Some _ => fail
              | None => fail
              | match _ with Some _ => _ | None => _ end => fail
              | _ => destruct e
              end
          end);
  cbv beta iota in H.

Lemma header_line_matches (hashes keyword : string) (colon : bool)
    (pv : option ascii) (tail : str) :
  In hashes ["##"; "###"] ->
  In keyword header_keywords ->
  at_line_start pv ->
  at_line_end tail ->
  Re.match_at header_pattern pv (header_line hashes keyword colon ++ tail) <> None.
Proof.
  intros Hh Hk Hpv Htail.
  assert (Hpv' : pv = None \/ pv = Some Py.newline).
  { destruct pv; [right; now rewrite Hpv | now left]. }
  assert (Htail' : tail = [] \/ exists rest, tail = Py.newline :: rest).
  { destruct tail as [|c rest]; [now left|]. right. exists rest. now rewrite Htail. }
  clear Hpv Htail. unfold header_keywords in Hk. cbn [In] in Hh, Hk.
  destruct Hpv' as [-> | ->], Htail' as [-> | [rest ->]], colon;
    repeat match goal with
           | H : _ \/ _ |- _ => destruct H as [<- | H]
           | H : False |- _ => destruct H
           end;
    intros H; vm_compute in H; settle_stuck H; discriminate.
Qed.

Lemma forallb_firstn_add (q : ascii -> bool) (s : str) :
  forall i j,
  forallb q (firstn (i + j) s)
  = forallb q (firstn i s) && forallb q (firstn j (skipn i s)).
Proof.
  induction s as [|c s IH]; intros i j.
  - rewrite !firstn_nil, skipn_nil, firstn_nil. reflexivity.
  - destruct i as [|i]; [reflexivity|].
    cbn [Nat.add firstn skipn forallb]. now rewrite IH, andb_assoc.
Qed.

(** The characters a successful run has consumed all lie within the
    classes of the pattern, and there are at least [min_len] of them. *)
Lemma run_classes (q : ascii -> bool) (r : Re.regex) :
  classes_within q r ->
  forall (A : Type) (c : Re.cursor) (k : Re.cursor -> option A) x,
  Re.run r c k = Some x ->
  exists c' j,
    k c' = Some x
    /\ Re.pos c' = Re.pos c + j
    /\ Re.rest c' = skipn j (Re.rest c)
    /\ Re.min_len r <= j <= length (Re.rest c)
    /\ forallb q (firstn j (Re.rest c)) = true.
Proof.
  induction r as [p|p lo hi g|r1 IH1 r2 IH2|r1 IH1 r2 IH2| | | | |r1 IH1|r1 IH1];
    intros Hq A c k x H; cbn [Re.run Re.min_len classes_within] in H, Hq |- *.
  - destruct (Re.rest c) as [|y s'] eqn:Hrest; [discriminate|].
    destruct (p y) eqn:Hy; [|discriminate].
    eexists. exists 1. split; [exact H|]. cbn. rewrite (Hq y Hy).
    repeat split; lia.
  - apply rep_suffix in H as (j & Hk & Hj & _ & Hall).
    eexists. exists j. split; [exact Hk|]. cbn. repeat split; try lia.
    apply forallb_forall. intros y Hy. apply Hq.
    now apply (proj1 (forallb_forall _ _) Hall).
  - destruct Hq as [Hq1 Hq2].
    apply (IH1 Hq1) in H as (c1 & j1 & H & Hp1 & Hr1 & Hm1 & Ha1).
    apply (IH2 Hq2) in H as (c2 & j2 & H & Hp2 & Hr2 & Hm2 & Ha2).
    exists c2, (j1 + j2). split; [exact H|].
    rewrite Hr1 in Hr2, Ha2, Hm2. rewrite length_skipn in Hm2.
    repeat split.
    + lia.
    + rewrite Hr2, skipn_skipn. f_equal. lia.
    + lia.
    + lia.
    + now rewrite forallb_firstn_add, Ha1, Ha2.
  - destruct Hq as [Hq1 Hq2]. destruct (Re.run r1 c k) eqn:H1.
    + injection H as <-.
      apply (IH1 Hq1) in H1 as (c1 & j1 & H & Hp1 & Hr1 & Hm1 & Ha1).
      exists c1, j1. repeat split; try assumption; lia.
    + apply (IH2 Hq2) in H as (c2 & j2 & H & Hp2 & Hr2 & Hm2 & Ha2).
      exists c2, j2. repeat split; try assumption; lia.
  - exists c, 0. rewrite Nat.add_0_r. repeat split; try reflexivity; try lia.
    exact H.
  - exists c, 0. rewrite Nat.add_0_r. repeat split; try reflexivity; try lia.
    destruct (Re.prev c) as [y|]; [|exact H].
    destruct (Re.is_newline y); [exact H|discriminate].
  - exists c, 0. rewrite Nat.add_0_r. repeat split; try reflexivity; try lia.
    destruct (Re.rest c) as [|y s']; [exact H|].
    destruct (Re.is_newline y); [exact H|discriminate].
  - exists c, 0. rewrite Nat.add_0_r. repeat split; try reflexivity; try lia.
    destruct (Re.rest c) as [|y s']; [exact H|discriminate].
  - exists c, 0. rewrite Nat.add_0_r. repeat split; try reflexivity; try lia.
    destruct (Re.run r1 c (fun _ => Some tt)); [exact H|discriminate].
  - apply (IH1 Hq) in H as (c1 & j1 & H & Hp1 & Hr1 & Hm1 & Ha1).
    eexists. exists j1. split; [exact H|]. cbn. repeat split; try assumption; lia.
Qed.

Lemma count_hashes_nth (s : str) :
  forall i, i < Spec.count_hashes s -> nth_error s i = Some "#"%char.
Proof.
  induction s as [|c s IH]; intros i Hi; cbn [Spec.count_hashes] in Hi; [lia|].
  destruct (Ascii.eqb_spec "#" c) as [<-|]; [|lia].
  destruct i as [|i]; [reflexivity|]. cbn [nth_error]. apply IH. lia.
Qed.

Lemma forallb_firstn_nth (q : ascii -> bool) (s : str) :
  forall m i c,
  forallb q (firstn m s) = true -> i < m -> nth_error s i = Some c -> q c = true.
Proof.
  induction s as [|y s IH]; intros m i c Hall Hi Hc.
  - now destruct i.
  - destruct m as [|m]; [lia|]. cbn [firstn forallb] in Hall.
    apply andb_true_iff in Hall as [Hy Hall].
    destruct i as [|i]; cbn [nth_error] in Hc.
    + now injection Hc as <-.
    + apply (IH m i c Hall); [lia | exact Hc].
Qed.

(** A header match holds its [#] in front: what follows them within the
    match holds none. *)
Lemma header_hashes_in_front pv s n g :
  Re.match_at header_pattern pv s = Some (n, g) ->
  Spec.count_hashes s < n
  /\ forallb not_hash
       (firstn (n - Spec.count_hashes s) (skipn (Spec.count_hashes s) s)) = true.
Proof.
  intros H. unfold header_pattern in H.
  match type of H with
  | Re.match_at (Re.Cat Re.Bol (Re.Cat _ ?tail)) _ _ = _ =>
      assert (Hq : classes_within not_hash tail);
      [|assert (Hmin : 1 <= Re.min_len tail) by (vm_compute; lia);
        remember tail as T eqn:HT]
  end.
  { unfold Re.lit_ci, Re.plus, Re.star, Re.maybe, Re.opt.
    cbn [classes_within fold_right txt list_ascii_of_string].
    repeat split; intros x Hx; unfold not_hash;
      (destruct (Ascii.eqb_spec "#" x) as [<-|]; [vm_compute in Hx; discriminate|]);
      reflexivity. }
  unfold Re.match_at in H. cbn [Re.run Re.rest Re.pos Re.prev Re.grp] in H.
  assert (Hrep :
    Re.rep (Re.only "#") true 2 (Some 3) pv s 0
      (fun pv0 s0 n0 =>
         Re.run T (Re.Cursor pv0 s0 n0 None)
           (fun c => Some (Re.pos c, Re.grp c))) = Some (n, g)).
  { destruct pv as [y|]; [|exact H]. now destruct (Re.is_newline y). }
  clear H.
  apply rep_suffix in Hrep as (j & Hk & Hj & Hh & Hall).
  apply (@run_classes not_hash T Hq) in Hk as (c' & j' & Hk & Hp & Hr & Hm & Ha).
  injection Hk as <- _. cbn [Re.pos Re.rest] in Hp, Ha, Hm, Hr.
  assert (Hcount : Spec.count_hashes s = j).
  { apply count_hashes_exact; [exact Hall|].
    destruct (skipn j s) as [|c t]; [cbn [length] in Hm; lia|].
    destruct j' as [|j']; [lia|]. cbn [firstn forallb] in Ha.
    apply andb_true_iff in Ha as [Hc _]. unfold not_hash in Hc.
    unfold Re.only. now apply negb_true_iff in Hc. }
  rewrite Hcount, Hp. split; [lia|].
  now replace (0 + j + j' - j) with j' by lia.
Qed.

Lemma prev_at_cons (pv : option ascii) (c : ascii) (l : str) (i : nat) :
  prev_at (Some c) l i = prev_at pv (c :: l) (S i).
Proof. now destruct i. Qed.

(** A position where the pattern matches and into which no earlier match
    reaches starts a match of the scan. *)
Lemma finditer_from_finds (r : Re.regex) (s : str) :
  forall pre skip off pv,
  skip <= length pre ->
  (forall i n g,
     i < length pre ->
     Re.match_at r (prev_at pv (pre ++ s) i) (skipn i (pre ++ s)) = Some (n, g) ->
     i + n <= length pre) ->
  Re.match_at r (prev_at pv (pre ++ s) (length pre)) s <> None ->
  exists m,
    In m (Re.finditer_from r skip off pv (pre ++ s))
    /\ Re.m_start m = off + length pre.
Proof.
  induction pre as [|c pre IH]; intros skip off pv Hskip Hclear Hhere.
  - cbn [length] in Hskip. assert (skip = 0) by lia. subst skip.
    cbn [app length prev_at] in *. rewrite Nat.add_0_r.
    destruct (Re.match_at r pv s) as [[n g]|] eqn:Hm; [|congruence].
    exists (Re.RMatch off (off + n) g). split; [|reflexivity].
    destruct s; cbn [Re.finditer_from]; rewrite Hm; now left.
  - assert (Hlater : forall skip',
              skip' <= length pre ->
              exists m,
                In m (Re.finditer_from r skip' (S off) (Some c) (pre ++ s))
                /\ Re.m_start m = off + length (c :: pre)).
    { intros skip' Hskip'.
      destruct (IH skip' (S off) (Some c) Hskip') as (m & Hin & Hstart).
      - intros i n g Hi Hm. rewrite (prev_at_cons pv) in Hm.
        specialize (Hclear (S i) n g). cbn [length app skipn] in Hclear.
        apply Hclear in Hm; lia.
      - rewrite (prev_at_cons pv). exact Hhere.
      - exists m. split; [exact Hin|]. cbn [length]. lia. }
    cbn [app Re.finditer_from].
    destruct skip as [|skip]; [|cbn [length] in Hskip; apply Hlater; lia].
    destruct (Re.match_at r pv (c :: pre ++ s)) as [[n g]|] eqn:Hm.
    + specialize (Hclear 0 n g). cbn [length app skipn prev_at] in Hclear.
      destruct (Hlater (Nat.pred n)) as (m & Hin & Hstart).
      { assert (0 + n <= S (length pre)) by (apply Hclear; [lia | exact Hm]). lia. }
      exists m. split; [now right | exact Hstart].
    + destruct (Hlater 0) as (m & Hin & Hstart); [lia|].
      now exists m.
Qed.

(** X16: a header line is found wherever it stands.  A line made of [##]
    or [###], one space, one of the six phrases and an optional colon, that
    starts at the start of a line of the text and ends at the end of a line
    or of the text, starts a header match of [extract_learnings], whatever
    text stands before and after it. *)
Theorem header_lines_are_found
    (before : str) (hashes keyword : string) (colon : bool) (tail : str) :
  In hashes ["##"; "###"] ->
  In keyword header_keywords ->
  at_line_start (prev_at None before (length before)) ->
  at_line_end tail ->
  exists m,
    In m (Re.finditer header_pattern
            (before ++ header_line hashes keyword colon ++ tail))
    /\ Re.m_start m = length before.
Proof.
  intros Hh Hk Hbefore Htail.
  set (line := header_line hashes keyword colon ++ tail).
  assert (Hline : exists l, line = "#"%char :: l).
  { unfold line, header_line. cbn [In] in Hh.
    destruct Hh as [<- | [<- | []]]; now eexists. }
  destruct Hline as [l Hl].
  assert (Hprev : prev_at None (before ++ line) (length before)
                  = prev_at None before (length before)).
  { destruct (length before) as [|n] eqn:Hn; [reflexivity|].
    cbn [prev_at]. apply nth_error_app1. lia. }
  unfold Re.finditer.
  destruct (@finditer_from_finds header_pattern line before 0 0 None)
    as (m & Hin & Hstart).
  - lia.
  - intros i n g Hi Hm. cbn [prev_at] in Hm.
    apply header_hashes_in_front in Hm as [Hcount Hclean].
    destruct (Nat.le_gt_cases (i + n) (length before)) as [|Hover]; [assumption|].
    exfalso.
    assert (Hhash : nth_error (skipn i (before ++ line)) (length before - i)
                    = Some "#"%char).
    { rewrite nth_error_skipn. replace (i + (length before - i)) with (length before) by lia.
      rewrite nth_error_app2, Nat.sub_diag, Hl by lia. reflexivity. }
    destruct (Nat.lt_ge_cases (length before - i)
                (Spec.count_hashes (skipn i (before ++ line)))) as [Hin | Hout].
    + assert (Hnl : nth_error (skipn i (before ++ line)) (length before - i - 1)
                    = Some "#"%char) by (apply count_hashes_nth; lia).
      rewrite nth_error_skipn in Hnl.
      replace (i + (length before - i - 1)) with (length before - 1) in Hnl by lia.
      rewrite nth_error_app1 in Hnl by lia.
      destruct (length before) as [|n0] eqn:Hn; [lia|].
      cbn [prev_at] in Hbefore.
      replace (S n0 - 1) with n0 in Hnl by lia.
      rewrite Hnl in Hbefore. discriminate.
    + assert (Hno : not_hash "#" = true).
      { apply (@forallb_firstn_nth not_hash _ _
                 (length before - i - Spec.count_hashes (skipn i (before ++ line)))
                 "#"%char Hclean); [lia|].
        rewrite nth_error_skipn.
        replace (Spec.count_hashes (skipn i (before ++ line))
                 + (length before - i - Spec.count_hashes (skipn i (before ++ line))))
          with (length before - i) by lia.
        exact Hhash. }
      discriminate.
  - rewrite Hprev. unfold line. now apply header_line_matches.
  - exists m. split; [exact Hin | exact Hstart].
Qed.

Lemma header_lines_are_found_witness :
  exists m,
    In m (Re.finditer header_pattern
            (Examples.unlines ["Report"; "### Key Learning:"; "1. and so on"]))
    /\ Re.m_start m = 7.
Proof.
  apply (@header_lines_are_found (txt "Report" ++ [Py.newline])
           "###" "Key Learning" true (Py.newline :: txt "1. and so on")).
  - right. now left.
  - right. right. right. now left.
  - reflexivity.
  - reflexivity.
Defined.

(** ** Letter case *)

Ltac every_char x := destruct x as [[] [] [] [] [] [] [] []]; reflexivity.

Lemma lower_lower (x : ascii) : Py.lower (Py.lower x) = Py.lower x.
Proof. every_char x. Qed.

Lemma isspace_lower (x : ascii) : Py.isspace (Py.lower x) = Py.isspace x.
Proof. every_char x. Qed.

Lemma is_newline_lower (x : ascii) : Re.is_newline (Py.lower x) = Re.is_newline x.
Proof. every_char x. Qed.

Lemma only_hash_lower (x : ascii) : Re.only "#" (Py.lower x) = Re.only "#" x.
Proof. every_char x. Qed.

Lemma only_colon_lower (x : ascii) : Re.only ":" (Py.lower x) = Re.only ":" x.
Proof. every_char x. Qed.

Lemma only_ci_lower (c x : ascii) : Re.only_ci c (Py.lower x) = Re.only_ci c x.
Proof. unfold Re.only_ci. now rewrite lower_lower. Qed.

Lemma rep_lower (A B : Type) (f : A -> B) (p : ascii -> bool) (g : bool)
    (k : option ascii -> str -> nat -> option A)
    (k' : option ascii -> str -> nat -> option B) :
  (forall x, p (Py.lower x) = p x) ->
  (forall pv s n,
     k' (option_map Py.lower pv) (map Py.lower s) n = option_map f (k pv s n)) ->
  forall s lo hi pv n,
  Re.rep p g lo hi (option_map Py.lower pv) (map Py.lower s) n k'
  = option_map f (Re.rep p g lo hi pv s n k).
Proof.
  intros Hp Hk. induction s as [|c s IH]; intros lo hi pv n; cbn [map Re.rep].
  - pose proof (Hk pv [] n) as Hk0. cbn [map] in Hk0. rewrite Hk0.
    destruct g, lo, hi as [[|h]|]; cbn [option_map]; try reflexivity;
      now destruct (k pv [] n).
  - pose proof (Hk pv (c :: s) n) as Hk0. cbn [map] in Hk0. rewrite Hp, Hk0.
    change (Some (Py.lower c)) with (option_map Py.lower (Some c)).
    rewrite IH.
    destruct g, lo, hi as [[|h]|], (p c); cbn [option_map Nat.pred];
      try reflexivity;
      repeat match goal with
             | |- context [match option_map f ?e with _ => _ end] =>
                 destruct e; cbn [option_map]
             | |- context [match ?e with Some _ => _ | None => _ end] =>
                 destruct e; cbn [option_map]
             end;
      reflexivity.
Qed.

(** On a case-blind pattern the matcher does on the lower-cased text what
    it does on the text. *)
Lemma run_lower (r : Re.regex) :
  case_blind r ->
  forall (A B : Type) (f : A -> B) (c : Re.cursor)
         (k : Re.cursor -> option A) (k' : Re.cursor -> option B),
  (forall c', k' (lower_cursor c') = option_map f (k c')) ->
  Re.run r (lower_cursor c) k' = option_map f (Re.run r c k).
Proof.
  induction r as [p|p lo hi g|r1 IH1 r2 IH2|r1 IH1 r2 IH2| | | | |r1 IH1|r1 IH1];
    intros Hr A B f c k k' Hk; cbn [Re.run case_blind] in Hr |- *.
  - cbn [lower_cursor Re.rest Re.pos Re.grp].
    destruct (Re.rest c) as [|x s'] eqn:Hrest; cbn [map]; [reflexivity|].
    rewrite Hr. destruct (p x); [|reflexivity].
    now rewrite <- Hk.
  - cbn [lower_cursor Re.rest Re.pos Re.prev Re.grp].
    apply rep_lower; [exact Hr|]. intros pv s n.
    now rewrite <- Hk.
  - destruct Hr as [Hr1 Hr2]. apply (IH1 Hr1). intros c'. now apply (IH2 Hr2).
  - destruct Hr as [Hr1 Hr2].
    rewrite (IH1 Hr1 A B f c k k' Hk), (IH2 Hr2 A B f c k k' Hk).
    now destruct (Re.run r1 c k).
  - apply Hk.
  - cbn [lower_cursor Re.prev]. destruct (Re.prev c) as [x|]; cbn [option_map].
    + rewrite is_newline_lower. destruct (Re.is_newline x); [apply Hk | reflexivity].
    + apply Hk.
  - cbn [lower_cursor Re.rest]. destruct (Re.rest c) as [|x s']; cbn [map].
    + apply Hk.
    + rewrite is_newline_lower. destruct (Re.is_newline x); [apply Hk | reflexivity].
  - cbn [lower_cursor Re.rest]. destruct (Re.rest c) as [|x s']; cbn [map];
      [apply Hk | reflexivity].
  - rewrite (IH1 Hr unit unit (fun u => u) c (fun _ => Some tt) (fun _ => Some tt));
      [|reflexivity].
    destruct (Re.run r1 c (fun _ => Some tt)); cbn [option_map];
      [apply Hk | reflexivity].
  - apply (IH1 Hr). intros c'. rewrite <- Hk.
    cbn [lower_cursor Re.prev Re.rest Re.pos Re.grp option_map].
    now rewrite firstn_map.
Qed.

Lemma match_at_lower (r : Re.regex) (pv : option ascii) (s : str) :
  case_blind r ->
  Re.match_at r (option_map Py.lower pv) (map Py.lower s)
  = option_map (fun ng => (fst ng, option_map (map Py.lower) (snd ng)))
               (Re.match_at r pv s).
Proof.
  intros Hr. unfold Re.match_at.
  change (Re.Cursor (option_map Py.lower pv) (map Py.lower s) 0 None)
    with (lower_cursor (Re.Cursor pv s 0 None)).
  now apply run_lower.
Qed.

Lemma finditer_from_lower (r : Re.regex) (s : str) :
  case_blind r ->
  forall skip off pv,
  Re.finditer_from r skip off (option_map Py.lower pv) (map Py.lower s)
  = map lower_match (Re.finditer_from r skip off pv s).
Proof.
  intros Hr. induction s as [|c s IH]; intros skip off pv;
    cbn [map Re.finditer_from].
  - destruct skip; [|reflexivity].
    change (@nil ascii) with (map Py.lower []) at 1.
    rewrite (@match_at_lower r pv [] Hr).
    now destruct (Re.match_at r pv []) as [[n g]|].
  - destruct skip as [|skip].
    + change (Py.lower c :: map Py.lower s) with (map Py.lower (c :: s)).
      rewrite (@match_at_lower r pv (c :: s) Hr).
      destruct (Re.match_at r pv (c :: s)) as [[n g]|];
        cbn [option_map fst snd map];
        change (Some (Py.lower c)) with (option_map Py.lower (Some c));
        now rewrite IH.
    + change (Some (Py.lower c)) with (option_map Py.lower (Some c)). apply IH.
Qed.

Lemma header_pattern_case_blind : case_blind header_pattern.
Proof.
  unfold header_pattern, Re.lit_ci, Re.plus, Re.star, Re.maybe, Re.opt.
  cbn [case_blind fold_right txt list_ascii_of_string].
  repeat split; intros x;
    first [ apply only_ci_lower | apply isspace_lower
          | apply only_hash_lower | apply only_colon_lower ].
Qed.

(** X17: header detection ignores letter case.  Two texts that differ only
    in the case of their ASCII letters hold their learnings headers at the
    same places. *)
Theorem header_detection_ignores_case (a b : str) :
  map Py.lower a = map Py.lower b ->
  map span (Re.finditer header_pattern a)
  = map span (Re.finditer header_pattern b).
Proof.
  intros Hab.
  assert (Hlow : forall s,
            map span (Re.finditer header_pattern (map Py.lower s))
            = map span (Re.finditer header_pattern s)).
  { intros s. unfold Re.finditer.
    change (@None ascii) with (option_map Py.lower None) at 1.
    rewrite (@finditer_from_lower header_pattern s header_pattern_case_blind).
    rewrite map_map. reflexivity. }
  now rewrite <- (Hlow a), <- (Hlow b), Hab.
Qed.

Lemma header_detection_ignores_case_witness :
  map span (Re.finditer header_pattern
              (Examples.unlines ["## KEY LEARNINGS:"; "1. SHOUTED"; "### aprendizajes"]))
  = [(0, 17); (29, 45)].
Proof.
  rewrite (@header_detection_ignores_case _
             (Examples.unlines ["## Key Learnings:"; "1. shouted"; "### Aprendizajes"])).
  - vm_compute. reflexivity.
  - vm_compute. reflexivity.
Defined.
